(** * Finance ML service ([ml-service/main.py]): a shallow embedding

    The service exposes stateless analysis endpoints over a list of
    transactions.  This development embeds the request handlers
    [clustering_analysis], [anomaly_detection], [expense_forecasting] and
    [score_single_transaction] together with the helpers they call, and
    states the properties of the specification over them.  The feature
    table [_engineer_features_for_clustering], the keyword categoriser
    [categorize_transaction] and the budget optimiser [optimize_budget]
    are embedded as well, with further properties of all handlers at the
    end of the file.

    Conventions of the embedding.

    - Python and numpy floats are idealised as real numbers ([R]); the one
      non-real value the code meets, NaN (pandas' mean of an empty series,
      standard deviation of fewer than two values, quantile of an empty
      series), is kept explicit in the type [pyfloat], with the comparison
      and [max]/[min] behaviour Python gives it.
    - A raised exception is a value: handlers return [result A].  The
      [try: ... except Exception as e:] wrapper of every endpoint is
      [try_except].
    - Numerical library code (scikit-learn's KMeans and IsolationForest behind
      the feature tables and the scaler, numpy's polyfit) is not embedded: an
      endpoint takes it as a Section variable, and theorems hold for every
      behaviour of it.
    - f-strings that print floats are kept as structured values (a
      constructor per template, with the numbers it prints); the free-text
      [summary] fields and [feature_importance] are left out of the
      responses.
    - A [date] is the parsed timestamp ([pd.to_datetime]) in nanoseconds
      since 1970-01-01T00:00, without time zone.  The embedding starts after
      the parse: on a date string pandas cannot parse, the endpoint raises
      inside its [try] and answers 500.  Statements about what an endpoint
      answers are therefore stated for the requests on which it returns. *)

From Stdlib Require Import String.
From Stdlib Require Import Reals Lra Lia ZArith List Bool DecimalString.
From Stdlib Require Import Sorting.Permutation Sorting.Sorted.
Import ListNotations.

Open Scope string_scope.
Open Scope Z_scope.
Open Scope R_scope.

(** ** Numbers *)

Module Num.

Definition Rltb (x y : R) : bool := if Rlt_dec x y then true else false.
Definition Rleb (x y : R) : bool := if Rle_dec x y then true else false.
Definition Rgtb (x y : R) : bool := Rltb y x.
Definition Rgeb (x y : R) : bool := Rleb y x.

(** A float as the code sees it: a real number, or NaN. *)
Inductive pyfloat : Type :=
| NaN
| Fin (r : R).

Definition lift1 (f : R -> R) (a : pyfloat) : pyfloat :=
  match a with
  | Fin x => Fin (f x)
  | NaN => NaN
  end.

Definition lift2 (f : R -> R -> R) (a b : pyfloat) : pyfloat :=
  match a, b with
  | Fin x, Fin y => Fin (f x y)
  | _, _ => NaN
  end.

Definition fadd := lift2 Rplus.
Definition fsub := lift2 Rminus.
Definition fmul := lift2 Rmult.
Definition fdiv := lift2 Rdiv.
Definition fabs := lift1 Rabs.
Definition fneg := lift1 Ropp.

(** Every comparison with NaN is false. *)
Definition cmp (f : R -> R -> bool) (a b : pyfloat) : bool :=
  match a, b with
  | Fin x, Fin y => f x y
  | _, _ => false
  end.

Definition flt := cmp Rltb.
Definition fle := cmp Rleb.
Definition fgt := cmp Rgtb.
Definition fge := cmp Rgeb.

(** Python's [max(a, b)] and [min(a, b)]: the first argument stays unless
    the second compares strictly beyond it, so a NaN second argument is
    dropped and a NaN first argument is kept. *)
Definition pymax (a b : pyfloat) : pyfloat := if fgt b a then b else a.
Definition pymin (a b : pyfloat) : pyfloat := if flt b a then b else a.

Definition of_nat (n : nat) : R := IZR (Z.of_nat n).

Fixpoint sum (l : list R) : R :=
  match l with
  | [] => 0
  | x :: l' => x + sum l'
  end.

(** [Series.mean()]: NaN on an empty series. *)
Definition mean (l : list R) : pyfloat :=
  match l with
  | [] => NaN
  | _ => Fin (sum l / of_nat (length l))
  end.

(** [Series.std()], the sample standard deviation (ddof = 1): NaN when
    fewer than two values. *)
Definition std (l : list R) : pyfloat :=
  match l with
  | [] | [_] => NaN
  | _ =>
      let m := sum l / of_nat (length l) in
      Fin (sqrt (sum (map (fun x => (x - m) * (x - m)) l)
                 / of_nat (length l - 1)))
  end.

Fixpoint insert_asc (x : R) (l : list R) : list R :=
  match l with
  | [] => [x]
  | y :: l' => if Rleb x y then x :: l else y :: insert_asc x l'
  end.

Definition sort_asc (l : list R) : list R := fold_right insert_asc [] l.

(** [Series.quantile(0.95)] with pandas' default linear interpolation: on
    the sorted values [v], at position [h = 0.95 * (n - 1)], the result is
    [v[floor h] + (h - floor h) * (v[floor h + 1] - v[floor h])]; NaN on an
    empty series. *)
Definition quantile95 (l : list R) : pyfloat :=
  match l with
  | [] => NaN
  | _ =>
      let v := sort_asc l in
      let n := length l in
      let j := (19 * (n - 1) / 20)%nat in
      let g := of_nat ((19 * (n - 1)) mod 20) / 20 in
      let lo := nth j v 0 in
      let hi := nth (Nat.min (j + 1) (n - 1)) v 0 in
      Fin (lo + g * (hi - lo))
  end.

End Num.
Import Num.

(** ** Exceptions and the endpoint wrapper *)

Inductive Exception : Type :=
| HTTPException (status_code : Z) (detail : string)
| LibraryError (message : string).

Inductive result (A : Type) : Type :=
| Ok (a : A)
| Raise (e : Exception).

Arguments Ok {A} a.
Arguments Raise {A} e.

Definition bind {A B : Type} (m : result A) (k : A -> result B) : result B :=
  match m with
  | Ok a => k a
  | Raise e => Raise e
  end.

Notation "x <- m ;; k" := (bind m (fun x => k))
  (at level 61, m at next level, right associativity).

(** [str(status_code)]: the decimal numeral. *)
Definition str_status (code : Z) : string :=
  DecimalString.NilZero.string_of_int (Z.to_int code).

(** [str(e)]: Starlette's [HTTPException.__str__] prints
    ["{status_code}: {detail}"]; other exceptions print their message. *)
Definition str (e : Exception) : string :=
  match e with
  | HTTPException code detail => str_status code ++ ": " ++ detail
  | LibraryError message => message
  end.

(** Every endpoint body sits in
    [try: ... except Exception as e: raise HTTPException(status_code=500, detail=str(e))].
    [HTTPException] derives from [Exception], so the handler also catches the
    ones the body raises itself. *)
Definition try_except {A : Type} (body : result A) : result A :=
  match body with
  | Ok a => Ok a
  | Raise e => Raise (HTTPException 500 (str e))
  end.

(** ** Data model *)

Record Transaction : Type := mkTransaction {
  date : Z;
  amount : R;
  type : string;
  category : string;
  merchantName : string
}.

Definition is_expense (t : Transaction) : bool := String.eqb (type t) "Expense".
Definition has_category (c : string) (t : Transaction) : bool :=
  String.eqb (category t) c.
Definition amounts (df : list Transaction) : list R := map amount df.

Definition NS_PER_DAY : Z := 86400000000000.

(** [Series.max()] and [Series.min()] of a non-empty column of timestamps,
    given as its head and tail. *)
Fixpoint maximum (x : Z) (l : list Z) : Z :=
  match l with
  | [] => x
  | y :: l' => maximum (Z.max x y) l'
  end.

Fixpoint minimum (x : Z) (l : list Z) : Z :=
  match l with
  | [] => x
  | y :: l' => minimum (Z.min x y) l'
  end.

(** ** Single-transaction scoring ([/score-transaction]) *)

Module Scoring.

Record TransactionScoringRequest : Type := mkRequest {
  userId : string;
  new_transaction : Transaction;
  historical_transactions : list Transaction
}.

(** The entries of [reasons]; each stands for one f-string of the source,
    with the values it prints. *)
Inductive ReasonPart : Type :=
| SigmaAwayFromAverage (z_score : pyfloat) (category : string)
| SigmaAboveMean (z_score : pyfloat) (category : string)
| TwiceTheAverage (amount : R) (category : string)
| FirstTransactionInCategory (category : string)
| Top1PercentAmount
| Top5PercentByAmount.

(** The [reason] text: the fixed sentence of the empty-history answer, or
    ["; ".join(reasons)], or ["Normal spending pattern"] when no rule fired. *)
Inductive Reason : Type :=
| NotEnoughHistoricalData
| NormalSpendingPattern
| Joined (reasons : list ReasonPart).

Record TransactionScoringResponse : Type := mkResponse {
  anomaly_score : R;
  is_anomaly : bool;
  reason : Reason;
  risk_level : string
}.

(** Lines 449-468: the comparison with the history of the same category.
    Returns what is added to [score] and appended to [reasons]. *)
Definition category_rule (amount : R) (category : string)
    (cat_txs : list Transaction) : R * list ReasonPart :=
  match cat_txs with
  | _ :: _ =>
      let cat_mean := mean (amounts cat_txs) in
      let cat_std := std (amounts cat_txs) in
      if fgt cat_std (Fin 0) then
        let z_score := fabs (fdiv (fsub (Fin amount) cat_mean) cat_std) in
        if fgt z_score (Fin 3) then
          (0.6, [SigmaAwayFromAverage z_score category])
        else if fgt z_score (Fin 2) then
          (0.3, [SigmaAboveMean z_score category])
        else (0, [])
      else if fgt (Fin amount) (fmul cat_mean (Fin 2)) then
        (0.4, [TwiceTheAverage amount category])
      else (0, [])
  | [] => (0.2, [FirstTransactionInCategory category])
  end.

(** Lines 471-479: the comparison with the 95th percentile of all expense
    amounts of the history. *)
Definition overall_rule (amount : R) (hist_df : list Transaction)
    : R * list ReasonPart :=
  let overall_q95 := quantile95 (amounts (filter is_expense hist_df)) in
  if fgt (Fin amount) (fmul overall_q95 (Fin 1.5)) then
    (0.3, [Top1PercentAmount])
  else if fgt (Fin amount) overall_q95 then
    (0.15, [Top5PercentByAmount])
  else (0, []).

Definition risk_of (score : R) : string :=
  if Rgeb score 0.6 then "high"
  else if Rgeb score 0.3 then "medium"
  else "low".

Definition score_body (request : TransactionScoringRequest)
    : result TransactionScoringResponse :=
  match historical_transactions request with
  | [] => Ok (mkResponse 0 false NotEnoughHistoricalData "low")
  | _ :: _ =>
      let hist_df := historical_transactions request in
      let amount := amount (new_transaction request) in
      let category := category (new_transaction request) in
      let cat_txs := filter (has_category category) hist_df in
      let '(score, reasons) := (0, @nil ReasonPart) in
      let '(add1, why1) := category_rule amount category cat_txs in
      let '(score, reasons) := (score + add1, (reasons ++ why1)%list) in
      let '(add2, why2) := overall_rule amount hist_df in
      let '(score, reasons) := (score + add2, (reasons ++ why2)%list) in
      (* score = min(1.0, score) *)
      let score := if Rltb score 1 then score else 1 in
      let risk_level := risk_of score in
      let reason :=
        match reasons with
        | [] => NormalSpendingPattern
        | _ => Joined reasons
        end in
      Ok (mkResponse score (Rgtb score 0.5) reason risk_level)
  end.

Definition score_single_transaction (request : TransactionScoringRequest)
    : result TransactionScoringResponse :=
  try_except (score_body request).

(** The candidate of a request with another amount, all else equal. *)
Definition with_amount (request : TransactionScoringRequest) (a : R)
    : TransactionScoringRequest :=
  let t := new_transaction request in
  mkRequest (userId request)
    (mkTransaction (date t) a (type t) (category t) (merchantName t))
    (historical_transactions request).

End Scoring.

(** ** Segmentation ([/cluster]) *)

Module Clustering.

Record ClusteringRequest : Type := mkRequest {
  userId : string;
  transactions : list Transaction;
  n_clusters : Z
}.

(** The dict stored per transaction in [cluster_dict]. *)
Record ClusterTx : Type := mkClusterTx {
  tx_index : nat;
  tx_amount : R;
  tx_category : string;
  tx_date : Z
}.

(** The templated description of a persona, with the statistics it prints. *)
Inductive Description : Type :=
| LifestyleText (avg_amount : pyfloat) (expense_count : nat)
| SaverText (avg_amount : pyfloat) (essentials_ratio : R)
| BigTicketText (avg_amount : pyfloat) (dominant_cat : string)
| BalancedText (n_top_cats : nat) (avg_amount : pyfloat)
| EssentialsFirstText (dominant_cat : string) (essentials_ratio : R)
| FrequentSmallText (total_count : nat) (avg_amount : pyfloat)
| OccasionalHighText (avg_amount : pyfloat)
| FocusedText (dominant_cat : string) (total_count : nat)
    (avg_amount : pyfloat) (essentials_ratio entertainment_ratio : R).

Record ClusterInfo : Type := mkClusterInfo {
  id : Z;
  label : string;
  description : Description;
  count : nat;
  avg_amount : pyfloat;
  top_categories : list string;
  cluster_transactions : list ClusterTx
}.

Record ClusteringResponse : Type := mkResponse {
  response_userId : string;
  clusters : list ClusterInfo
}.

Definition mem (c : string) (l : list string) : bool :=
  existsb (String.eqb c) l.

(** [_assign_persona_label]: the ordered cascade, first match wins. *)
Definition _assign_persona_label (avg_amount : pyfloat) (frequency : R)
    (expense_ratio essentials_ratio entertainment_ratio : R)
    (top_cats : list string) (dominant_cat : string)
    (total_count expense_count : nat) : string * Description :=
  if (Rgtb entertainment_ratio 0.3
      || (mem "Food & Dining" top_cats && Rgtb frequency 5))
     && fgt avg_amount (Fin 500) then
    ("Lifestyle Spender", LifestyleText avg_amount expense_count)
  else if flt avg_amount (Fin 500) && Rgtb essentials_ratio 0.6
          && Rgtb frequency 3 then
    ("Conscious Saver", SaverText avg_amount essentials_ratio)
  else if fgt avg_amount (Fin 3000) && Rltb frequency 2 then
    ("Big Ticket Buyer", BigTicketText avg_amount dominant_cat)
  else if (3 <=? length top_cats)%nat
          && (flt (Fin 500) avg_amount && flt avg_amount (Fin 3000))
          && (Rltb 0.3 entertainment_ratio && Rltb entertainment_ratio 0.6) then
    ("Balanced Spender", BalancedText (length top_cats) avg_amount)
  else if Rgtb essentials_ratio 0.7 && Rltb entertainment_ratio 0.15
          && flt avg_amount (Fin 2000) then
    ("Essentials-First", EssentialsFirstText dominant_cat essentials_ratio)
  else if Rgtb frequency 8 && flt avg_amount (Fin 1000) then
    ("Frequent Small Spender", FrequentSmallText total_count avg_amount)
  else if Rltb frequency 1 && fgt avg_amount (Fin 2000) then
    ("Occasional High Spender", OccasionalHighText avg_amount)
  else
    (dominant_cat ++ " Focused",
     FocusedText dominant_cat total_count avg_amount
       essentials_ratio entertainment_ratio).

(** [df.iloc[indices]]; the indices come from [enumerate] over the rows. *)
Definition iloc (df : list Transaction) (indices : list nat)
    : list Transaction :=
  flat_map (fun i => match nth_error df i with
                     | Some t => [t]
                     | None => []
                     end) indices.

Definition essentials : list string :=
  ["Food & Dining"; "Groceries"; "Utilities"; "Transportation";
   "Healthcare"; "Medical"; "Insurance"].

Definition entertainment : list string :=
  ["Entertainment"; "Shopping"; "Travel"; "Dining"; "Subscriptions"].

(** [cluster_df['category'].isin(cats)] as a row filter. *)
Definition isin (cats : list string) (t : Transaction) : bool :=
  mem (category t) cats.

(** [(cluster_df['date'].max() - cluster_df['date'].min()).days]: whole days
    between the earliest and the latest timestamp. *)
Definition date_range (cluster_df : list Transaction) : Z :=
  match map date cluster_df with
  | [] => 0
  | d :: ds => (maximum d ds - minimum d ds) / NS_PER_DAY
  end.

(** Line 787: [(count / max(date_range, 1)) * 30 if date_range > 0 else count]. *)
Definition frequency (count : nat) (date_range : Z) : R :=
  if (0 <? date_range)%Z
  then of_nat count / IZR (Z.max date_range 1) * 30
  else of_nat count.

(** Lines 790-796. *)
Definition expense_count (cluster_df : list Transaction) : nat :=
  length (filter is_expense cluster_df).

Definition essentials_count (cluster_df : list Transaction) : nat :=
  length (filter (isin essentials) cluster_df).

Definition ratio (num den : nat) : R :=
  if (0 <? den)%nat then of_nat num / of_nat den else 0.

Definition essentials_ratio (cluster_df : list Transaction) : R :=
  ratio (essentials_count cluster_df) (expense_count cluster_df).

Definition entertainment_ratio (cluster_df : list Transaction) : R :=
  ratio (length (filter (isin entertainment) cluster_df))
        (expense_count cluster_df).

(** [Series.value_counts()]: the distinct categories with their counts, by
    descending count, equal counts in order of first appearance. *)
Fixpoint bump (c : string) (counts : list (string * nat))
    : list (string * nat) :=
  match counts with
  | [] => [(c, 1%nat)]
  | (c', k) :: rest =>
      if String.eqb c c' then (c', S k) :: rest else (c', k) :: bump c rest
  end.

Fixpoint insert_count (x : string * nat) (l : list (string * nat))
    : list (string * nat) :=
  match l with
  | [] => [x]
  | y :: l' =>
      if (snd y <=? snd x)%nat then x :: l else y :: insert_count x l'
  end.

Definition value_counts (cats : list string) : list (string * nat) :=
  fold_right insert_count [] (fold_left (fun acc c => bump c acc) cats []).

Definition _generate_cluster_persona (cluster_id : Z)
    (cluster_txs : list ClusterTx) (df : list Transaction) : ClusterInfo :=
  let indices := map tx_index cluster_txs in
  let cluster_df := iloc df indices in
  let count := length cluster_txs in
  let avg_amount := mean (amounts cluster_df) in
  let cat_counts := value_counts (map category cluster_df) in
  let top_cat_names := map fst (firstn 3 cat_counts) in
  let dominant_category :=
    match top_cat_names with
    | c :: _ => c
    | [] => "Unknown"
    end in
  let frequency := frequency count (date_range cluster_df) in
  let expense_count := expense_count cluster_df in
  let expense_ratio := ratio expense_count count in
  let essentials_ratio := essentials_ratio cluster_df in
  let entertainment_ratio := entertainment_ratio cluster_df in
  let '(label, description) :=
    _assign_persona_label avg_amount frequency expense_ratio essentials_ratio
      entertainment_ratio top_cat_names dominant_category count expense_count in
  mkClusterInfo cluster_id label description count avg_amount
    top_cat_names cluster_txs.

(** [cluster_dict]: keys in insertion order, each with its list of rows. *)
Definition cluster_dict_t : Type := list (Z * list ClusterTx).

Fixpoint dict_append (key : Z) (v : ClusterTx) (d : cluster_dict_t)
    : cluster_dict_t :=
  match d with
  | [] => [(key, [v])]
  | (k, vs) :: d' =>
      if (k =? key)%Z then (k, (vs ++ [v])%list) :: d'
      else (k, vs) :: dict_append key v d'
  end.

(** Lines 173-183, one iteration per label, [i] counting up from [start]. *)
Fixpoint build_cluster_dict (df : list Transaction) (start : nat)
    (labels : list Z) (d : cluster_dict_t) : result cluster_dict_t :=
  match labels with
  | [] => Ok d
  | cluster_id :: rest =>
      match nth_error df start with
      | None => Raise (LibraryError "single positional indexer is out-of-bounds")
      | Some row =>
          build_cluster_dict df (S start) rest
            (dict_append cluster_id
               (mkClusterTx start (amount row) (category row) (date row)) d)
      end
  end.

Fixpoint insert_key (x : Z) (l : list Z) : list Z :=
  match l with
  | [] => [x]
  | y :: l' => if (x <=? y)%Z then x :: l else y :: insert_key x l'
  end.

(** [sorted(cluster_dict.keys())]. *)
Definition sorted_keys (d : cluster_dict_t) : list Z :=
  fold_right insert_key [] (map fst d).

Fixpoint dict_get (d : cluster_dict_t) (key : Z) : list ClusterTx :=
  match d with
  | [] => []
  | (k, vs) :: d' => if (k =? key)%Z then vs else dict_get d' key
  end.

(** Lines 161-162. *)
Definition clamp_n_clusters (rows : nat) (n_clusters : Z) : Z :=
  if (Z.of_nat rows <? n_clusters)%Z
  then Z.max 2 (Z.of_nat rows - 1)
  else n_clusters.

Section Endpoint.

(** [KMeans(n_clusters, random_state=42, n_init=10).fit_predict] on the
    standardised clustering features of the rows: one label per row. *)
Variable fit_predict : list Transaction -> Z -> result (list Z).

Definition clustering_body (request : ClusteringRequest)
    : result ClusteringResponse :=
  if (length (transactions request) <? 3)%nat then
    Raise (HTTPException 400 "Need at least 3 transactions for clustering")
  else
    let df := transactions request in
    let n_clusters := clamp_n_clusters (length df) (n_clusters request) in
    labels <- fit_predict df n_clusters ;;
    cluster_dict <- build_cluster_dict df 0 labels [] ;;
    let cluster_list :=
      map (fun cluster_id =>
             _generate_cluster_persona cluster_id
               (dict_get cluster_dict cluster_id) df)
          (sorted_keys cluster_dict) in
    Ok (mkResponse (userId request) cluster_list).

Definition clustering_analysis (request : ClusteringRequest)
    : result ClusteringResponse :=
  try_except (clustering_body request).

End Endpoint.

End Clustering.

(** ** Batch anomaly detection ([/anomalies]) *)

Module Anomaly.

Record AnomalyRequest : Type := mkRequest {
  userId : string;
  transactions : list Transaction;
  contamination : R
}.

(** The text [_explain_anomaly] returns, with the numbers it prints. *)
Inductive Explanation : Type :=
| AboveCategoryAverage (amount : R) (percent : pyfloat)
| UnusuallyLowFor (amount : R) (category : string)
| Top5PercentHighest
| UnusualPattern.

Record HighRisk : Type := mkHighRisk {
  hr_index : nat;
  hr_amount : R;
  hr_category : string;
  hr_date : Z;
  hr_anomaly_score : R;
  hr_reason : Explanation
}.

Record AnomalyResponse : Type := mkResponse {
  response_userId : string;
  anomalies : list nat;
  scores : list R;
  high_risk_transactions : list HighRisk
}.

Definition _explain_anomaly (transaction : Transaction)
    (df : list Transaction) : Explanation :=
  let amount := amount transaction in
  let category := category transaction in
  let similar := filter (has_category category) df in
  let by_category :=
    if (1 <? length similar)%nat then
      let mean_amt := mean (amounts similar) in
      if fgt (Fin amount) (fmul mean_amt (Fin 2)) then
        Some (AboveCategoryAverage amount
                (fmul (fsub (fdiv (Fin amount) mean_amt) (Fin 1)) (Fin 100)))
      else if flt (Fin amount) (fmul mean_amt (Fin 0.5)) then
        Some (UnusuallyLowFor amount category)
      else None
    else None in
  match by_category with
  | Some text => text
  | None =>
      if fgt (Fin amount) (quantile95 (amounts df)) then Top5PercentHighest
      else UnusualPattern
  end.

(** [np.where(anomaly_labels == -1)[0].tolist()], positions counted from
    [start]. *)
Fixpoint where_outlier (start : nat) (anomaly_labels : list Z) : list nat :=
  match anomaly_labels with
  | [] => []
  | l :: rest =>
      if (l =? -1)%Z then start :: where_outlier (S start) rest
      else where_outlier (S start) rest
  end.

(** Indexing with a list of positions; a position past the end raises. *)
Fixpoint take_at {A : Type} (xs : list A) (indices : list nat)
    : result (list A) :=
  match indices with
  | [] => Ok []
  | i :: rest =>
      match nth_error xs i with
      | None => Raise (LibraryError "index out of bounds")
      | Some x => tl <- take_at xs rest ;; Ok (x :: tl)
      end
  end.

(** [high_risk.sort(key=lambda x: x['anomaly_score'], reverse=True)]: a stable
    sort by descending score. *)
Fixpoint insert_desc (x : HighRisk) (l : list HighRisk) : list HighRisk :=
  match l with
  | [] => [x]
  | y :: l' =>
      if Rleb (hr_anomaly_score y) (hr_anomaly_score x) then x :: l
      else y :: insert_desc x l'
  end.

Definition sort_desc (l : list HighRisk) : list HighRisk :=
  fold_right insert_desc [] l.

Section Endpoint.

(** [IsolationForest(contamination, random_state=42, n_estimators=100)] on the
    standardised anomaly features of the rows: [fit_predict]'s labels (-1 for
    an outlier, 1 otherwise) and [score_samples]' scores, one of each per
    row. *)
Variable iso_forest : list Transaction -> R -> result (list Z * list R).

Definition anomaly_body (request : AnomalyRequest) : result AnomalyResponse :=
  if (length (transactions request) <? 5)%nat then
    Raise (HTTPException 400 "Need at least 5 transactions for anomaly detection")
  else
    let df := transactions request in
    fitted <- iso_forest df (contamination request) ;;
    let '(anomaly_labels, anomaly_scores) := fitted in
    let anomaly_indices := where_outlier 0 anomaly_labels in
    picked <- take_at anomaly_scores anomaly_indices ;;
    let scores := map Ropp picked in
    rows <- take_at df anomaly_indices ;;
    let high_risk :=
      map (fun '(idx, (row, score)) =>
             mkHighRisk idx (amount row) (category row) (date row)
               (- score) (_explain_anomaly row df))
          (combine anomaly_indices (combine rows picked)) in
    let high_risk := sort_desc high_risk in
    Ok (mkResponse (userId request) anomaly_indices scores high_risk).

Definition anomaly_detection (request : AnomalyRequest)
    : result AnomalyResponse :=
  try_except (anomaly_body request).

End Endpoint.

End Anomaly.

(** ** Forecasting ([/forecast]) *)

Module Forecast.

Record ForecastingRequest : Type := mkRequest {
  userId : string;
  transactions : list Transaction;
  forecast_days : Z
}.

Record ForecastPoint : Type := mkPoint {
  point_date : Z;
  predicted_expense : pyfloat;
  confidence : R;
  range_low : pyfloat;
  range_high : pyfloat;
  seasonal_day : string
}.

Record ForecastingResponse : Type := mkResponse {
  response_userId : string;
  forecast : list ForecastPoint;
  trend : string
}.

(** [expenses.groupby(expenses['date'].dt.date)['amount'].sum()]: one row per
    calendar day (the day number since 1970-01-01), ascending, with the sum
    of that day's amounts. *)
Fixpoint add_to_day (day : Z) (a : R) (daily : list (Z * R)) : list (Z * R) :=
  match daily with
  | [] => [(day, a)]
  | (d, s) :: rest =>
      if (day <? d)%Z then (day, a) :: daily
      else if (day =? d)%Z then (d, s + a) :: rest
      else (d, s) :: add_to_day day a rest
  end.

Definition day_of (t : Transaction) : Z := (date t / NS_PER_DAY)%Z.

Definition daily_expenses (expenses : list Transaction) : list (Z * R) :=
  fold_left (fun daily t => add_to_day (day_of t) (amount t) daily)
            expenses [].

(** [Timestamp.weekday()] / [dt.dayofweek] of a day number: Monday is 0, and
    1970-01-01 was a Thursday. *)
Definition weekday (day : Z) : Z := ((day + 3) mod 7)%Z.

(** [Series.ewm(span, adjust=False).mean()]: [y0 = x0] and
    [y_t = (1 - alpha) * y_(t-1) + alpha * x_t] with [alpha = 2 / (span + 1)]. *)
Fixpoint ewm_from (alpha prev : R) (xs : list R) : list R :=
  match xs with
  | [] => []
  | x :: rest =>
      let y := (1 - alpha) * prev + alpha * x in
      y :: ewm_from alpha y rest
  end.

Definition ewm_mean (span : nat) (xs : list R) : list R :=
  match xs with
  | [] => []
  | x0 :: rest => x0 :: ewm_from (2 / (of_nat span + 1)) x0 rest
  end.

(** [xs[-7:]]. *)
Definition last7 {A : Type} (xs : list A) : list A := skipn (length xs - 7) xs.

Definition range7 : list Z := [0; 1; 2; 3; 4; 5; 6]%Z.

(** Lines 333-346: the weekday factors, as the dict [seasonal_factors]. *)
Definition seasonal_factors (daily : list (Z * R)) : list (Z * pyfloat) :=
  if (14 <=? length daily)%nat then
    let group (d : Z) :=
      map snd (filter (fun r => (weekday (fst r) =? d)%Z) daily) in
    let present := filter (fun d => negb (0 =? length (group d))%nat) range7 in
    let weekly_avg (d : Z) := mean (group d) in
    let weekly_mean :=
      fold_right (fun d acc => fadd (weekly_avg d) acc) (Fin 0) present in
    let weekly_mean := fdiv weekly_mean (Fin (of_nat (length present))) in
    map (fun d =>
           if negb (0 =? length (group d))%nat && fgt weekly_mean (Fin 0)
           then (d, fdiv (weekly_avg d) weekly_mean)
           else (d, Fin 1))
        range7
  else map (fun d => (d, Fin 1)) range7.

(** [seasonal_factors.get(day_of_week, 1.0)]. *)
Fixpoint factor_get (factors : list (Z * pyfloat)) (day_of_week : Z)
    : pyfloat :=
  match factors with
  | [] => Fin 1
  | (d, f) :: rest => if (d =? day_of_week)%Z then f else factor_get rest day_of_week
  end.

Definition day_name (day_of_week : Z) : string :=
  nth (Z.to_nat day_of_week) ["Mon"; "Tue"; "Wed"; "Thu"; "Fri"; "Sat"; "Sun"] "".

(** Python's [max] and [min] on two finite floats. *)
Definition max2 (a b : R) : R := if Rgtb b a then b else a.
Definition min2 (a b : R) : R := if Rltb b a then b else a.

(** Lines 357-384: the body of the loop, for one [i]. *)
Definition forecast_point (last_date : Z) (current_ema trend_coef std_daily : pyfloat)
    (factors : list (Z * pyfloat)) (n_days : nat) (forecast_days i : Z)
    : ForecastPoint :=
  let forecast_date := (last_date + i * NS_PER_DAY)%Z in
  let day_of_week := weekday (forecast_date / NS_PER_DAY) in
  let ema_forecast := fadd current_ema (fmul trend_coef (Fin (IZR i))) in
  let ema_forecast := pymax (Fin 0) ema_forecast in
  let seasonal_factor := factor_get factors day_of_week in
  let predicted := fmul ema_forecast seasonal_factor in
  let predicted := pymax (Fin 100) predicted in
  let base_confidence := max2 0.6 (1 - (IZR i / IZR forecast_days * 0.3)) in
  let seasonality_boost := if (14 <=? n_days)%nat then 0.1 else 0 in
  let confidence := min2 0.95 (base_confidence + seasonality_boost) in
  let confidence_interval :=
    fmul (fmul std_daily (Fin (1 - confidence))) (Fin 1.5) in
  mkPoint forecast_date predicted confidence
    (pymax (Fin 0) (fsub predicted confidence_interval))
    (fadd predicted confidence_interval)
    (day_name day_of_week).

(** [range(1, forecast_days + 1)]. *)
Definition range_from_1 (forecast_days : Z) : list Z :=
  map (fun k => Z.of_nat (S k)) (seq 0 (Z.to_nat forecast_days)).

(** Line 326: [daily_expenses['date'].max()], midnight of the latest day. *)
Definition last_date_of (daily : list (Z * R)) : Z :=
  match map fst daily with
  | d :: ds => (maximum d ds * NS_PER_DAY)%Z
  | [] => 0%Z
  end.

(** Lines 329-330: the last value of the smoothed series. *)
Definition current_ema_of (daily : list (Z * R)) : pyfloat :=
  let y := map snd daily in
  let ema_val := ewm_mean (Nat.min 7 (length daily)) y in
  match rev ema_val with
  | e :: _ => Fin e
  | [] => mean y
  end.

Definition trend_of (trend_coef std_daily : pyfloat) : string :=
  if fgt trend_coef (fmul std_daily (Fin 0.1)) then "increasing"
  else if flt trend_coef (fmul (fneg std_daily) (Fin 0.1)) then "decreasing"
  else "stable".

Section Endpoint.

(** [np.polyfit(x, y, 1)[0]], the slope of the least-squares line; numpy may
    raise on a degenerate system. *)
Variable polyfit_slope : list R -> list R -> result pyfloat.

Definition forecast_body (request : ForecastingRequest)
    : result ForecastingResponse :=
  if (length (transactions request) <? 10)%nat then
    Raise (HTTPException 400 "Need at least 10 transactions for forecasting")
  else
    let df := transactions request in
    let expenses := filter is_expense df in
    if (length expenses <? 10)%nat then
      Raise (HTTPException 400 "Need at least 10 expense transactions")
    else
      let daily := daily_expenses expenses in
      let y := map snd daily in
      let std_daily := std y in
      let X := map (fun k => of_nat k) (seq 0 (length daily)) in
      trend_coef <- polyfit_slope X y ;;
      let last_date := last_date_of daily in
      let ema_val := ewm_mean (Nat.min 7 (length daily)) y in
      let current_ema := current_ema_of daily in
      let factors := seasonal_factors daily in
      trend_coef <-
        (if (7 <=? length ema_val)%nat then
           polyfit_slope (map IZR range7) (last7 ema_val)
         else if (7 <=? length X)%nat then polyfit_slope (last7 X) (last7 y)
         else Ok (Fin 0)) ;;
      let forecast :=
        map (forecast_point last_date current_ema trend_coef std_daily
               factors (length daily) (forecast_days request))
            (range_from_1 (forecast_days request)) in
      Ok (mkResponse (userId request) forecast (trend_of trend_coef std_daily)).

Definition expense_forecasting (request : ForecastingRequest)
    : result ForecastingResponse :=
  try_except (forecast_body request).

End Endpoint.

End Forecast.

(** ** Clustering features ([_engineer_features_for_clustering]) *)

Module Features.

(** One row of the feature table, column by column. *)
Record ClusteringFeatures : Type := mkRow {
  col_avg_amount : R;
  col_std_amount : R;
  col_num_categories : nat;
  col_expense_ratio : R;
  col_amount : R;
  col_is_expense : Z;
  col_category_id : nat
}.

(** [fillna(0)] on one value. *)
Definition fillna0 (x : pyfloat) : R :=
  match x with
  | Fin r => r
  | NaN => 0
  end.

(** [Series.unique()]: the distinct values in order of first appearance. *)
Definition unique (cats : list string) : list string :=
  fold_left (fun acc c => if Clustering.mem c acc then acc else (acc ++ [c])%list)
            cats [].

(** [category_map[c]] for [category_map = {cat: i for i, cat in
    enumerate(...)}]: the position of [c], counted from [start]. *)
Fixpoint position_from (start : nat) (c : string) (keys : list string)
    : option nat :=
  match keys with
  | [] => None
  | k :: rest =>
      if String.eqb k c then Some start else position_from (S start) c rest
  end.

(** [Series.map(category_map)] on one value, after [fillna(0)]: a value
    without a key maps to NaN, and so to 0. *)
Definition category_id_of (keys : list string) (c : string) : nat :=
  match position_from 0 c keys with
  | Some i => i
  | None => 0%nat
  end.

(** The function raises on a frame without rows: [len(...) / len(df)]
    divides by zero (a frame without columns fails earlier, on
    [df['amount']]). *)
Definition _engineer_features_for_clustering (df : list Transaction)
    : result (list ClusteringFeatures) :=
  match df with
  | [] => Raise (LibraryError "division by zero")
  | _ :: _ =>
      let avg_amount := mean (amounts df) in
      let std_amount := std (amounts df) in
      let category_counts := Clustering.value_counts (map category df) in
      let num_categories := length category_counts in
      let expense_ratio :=
        of_nat (length (filter is_expense df)) / of_nat (length df) in
      let category_map := unique (map category df) in
      Ok (map (fun t =>
                 mkRow (fillna0 avg_amount) (fillna0 std_amount)
                   num_categories expense_ratio (amount t)
                   (if is_expense t then 1%Z else 0%Z)
                   (category_id_of category_map (category t)))
              df)
  end.

End Features.

(** ** Keyword categoriser ([/categorize]) *)

Module Categorizer.

Record CategorizerRequest : Type := mkRequest {
  description : string;
  amount : R;
  merchantName : string;
  type : string
}.

(** The explanation sentence, with the amount and the category it prints. *)
Inductive Explanation : Type :=
| TypicalFor (amount : R) (predicted_category : string).

Record CategorizerResponse : Type := mkResponse {
  predicted_category : string;
  confidence : R;
  alternative_categories : list (string * R);
  explanation : Explanation
}.

(** [kw in text] on strings: [kw] occurs as a substring. *)
Fixpoint contains (kw text : string) : bool :=
  if String.prefix kw text then true
  else match text with
       | EmptyString => false
       | String _ rest => contains kw rest
       end.

Definition category_keywords : list (string * list string) :=
  [("Food & Dining",
    ["restaurant"; "food"; "café"; "pizza"; "burger"; "dinner"; "lunch";
     "breakfast"; "dine"]);
   ("Groceries",
    ["grocery"; "supermarket"; "market"; "walmart"; "costco"; "trader";
     "whole foods"; "publix"]);
   ("Shopping",
    ["amazon"; "shop"; "retail"; "mall"; "store"; "buy"; "purchase"; "ebay";
     "target"]);
   ("Transportation",
    ["uber"; "taxi"; "gas"; "fuel"; "petrol"; "parking"; "toll"; "transit";
     "car"; "metro"]);
   ("Utilities",
    ["electric"; "water"; "internet"; "phone"; "bill"; "gas company";
     "utility"]);
   ("Entertainment",
    ["cinema"; "movie"; "concert"; "theater"; "game"; "netflix"; "spotify";
     "gaming"]);
   ("Healthcare",
    ["hospital"; "doctor"; "pharmacy"; "medical"; "health"; "clinic";
     "dental"]);
   ("Education",
    ["school"; "university"; "course"; "education"; "tuition"; "udemy";
     "coursera"; "books"]);
   ("Insurance", ["insurance"; "premium"; "policy"]);
   ("Travel",
    ["flight"; "hotel"; "airbnb"; "booking"; "travel"; "airline"; "resort"]);
   ("Salary", ["salary"; "wage"; "income"; "paycheck"; "employer"]);
   ("Rent", ["rent"; "landlord"; "tenancy"; "housing"])].

(** Lines 537-540: the number of keywords of each category found in the
    description or in the merchant name. *)
Definition keyword_scores (description merchant : string)
    : list (string * nat) :=
  map (fun '(category, keywords) =>
         (category,
          length (filter (fun kw => contains kw description
                                    || contains kw merchant) keywords)))
      category_keywords.

(** [scores.get(key, 0)] and [scores[key] = v] on a dict kept in insertion
    order. *)
Fixpoint get0 (scores : list (string * nat)) (key : string) : nat :=
  match scores with
  | [] => 0
  | (k, v) :: rest => if String.eqb k key then v else get0 rest key
  end.

Fixpoint put (key : string) (v : nat) (scores : list (string * nat))
    : list (string * nat) :=
  match scores with
  | [] => [(key, v)]
  | (k, v') :: rest =>
      if String.eqb k key then (k, v) :: rest else (k, v') :: put key v rest
  end.

Definition raise_to (key : string) (floor : nat) (scores : list (string * nat))
    : list (string * nat) :=
  put key (Nat.max (get0 scores key) floor) scores.

(** Lines 543-549: the amount heuristics. *)
Definition amount_rules (type : string) (amount : R)
    (scores : list (string * nat)) : list (string * nat) :=
  if String.eqb type "Income" then
    if Rgtb amount 5000 then raise_to "Salary" 5 scores else scores
  else
    if Rltb amount 500 then
      raise_to "Groceries" 2 (raise_to "Food & Dining" 2 scores)
    else scores.

(** [sorted(scores.items(), key=lambda x: x[1], reverse=True)]: stable, by
    descending score. *)
Definition sorted_desc (scores : list (string * nat)) : list (string * nat) :=
  fold_right Clustering.insert_count [] scores.

Definition confidence_of (score : nat) : R :=
  Forecast.min2 0.99 (of_nat (score + 1) / 10).

Section Endpoint.

(** [str.lower()], Unicode case mapping. *)
Variable lower : string -> string.

Definition categorize_body (request : CategorizerRequest)
    : result CategorizerResponse :=
  let description := lower (description request) in
  let merchant := lower (merchantName request) in
  let amount := amount request in
  let scores := keyword_scores description merchant in
  let scores := amount_rules (type request) amount scores in
  let sorted_categories := sorted_desc scores in
  match sorted_categories with
  | [] => Raise (LibraryError "list index out of range")
  | (top, top_score) :: _ =>
      let '(predicted_category, confidence) :=
        if (top_score =? 0)%nat then ("Other", 0.3)
        else
          let max_score := (top_score + 1)%nat in
          (top, Forecast.min2 0.99 (Forecast.max2 0.5 (of_nat max_score / 10)))
      in
      let alternatives :=
        map (fun '(cat, cnt) => (cat, confidence_of cnt))
            (firstn 3 (skipn 1 sorted_categories)) in
      Ok (mkResponse predicted_category confidence alternatives
            (TypicalFor amount predicted_category))
  end.

Definition categorize_transaction (request : CategorizerRequest)
    : result CategorizerResponse :=
  try_except (categorize_body request).

End Endpoint.

End Categorizer.

(** ** Budget optimiser ([/optimize-budget]) *)

Module Budget.

Record SavingsGoal : Type := mkGoal {
  name : string;
  target_amount : R;
  priority : Z;
  deadline_months : Z
}.

Record BudgetOptimizerRequest : Type := mkRequest {
  userId : string;
  monthly_income : R;
  expense_categories : list (string * R);
  savings_goals : list SavingsGoal;
  minimum_expense_ratio : R
}.

Record BudgetAllocation : Type := mkAllocation {
  category : string;
  allocated_amount : R;
  percentage : R
}.

Record BudgetOptimizerResponse : Type := mkResponse {
  response_userId : string;
  allocation_plan : list BudgetAllocation;
  total_income : R;
  total_allocated : R;
  total_savings_potential : R;
  goal_achievement_probability : list (string * R)
}.

(** [d[key] = v] on a dict kept in insertion order. *)
Fixpoint dict_set (key : string) (v : R) (d : list (string * R))
    : list (string * R) :=
  match d with
  | [] => [(key, v)]
  | (k, v') :: rest =>
      if String.eqb k key then (k, v) :: rest
      else (k, v') :: dict_set key v rest
  end.

(** [sorted(goals, key=lambda g: g.priority, reverse=True)]: stable, by
    descending priority. *)
Fixpoint insert_goal (g : SavingsGoal) (l : list SavingsGoal)
    : list SavingsGoal :=
  match l with
  | [] => [g]
  | h :: l' =>
      if (priority h <=? priority g)%Z then g :: l else h :: insert_goal g l'
  end.

Definition sorted_goals_of (goals : list SavingsGoal) : list SavingsGoal :=
  fold_right insert_goal [] goals.

Fixpoint sum_priorities (goals : list SavingsGoal) : Z :=
  match goals with
  | [] => 0
  | g :: rest => priority g + sum_priorities rest
  end.

(** Lines 631 and 635-637 for one goal. *)
Definition allocation_of (total_priority : Z) (available_for_goals : R)
    (goal : SavingsGoal) : R :=
  IZR (priority goal) / IZR total_priority * available_for_goals.

Definition probability_of (allocation : R) (goal : SavingsGoal) : R :=
  let months_until_deadline := Z.max 1 (deadline_months goal) in
  let monthly_needed := target_amount goal / IZR months_until_deadline in
  Forecast.min2 0.99
    (if Rgtb monthly_needed 0 then allocation / monthly_needed else 0.5).

(** Lines 630-638: the loop over the sorted goals, filling the two dicts. *)
Fixpoint allocate (total_priority : Z) (available_for_goals : R)
    (goals : list SavingsGoal)
    (goal_allocations goal_probabilities : list (string * R))
    : result (list (string * R) * list (string * R)) :=
  match goals with
  | [] => Ok (goal_allocations, goal_probabilities)
  | goal :: rest =>
      if (total_priority =? 0)%Z then
        Raise (LibraryError "division by zero")
      else
        let allocation :=
          allocation_of total_priority available_for_goals goal in
        allocate total_priority available_for_goals rest
          (dict_set (name goal) allocation goal_allocations)
          (dict_set (name goal) (probability_of allocation goal)
             goal_probabilities)
  end.

Definition expense_plan (monthly_income : R)
    (expense_categories : list (string * R)) : list BudgetAllocation :=
  map (fun '(cat, amt) => mkAllocation cat amt (amt / monthly_income * 100))
      expense_categories.

Definition goal_plan (monthly_income : R)
    (goal_allocations : list (string * R)) : list BudgetAllocation :=
  map (fun '(goal_name, allocation) =>
         mkAllocation ("Goal: " ++ goal_name) allocation
           (allocation / monthly_income * 100))
      goal_allocations.

Section Endpoint.

(** [logger.warn(...)] on the overspending path: the call returns, or raises
    where the logger has no such method. *)
Variable logger_warn : result unit.

Definition optimize_body (request : BudgetOptimizerRequest)
    : result BudgetOptimizerResponse :=
  if Rleb (monthly_income request) 0 then
    Raise (HTTPException 400 "Monthly income must be positive")
  else
    let expense_categories := expense_categories request in
    let total_current_expenses := sum (map snd expense_categories) in
    let available_for_goals :=
      monthly_income request - total_current_expenses in
    if Rltb available_for_goals 0 then
      _ <- logger_warn ;;
      Ok (mkResponse (userId request)
            (expense_plan (monthly_income request) expense_categories)
            (monthly_income request) total_current_expenses 0 [])
    else
      let sorted_goals := sorted_goals_of (savings_goals request) in
      dicts <- allocate (sum_priorities sorted_goals) available_for_goals
                 sorted_goals [] [] ;;
      let '(goal_allocations, goal_probabilities) := dicts in
      let allocation_plan :=
        (expense_plan (monthly_income request) expense_categories
         ++ goal_plan (monthly_income request) goal_allocations)%list in
      let total_allocated := sum (map allocated_amount allocation_plan) in
      Ok (mkResponse (userId request) allocation_plan
            (monthly_income request) total_allocated available_for_goals
            goal_probabilities).

Definition optimize_budget (request : BudgetOptimizerRequest)
    : result BudgetOptimizerResponse :=
  try_except (optimize_body request).

End Endpoint.

End Budget.

(** * Vocabulary of the statements and sample inputs *)

Definition tx (day : Z) (a : R) (ty c : string) : Transaction :=
  mkTransaction (day * NS_PER_DAY) a ty c "".

Section ScoringSamples.

Import Scoring.

(** The same-category history of a request's candidate. *)
Definition cat_txs_of (request : TransactionScoringRequest)
    : list Transaction :=
  filter (has_category (category (new_transaction request)))
         (historical_transactions request).

Definition food_history : list Transaction :=
  [tx 1 98 "Expense" "Food"; tx 2 100 "Expense" "Food";
   tx 3 102 "Expense" "Food"].

Definition food_request (a : R) : TransactionScoringRequest :=
  mkRequest "u" (tx 4 a "Expense" "Food") food_history.

(** A first purchase in a category the Food history does not know. *)
Definition jewellery_request : TransactionScoringRequest :=
  mkRequest "u" (tx 4 1000000 "Expense" "Jewellery") food_history.

Definition food_response_100 : TransactionScoringResponse :=
  mkResponse (0 + 0 + 0) false NormalSpendingPattern "low".

Definition food_response_110 : TransactionScoringResponse :=
  mkResponse (0 + 0.6 + 0.15) true
    (Joined [SigmaAwayFromAverage
               (fabs (fdiv (fsub (Fin 110) (Fin 100)) (Fin 2))) "Food";
             Top5PercentByAmount])
    "high".

End ScoringSamples.

Section ClusteringSamples.

Import Clustering.

(** The row indices a cluster of the response holds. *)
Definition cluster_indices (c : ClusterInfo) : list nat :=
  map tx_index (cluster_transactions c).

Definition dict_indices (d : cluster_dict_t) : list nat :=
  flat_map (fun kv => map tx_index (snd kv)) d.

Definition spread_cluster : list Transaction :=
  [tx 1 40 "Expense" "Groceries"; tx 11 60 "Expense" "Groceries"].

Definition outing_cluster : list Transaction :=
  [tx 5 40 "Expense" "Groceries"; tx 5 25 "Expense" "Entertainment"].

Definition insurance_payout_cluster : list Transaction :=
  [tx 1 50 "Expense" "Groceries"; tx 2 900 "Income" "Insurance"].

(** Two restaurant bills of one day, and the entries the endpoint files
    for them. *)
Definition dining_day_rows : list Transaction :=
  [tx 5 600 "Expense" "Food & Dining"; tx 5 700 "Expense" "Food & Dining"].

Definition dining_day_txs : list ClusterTx :=
  [mkClusterTx 0 600 "Food & Dining" (5 * NS_PER_DAY);
   mkClusterTx 1 700 "Food & Dining" (5 * NS_PER_DAY)].

(** The entries of [spread_cluster]. *)
Definition spread_txs : list ClusterTx :=
  [mkClusterTx 0 40 "Groceries" (1 * NS_PER_DAY);
   mkClusterTx 1 60 "Groceries" (11 * NS_PER_DAY)].

Definition rent_rows : list Transaction :=
  [tx 1 10 "Expense" "Food"; tx 2 5000 "Expense" "Rent";
   tx 3 5000 "Expense" "Rent"].

Definition rent_request : ClusteringRequest := mkRequest "u" rent_rows 3.

Definition two_label_response : ClusteringResponse :=
  mkResponse "u"
    [_generate_cluster_persona 0
       [mkClusterTx 0 10 "Food" (1 * NS_PER_DAY)] rent_rows;
     _generate_cluster_persona 2
       [mkClusterTx 1 5000 "Rent" (2 * NS_PER_DAY);
        mkClusterTx 2 5000 "Rent" (3 * NS_PER_DAY)] rent_rows].

(** One rent payment followed by two small food expenses, with five
    clusters requested (clamped to two). *)
Definition mixed_rows : list Transaction :=
  [tx 1 5000 "Expense" "Rent"; tx 2 10 "Expense" "Food";
   tx 3 12 "Expense" "Food"].

Definition mixed_request : ClusteringRequest := mkRequest "u" mixed_rows 5.

(** A clustering answer that sets the first row apart, in cluster 1, and
    puts the other rows in cluster 0. *)
Definition head_apart (df : list Transaction) (k : Z) : result (list Z) :=
  Ok match df with
     | [] => []
     | [_] => [0%Z]
     | _ :: rest => 1%Z :: map (fun _ => 0%Z) rest
     end.

Definition mixed_response : ClusteringResponse :=
  mkResponse "u"
    [_generate_cluster_persona 0
       [mkClusterTx 1 10 "Food" (2 * NS_PER_DAY);
        mkClusterTx 2 12 "Food" (3 * NS_PER_DAY)] mixed_rows;
     _generate_cluster_persona 1
       [mkClusterTx 0 5000 "Rent" (1 * NS_PER_DAY)] mixed_rows].

(** A clustering answer that puts every row in cluster 0. *)
Definition one_cluster (df : list Transaction) (k : Z) : result (list Z) :=
  Ok (map (fun _ => 0%Z) df).

Definition one_cluster_response : ClusteringResponse :=
  mkResponse "u"
    [_generate_cluster_persona 0
       [mkClusterTx 0 10 "Food" (1 * NS_PER_DAY);
        mkClusterTx 1 5000 "Rent" (2 * NS_PER_DAY);
        mkClusterTx 2 5000 "Rent" (3 * NS_PER_DAY)]
       rent_rows].

End ClusteringSamples.

Section AnomalySamples.

Import Anomaly.

(** Descending by anomaly score. *)
Definition score_ge (a b : HighRisk) : Prop :=
  hr_anomaly_score b <= hr_anomaly_score a.

Definition five_rows : list Transaction :=
  [tx 1 9000 "Expense" "Travel"; tx 2 20000 "Expense" "Rent";
   tx 3 120 "Expense" "Food"; tx 4 130 "Expense" "Food";
   tx 5 110 "Expense" "Food"].

Definition five_request : AnomalyRequest := mkRequest "u" five_rows 0.4.

(** A detector answer that marks rows 0 and 1, row 1 the more anomalous. *)
Definition two_outliers (df : list Transaction) (contamination : R)
    : result (list Z * list R) :=
  Ok ([-1; -1; 1; 1; 1]%Z, [-0.5; -0.7; -0.4; -0.4; -0.4]).

Definition two_outliers_response : AnomalyResponse :=
  mkResponse "u" [0; 1]%nat [- (-0.5); - (-0.7)]
    (sort_desc
       [mkHighRisk 0 9000 "Travel" (1 * NS_PER_DAY) (- (-0.5))
          (_explain_anomaly (tx 1 9000 "Expense" "Travel") five_rows);
        mkHighRisk 1 20000 "Rent" (2 * NS_PER_DAY) (- (-0.7))
          (_explain_anomaly (tx 2 20000 "Expense" "Rent") five_rows)]).

End AnomalySamples.

Section ForecastSamples.

Import Forecast.

(** The daily history of a request. *)
Definition history (request : ForecastingRequest) : list (Z * R) :=
  daily_expenses (filter is_expense (transactions request)).

(** The confidence the specification gives for day [i] of horizon [N]
    without the seasonality boost. *)
Definition decayed_confidence (N i : Z) : R :=
  Rmin 0.95 (Rmax 0.6 (1 - IZR i / IZR N * 0.3)).

(** Ten days with one expense of 1000 each. *)
Definition ten_rows : list Transaction :=
  map (fun d => tx d 1000 "Expense" "Food") [1; 2; 3; 4; 5; 6; 7; 8; 9; 10]%Z.

Definition uniform_request (forecast_days : Z) : ForecastingRequest :=
  mkRequest "u" ten_rows forecast_days.

(** A line fit that finds no slope, as on the uniform series. *)
Definition flat_fit (x y : list R) : result pyfloat := Ok (Fin 0).

(** The response of an endpoint call that returned. *)
Definition response_of (r : result ForecastingResponse) : ForecastingResponse :=
  match r with
  | Ok response => response
  | Raise _ => mkResponse "" [] ""
  end.

End ForecastSamples.

Section AddedVocabulary.

Import Clustering.

(** A cluster entry repeats the row of the request at its index. *)
Definition copies_row (df : list Transaction) (v : ClusterTx) : Prop :=
  exists row,
    nth_error df (tx_index v) = Some row
    /\ tx_amount v = amount row
    /\ tx_category v = category row
    /\ tx_date v = date row.

(** The invariant of [cluster_dict] while the rows up to [bound] are filed:
    no key has an empty list, every list is in ascending row order below
    [bound], and every entry repeats its row. *)
Definition filed (df : list Transaction) (bound : nat) (d : cluster_dict_t)
    : Prop :=
  Forall (fun kv =>
            snd kv <> []
            /\ StronglySorted lt (map tx_index (snd kv))
            /\ Forall (fun v => (tx_index v < bound)%nat /\ copies_row df v)
                      (snd kv)) d.

(** How often a category occurs in a list of categories. *)
Definition occurrences (c : string) (cats : list string) : nat :=
  length (filter (String.eqb c) cats).

(** The count a category has in the table of [value_counts]. *)
Fixpoint count_in (c : string) (counts : list (string * nat)) : nat :=
  match counts with
  | [] => 0
  | (c', k) :: rest => if String.eqb c c' then k else count_in c rest
  end.

(** The order of the high-risk records: by descending score, and among equal
    scores by ascending row index. *)
Definition ranked_before (a b : Anomaly.HighRisk) : Prop :=
  Anomaly.hr_anomaly_score b < Anomaly.hr_anomaly_score a
  \/ (Anomaly.hr_anomaly_score a = Anomaly.hr_anomaly_score b
      /\ (Anomaly.hr_index a < Anomaly.hr_index b)%nat).


(** The confidence of day [i] of horizon [N] with the seasonality boost
    [boost] (0.1 or 0). *)
Definition boosted_confidence (boost : R) (N i : Z) : R :=
  Rmin 0.95 (Rmax 0.6 (1 - IZR i / IZR N * 0.3) + boost).

End AddedVocabulary.

Section AddedSamples.

(** A clustering algorithm that refuses more clusters than rows, as
    scikit-learn's does, and otherwise puts every row in cluster 0. *)
Definition guarded_cluster (df : list Transaction) (k : Z) : result (list Z) :=
  if (k <=? Z.of_nat (length df))%Z then one_cluster df k
  else Raise (LibraryError "n_samples should be >= n_clusters").

End AddedSamples.

Section AddedFailures.

(** Libraries that raise. *)
Definition failing_kmeans (df : list Transaction) (k : Z) : result (list Z) :=
  Raise (LibraryError "n_clusters must be positive").

Definition failing_forest (df : list Transaction) (c : R)
    : result (list Z * list R) :=
  Raise (LibraryError "contamination must be in (0, 0.5]").

Definition failing_fit (x y : list R) : result pyfloat :=
  Raise (LibraryError "SVD did not converge in Linear Least Squares").

(** Ten salary payments, one a day. *)
Definition income_rows : list Transaction :=
  map (fun d => tx d 3000 "Income" "Salary") [1; 2; 3; 4; 5; 6; 7; 8; 9; 10]%Z.

End AddedFailures.

Section CategorizerVocabulary.

Import Categorizer.

Definition category_names : list string := map fst category_keywords.

(** The score table the categoriser sorts: keyword hits, then the amount
    heuristics. *)
Definition final_scores (lower : string -> string)
    (request : CategorizerRequest) : list (string * nat) :=
  amount_rules (type request) (amount request)
    (keyword_scores (lower (description request))
       (lower (merchantName request))).

(** No keyword of the table occurs in the description or in the merchant
    name. *)
Definition no_keyword (description merchant : string) : bool :=
  forallb (fun '(_, keywords) =>
             forallb (fun kw => negb (contains kw description
                                      || contains kw merchant)) keywords)
          category_keywords.

(** The three answers to a request without keywords. *)
Definition other_response (amount : R) : CategorizerResponse :=
  mkResponse "Other" 0.3
    [("Groceries", 0.1); ("Shopping", 0.1); ("Transportation", 0.1)]
    (TypicalFor amount "Other").

Definition food_response (amount : R) : CategorizerResponse :=
  mkResponse "Food & Dining" 0.5
    [("Groceries", 0.3); ("Shopping", 0.1); ("Transportation", 0.1)]
    (TypicalFor amount "Food & Dining").

Definition salary_response (amount : R) : CategorizerResponse :=
  mkResponse "Salary" 0.6
    [("Food & Dining", 0.1); ("Groceries", 0.1); ("Shopping", 0.1)]
    (TypicalFor amount "Salary").

(** Case mapping that leaves the text as it is (text already in lower
    case). *)
Definition already_lower (s : string) : string := s.

Definition unmatched_request : CategorizerRequest :=
  mkRequest "xyz" 120 "qq" "Expense".

End CategorizerVocabulary.

Section BudgetVocabulary.

Import Budget.

Definition sample_expenses : list (string * R) :=
  [("Rent", 600); ("Groceries", 200)].

Definition car_goal : SavingsGoal := mkGoal "car" 6000 1 12.
Definition trip_goal : SavingsGoal := mkGoal "trip" 900 3 6.
Definition idle_goal : SavingsGoal := mkGoal "someday" 100 0 1.

Definition two_goal_request : BudgetOptimizerRequest :=
  mkRequest "u1" 1000 sample_expenses [car_goal; trip_goal] 0.7.

Definition idle_goal_request : BudgetOptimizerRequest :=
  mkRequest "u1" 1000 sample_expenses [idle_goal] 0.7.

Definition overspent_request : BudgetOptimizerRequest :=
  mkRequest "u1" 700 sample_expenses [car_goal; trip_goal] 0.7.

Definition no_income_request : BudgetOptimizerRequest :=
  mkRequest "u1" 0 sample_expenses [car_goal] 0.7.

(** The two behaviours of [logger.warn]. *)
Definition warn_returns : result unit := Ok tt.
Definition warn_missing : result unit :=
  Raise (LibraryError "'Logger' object has no attribute 'warn'").

End BudgetVocabulary.

(** * Properties *)

(** ** Comparisons *)

Lemma Rltb_true (x y : R) : x < y -> Rltb x y = true.
Proof. intros H; unfold Rltb; destruct (Rlt_dec x y); [reflexivity | lra]. Qed.

Lemma Rltb_false (x y : R) : y <= x -> Rltb x y = false.
Proof. intros H; unfold Rltb; destruct (Rlt_dec x y); [lra | reflexivity]. Qed.

Lemma Rleb_true (x y : R) : x <= y -> Rleb x y = true.
Proof. intros H; unfold Rleb; destruct (Rle_dec x y); [reflexivity | lra]. Qed.

Lemma Rleb_false (x y : R) : y < x -> Rleb x y = false.
Proof. intros H; unfold Rleb; destruct (Rle_dec x y); [lra | reflexivity]. Qed.

Lemma Rltb_lt (x y : R) : Rltb x y = true -> x < y.
Proof. unfold Rltb; destruct (Rlt_dec x y); [trivial | discriminate]. Qed.

Lemma Rltb_ge (x y : R) : Rltb x y = false -> y <= x.
Proof. unfold Rltb; destruct (Rlt_dec x y); [discriminate | lra]. Qed.

Lemma Rleb_le (x y : R) : Rleb x y = true -> x <= y.
Proof. unfold Rleb; destruct (Rle_dec x y); [trivial | discriminate]. Qed.

Lemma Rleb_gt (x y : R) : Rleb x y = false -> y < x.
Proof. unfold Rleb; destruct (Rle_dec x y); [discriminate | lra]. Qed.

(** Case analysis on every real comparison of the goal, each branch with the
    order fact as a hypothesis. *)
Ltac split_cmp :=
  unfold fgt, fge, flt, fle, cmp, Rgtb, Rgeb in *;
  repeat match goal with
         | |- context [Rltb ?a ?b] =>
             let E := fresh "E" in
             destruct (Rltb a b) eqn:E;
             [apply Rltb_lt in E | apply Rltb_ge in E]
         | |- context [Rleb ?a ?b] =>
             let E := fresh "E" in
             destruct (Rleb a b) eqn:E;
             [apply Rleb_le in E | apply Rleb_gt in E]
         end.

Lemma max2_Rmax (a b : R) : Forecast.max2 a b = Rmax a b.
Proof.
  unfold Forecast.max2, Rgtb, Rmax.
  destruct (Rle_dec a b); split_cmp; lra.
Qed.

Lemma min2_Rmin (a b : R) : Forecast.min2 a b = Rmin a b.
Proof.
  unfold Forecast.min2, Rmin.
  destruct (Rle_dec a b); split_cmp; lra.
Qed.

(** ** Single-transaction scoring *)

Section ScoringFacts.

Import Scoring.

(** The endpoint always answers: no path of the body raises. *)
Lemma score_single_transaction_returns (request : TransactionScoringRequest) :
  exists response, score_single_transaction request = Ok response.
Proof.
  unfold score_single_transaction, score_body.
  destruct (historical_transactions request); [eexists; reflexivity |].
  destruct (category_rule _ _ _), (overall_rule _ _).
  eexists; reflexivity.
Qed.

Lemma risk_of_above_half (score : R) :
  0.5 < score -> risk_of score = "medium" \/ risk_of score = "high".
Proof.
  intros H; unfold risk_of, Rgeb.
  destruct (Rleb 0.6 score); [now right |].
  rewrite Rleb_true by lra. now left.
Qed.

(** C10: a response with [is_anomaly = True] carries the risk level "medium"
    or "high", never "low": [is_anomaly] needs a score above 0.5, and every
    score from 0.3 up is at least "medium". *)
Theorem anomalous_never_low_risk
    (request : TransactionScoringRequest)
    (response : TransactionScoringResponse) :
  score_single_transaction request = Ok response ->
  is_anomaly response = true ->
  (risk_level response = "medium" \/ risk_level response = "high")
  /\ risk_level response <> "low".
Proof.
  unfold score_single_transaction, score_body.
  destruct (historical_transactions request) as [| h hist].
  - cbn. intros [= <-]. cbn. discriminate.
  - destruct (category_rule _ _ _) as [add1 why1].
    destruct (overall_rule _ _) as [add2 why2].
    cbn. intros [= <-]. cbn. intros Hanom.
    apply Rltb_lt in Hanom.
    destruct (risk_of_above_half _ Hanom) as [-> | ->];
      (split; [auto | discriminate]).
Qed.

End ScoringFacts.

(** ** Evaluation on concrete inputs *)

Ltac rcmp :=
  repeat first
    [ rewrite Rltb_true by lra
    | rewrite Rltb_false by lra
    | rewrite Rleb_true by lra
    | rewrite Rleb_false by lra ].

Ltac eval_floats :=
  repeat (progress
            (unfold fgt, fge, flt, fle, cmp, Rgtb, Rgeb, of_nat,
               Forecast.max2, Forecast.min2; cbn; rcmp)).

Lemma sqrt_4 : sqrt 4 = 2.
Proof. replace 4 with (2 * 2) by lra. apply sqrt_square; lra. Qed.

(** ** Monotonicity of the score in the candidate amount *)

Section ScoreMonotonicity.

Import Scoring.

Lemma food_mean : mean (amounts food_history) = Fin 100.
Proof. cbn. unfold of_nat. cbn. f_equal. lra. Qed.

Lemma food_std : std (amounts food_history) = Fin 2.
Proof.
  cbn. unfold of_nat. cbn. f_equal.
  transitivity (sqrt 4); [f_equal; field | apply sqrt_4].
Qed.

Lemma food_q95 : quantile95 (amounts food_history) = Fin 101.8.
Proof. unfold quantile95. eval_floats. f_equal. lra. Qed.

Lemma food_score_90 :
  score_body (food_request 90) =
  Ok (mkResponse (0 + 0.6 + 0) true
        (Joined [SigmaAwayFromAverage
                   (fabs (fdiv (fsub (Fin 90) (Fin 100)) (Fin 2))) "Food"])
        "high").
Proof.
  unfold score_body, food_request.
  cbn [historical_transactions new_transaction amount category tx].
  change (filter (has_category "Food") food_history) with food_history.
  change (filter is_expense food_history) with food_history.
  unfold category_rule, overall_rule.
  change (filter is_expense food_history) with food_history.
  rewrite food_mean, food_std, food_q95.
  cbn [food_history].
  replace (fabs (fdiv (fsub (Fin 90) (Fin 100)) (Fin 2))) with (Fin 5).
  2:{ cbn. f_equal. replace ((90 - 100) / 2) with (Ropp 5) by lra.
      rewrite Rabs_Ropp, Rabs_right; lra. }
  unfold risk_of. eval_floats. reflexivity.
Qed.

Lemma food_score_100 :
  score_body (food_request 100) =
  Ok (mkResponse (0 + 0 + 0) false NormalSpendingPattern "low").
Proof.
  unfold score_body, food_request.
  cbn [historical_transactions new_transaction amount category tx].
  change (filter (has_category "Food") food_history) with food_history.
  unfold category_rule, overall_rule.
  change (filter is_expense food_history) with food_history.
  rewrite food_mean, food_std, food_q95.
  cbn [food_history].
  replace (fabs (fdiv (fsub (Fin 100) (Fin 100)) (Fin 2))) with (Fin 0).
  2:{ cbn. f_equal. replace ((100 - 100) / 2) with 0 by lra.
      rewrite Rabs_R0; lra. }
  unfold risk_of. eval_floats. reflexivity.
Qed.

(** C2, as stated, fails: with the Food history 98, 100, 102 (mean 100,
    standard deviation 2) a candidate of 90 lies five deviations below the
    mean and scores 0.6, while the larger candidate 100 scores 0. *)
Lemma score_not_monotone_below_mean :
  exists r1 r2,
    score_single_transaction (with_amount (food_request 90) 90) = Ok r1
    /\ score_single_transaction (with_amount (food_request 90) 100) = Ok r2
    /\ 90 < 100
    /\ anomaly_score r2 < anomaly_score r1.
Proof.
  change (with_amount (food_request 90) 90) with (food_request 90).
  change (with_amount (food_request 90) 100) with (food_request 100).
  unfold score_single_transaction.
  rewrite food_score_90, food_score_100.
  do 2 eexists. repeat split; cbn; lra.
Qed.

End ScoreMonotonicity.

Section ScoreMonotone.

Import Scoring.

Lemma z_score_above_mean (a m s : R) :
  0 < s -> m <= a -> Rabs ((a - m) / s) = (a - m) * / s.
Proof.
  intros Hs Hm. apply Rabs_right.
  apply Rle_ge. apply Rmult_le_pos; [lra |].
  left. now apply Rinv_0_lt_compat.
Qed.

Lemma category_rule_mono (a1 a2 : R) (c : string) (txs : list Transaction) :
  a1 <= a2 ->
  ((2 <= length txs)%nat -> fle (mean (amounts txs)) (Fin a1) = true) ->
  fst (category_rule a1 c txs) <= fst (category_rule a2 c txs).
Proof.
  intros Hle Hmean. unfold category_rule.
  destruct txs as [| t txs]; [cbn; lra |].
  assert (Hstd : std (amounts (t :: txs)) = NaN
                 \/ (2 <= length (t :: txs))%nat)
    by (destruct txs; [left; reflexivity | right; cbn; lia]).
  destruct (mean (amounts (t :: txs))) as [| m];
    destruct (std (amounts (t :: txs))) as [| s];
    try (cbn; split_cmp; cbn; lra).
  destruct Hstd as [Hnan | Hlen]; [discriminate |].
  specialize (Hmean Hlen). cbn in *.
  unfold fgt, fle, cmp, Rgtb in *. apply Rleb_le in Hmean.
  destruct (Rltb 0 s) eqn:Hs.
  - apply Rltb_lt in Hs.
    rewrite !z_score_above_mean by lra.
    pose proof (Rinv_0_lt_compat s Hs) as Hi.
    assert ((a1 - m) * / s <= (a2 - m) * / s) by nra.
    split_cmp; cbn; lra.
  - split_cmp; cbn; lra.
Qed.

Lemma overall_rule_mono (a1 a2 : R) (hist_df : list Transaction) :
  a1 <= a2 ->
  fst (overall_rule a1 hist_df) <= fst (overall_rule a2 hist_df).
Proof.
  intros Hle. unfold overall_rule.
  destruct (quantile95 _) as [| q]; cbn; [lra |].
  split_cmp; cbn; lra.
Qed.

(** C2, amended: raising the candidate amount never lowers the score when the
    smaller amount is at least the mean of the same-category history (the
    z-score rule is two-sided, so below the mean a larger amount can score
    less).  The restriction applies as soon as that history has two
    transactions, whatever their spread: with none or one there is no
    standard deviation and no z-score. *)
Theorem score_monotone_from_category_mean
    (request : TransactionScoringRequest) (a1 a2 : R)
    (r1 r2 : TransactionScoringResponse) :
  a1 <= a2 ->
  ((2 <= length (cat_txs_of request))%nat ->
   fle (mean (amounts (cat_txs_of request))) (Fin a1) = true) ->
  score_single_transaction (with_amount request a1) = Ok r1 ->
  score_single_transaction (with_amount request a2) = Ok r2 ->
  anomaly_score r1 <= anomaly_score r2.
Proof.
  intros Hle Hmean.
  unfold score_single_transaction, score_body, cat_txs_of in *.
  cbn [with_amount historical_transactions new_transaction amount category].
  destruct (historical_transactions request) as [| h hist] eqn:Hh.
  - cbn. intros [= <-] [= <-]. cbn. lra.
  - pose proof (category_rule_mono a1 a2 (category (new_transaction request))
                  _ Hle Hmean) as H1.
    pose proof (overall_rule_mono a1 a2 (h :: hist) Hle) as H2.
    destruct (category_rule a1 _ _) as [x1 w1], (category_rule a2 _ _) as [x2 w2].
    destruct (overall_rule a1 _) as [y1 v1], (overall_rule a2 _) as [y2 v2].
    cbn in H1, H2 |- *. intros [= <-] [= <-]. cbn.
    split_cmp; lra.
Qed.

Lemma food_score_110 : score_body (food_request 110) = Ok food_response_110.
Proof.
  unfold score_body, food_request, food_response_110.
  cbn [historical_transactions new_transaction amount category tx].
  change (filter (has_category "Food") food_history) with food_history.
  unfold category_rule, overall_rule.
  change (filter is_expense food_history) with food_history.
  rewrite food_mean, food_std, food_q95.
  cbn [food_history].
  replace (fabs (fdiv (fsub (Fin 110) (Fin 100)) (Fin 2))) with (Fin 5).
  2:{ cbn. f_equal. replace ((110 - 100) / 2) with 5 by lra.
      rewrite Rabs_right; lra. }
  unfold risk_of. eval_floats. reflexivity.
Qed.

(** The amended statement at the Food history, from the mean up: candidates
    100 and 110. *)
Lemma score_monotone_from_category_mean_witness :
  anomaly_score food_response_100 <= anomaly_score food_response_110.
Proof.
  apply (score_monotone_from_category_mean (food_request 100) 100 110).
  - lra.
  - intros _. change (cat_txs_of (food_request 100)) with food_history.
    rewrite food_mean. cbn. apply Rleb_true. lra.
  - change (with_amount (food_request 100) 100) with (food_request 100).
    unfold score_single_transaction. now rewrite food_score_100.
  - change (with_amount (food_request 100) 110) with (food_request 110).
    unfold score_single_transaction. now rewrite food_score_110.
Defined.

End ScoreMonotone.

(** C10 at a concrete request: the Food history with a candidate of 110. *)
Lemma anomalous_never_low_risk_witness :
  (Scoring.risk_level food_response_110 = "medium"
   \/ Scoring.risk_level food_response_110 = "high")
  /\ Scoring.risk_level food_response_110 <> "low".
Proof.
  apply (anomalous_never_low_risk (food_request 110) food_response_110).
  - unfold Scoring.score_single_transaction. now rewrite food_score_110.
  - reflexivity.
Defined.

(** ** Segmentation: the cluster count *)

Section ClusterCount.

Import Clustering.

(** The clustering algorithm is consulted at the clamped count only: two
    algorithms that agree there give the same answer. *)
Lemma clustering_body_calls_kmeans
    (fit1 fit2 : list Transaction -> Z -> result (list Z))
    (request : ClusteringRequest) :
  let k := clamp_n_clusters (length (transactions request))
             (n_clusters request) in
  fit1 (transactions request) k = fit2 (transactions request) k ->
  clustering_body fit1 request = clustering_body fit2 request.
Proof.
  cbv zeta. intros Hfit. unfold clustering_body.
  destruct (length (transactions request) <? 3)%nat; [reflexivity |].
  now rewrite Hfit.
Qed.

(** C3, as stated, fails: a requested count equal to the row count exceeds
    [row_count - 1] and is passed on unchanged (3 rows, 3 clusters). *)
Lemma cluster_count_equal_to_rows_not_clamped :
  (Z.of_nat 3 - 1 < 3)%Z
  /\ clamp_n_clusters 3 3 = 3%Z
  /\ (Z.of_nat 3 - 1 < clamp_n_clusters 3 3)%Z.
Proof. cbv. repeat split. Qed.

(** C3, amended: with at least 3 rows, a requested count above the row count
    is replaced by [row_count - 1] (at least 2); a requested count up to the
    row count is used as it is. *)
Theorem clamp_n_clusters_spec (rows : nat) (requested : Z) :
  (3 <= rows)%nat ->
  ((Z.of_nat rows < requested)%Z ->
   clamp_n_clusters rows requested = (Z.of_nat rows - 1)%Z
   /\ (2 <= clamp_n_clusters rows requested <= Z.of_nat rows - 1)%Z)
  /\ ((requested <= Z.of_nat rows)%Z ->
      clamp_n_clusters rows requested = requested).
Proof.
  intros Hrows. unfold clamp_n_clusters.
  destruct (Z.ltb_spec (Z.of_nat rows) requested); split; intros; lia.
Qed.

(** 3 transactions with [n_clusters = 5]: the effective count is 2. *)
Lemma clamp_n_clusters_spec_witness :
  clamp_n_clusters 3 5 = (Z.of_nat 3 - 1)%Z
  /\ (2 <= clamp_n_clusters 3 5 <= Z.of_nat 3 - 1)%Z.
Proof.
  apply (clamp_n_clusters_spec 3 5); [lia | reflexivity].
Defined.

End ClusterCount.

(** ** Segmentation: cluster statistics *)

Section ClusterStatistics.

Import Clustering.

Lemma maximum_ge (l : list Z) : forall x, (x <= maximum x l)%Z.
Proof.
  induction l as [| y l IH]; intros x; cbn; [lia |].
  specialize (IH (Z.max x y)). lia.
Qed.

Lemma minimum_le (l : list Z) : forall x, (minimum x l <= x)%Z.
Proof.
  induction l as [| y l IH]; intros x; cbn; [lia |].
  specialize (IH (Z.min x y)). lia.
Qed.

Lemma date_range_nonneg (cluster_df : list Transaction) :
  (0 <= date_range cluster_df)%Z.
Proof.
  unfold date_range. destruct (map date cluster_df) as [| d ds]; [lia |].
  apply Z.div_pos; [| reflexivity].
  pose proof (maximum_ge ds d). pose proof (minimum_le ds d). lia.
Qed.

Lemma maximum_spec (l : list Z) :
  forall x, In (maximum x l) (x :: l)
            /\ forall y, In y (x :: l) -> (y <= maximum x l)%Z.
Proof.
  induction l as [| z l IH]; cbn; intros x.
  - split; [now left | intros y [<- | []]; lia].
  - destruct (IH (Z.max x z)) as [Hin Hmax]. split.
    + destruct Hin as [Heq | Hin]; [| auto].
      rewrite <- Heq. destruct (Z.max_spec x z) as [[_ ->] | [_ ->]]; auto.
    + intros y [Hy | [Hy | Hy]].
      * specialize (Hmax (Z.max x z) (or_introl eq_refl)). lia.
      * specialize (Hmax (Z.max x z) (or_introl eq_refl)). lia.
      * apply Hmax. now right.
Qed.

Lemma minimum_spec (l : list Z) :
  forall x, In (minimum x l) (x :: l)
            /\ forall y, In y (x :: l) -> (minimum x l <= y)%Z.
Proof.
  induction l as [| z l IH]; cbn; intros x.
  - split; [now left | intros y [<- | []]; lia].
  - destruct (IH (Z.min x z)) as [Hin Hmin]. split.
    + destruct Hin as [Heq | Hin]; [| auto].
      rewrite <- Heq. destruct (Z.min_spec x z) as [[_ ->] | [_ ->]]; auto.
    + intros y [Hy | [Hy | Hy]].
      * specialize (Hmin (Z.min x z) (or_introl eq_refl)). lia.
      * specialize (Hmin (Z.min x z) (or_introl eq_refl)). lia.
      * apply Hmin. now right.
Qed.

(** The span of a cluster, from its earliest and its latest timestamp. *)
Lemma date_range_spec (cluster_df : list Transaction) (earliest latest : Z) :
  In earliest (map date cluster_df) ->
  In latest (map date cluster_df) ->
  (forall d, In d (map date cluster_df) -> (earliest <= d <= latest)%Z) ->
  date_range cluster_df = ((latest - earliest) / NS_PER_DAY)%Z.
Proof.
  intros He Hl Hb. unfold date_range.
  destruct (map date cluster_df) as [| d ds]; [destruct He |].
  destruct (maximum_spec ds d) as [Hmax_in Hmax].
  destruct (minimum_spec ds d) as [Hmin_in Hmin].
  pose proof (Hmax _ Hl). pose proof (Hmin _ He).
  pose proof (Hb _ Hmax_in). pose proof (Hb _ Hmin_in).
  f_equal. lia.
Qed.

(** C5, as stated, fails on a cluster whose transactions fall on one day.
    Two restaurant bills of one day have span 0; the persona rules get the
    plain count 2 as frequency and answer "Essentials-First".  With the
    frequency of the formula, [(2 / max(0, 1)) * 30 = 60], the same rules
    would answer "Lifestyle Spender". *)
Lemma single_day_frequency_is_count :
  date_range dining_day_rows = 0%Z
  /\ label (_generate_cluster_persona 0 dining_day_txs dining_day_rows)
     = "Essentials-First"
  /\ of_nat (length dining_day_txs)
       / IZR (Z.max (date_range dining_day_rows) 1) * 30 = 60
  /\ fst (_assign_persona_label (mean (amounts dining_day_rows))
            (of_nat (length dining_day_txs)
               / IZR (Z.max (date_range dining_day_rows) 1) * 30)
            (ratio (expense_count dining_day_rows) (length dining_day_txs))
            (essentials_ratio dining_day_rows)
            (entertainment_ratio dining_day_rows)
            ["Food & Dining"] "Food & Dining"
            (length dining_day_txs) (expense_count dining_day_rows))
     = "Lifestyle Spender".
Proof.
  assert (H : date_range dining_day_rows = 0%Z) by (vm_compute; reflexivity).
  split; [exact H |]. split; [| split].
  - unfold _generate_cluster_persona.
    change (iloc dining_day_rows (map tx_index dining_day_txs))
      with dining_day_rows.
    rewrite H. unfold _assign_persona_label, frequency, essentials_ratio,
      entertainment_ratio, ratio. eval_floats. reflexivity.
  - rewrite H. unfold of_nat. cbn. lra.
  - rewrite H. unfold _assign_persona_label, essentials_ratio,
      entertainment_ratio, ratio. eval_floats. reflexivity.
Qed.

(** C5, amended: the frequency that [_generate_cluster_persona] hands to the
    persona rules is computed from the number of entries of the cluster and
    from its span, the whole days between the earliest and the latest
    timestamp of its rows (never negative): [(count / max(span, 1)) * 30]
    when the span is positive, and the count itself when the span is 0. *)
Theorem persona_frequency_spec (cluster_id : Z) (cluster_txs : list ClusterTx)
    (df : list Transaction) (earliest latest : Z) :
  let cluster_df := iloc df (map tx_index cluster_txs) in
  In earliest (map date cluster_df) ->
  In latest (map date cluster_df) ->
  (forall d, In d (map date cluster_df) -> (earliest <= d <= latest)%Z) ->
  let span := ((latest - earliest) / NS_PER_DAY)%Z in
  let count := length cluster_txs in
  let persona := _generate_cluster_persona cluster_id cluster_txs df in
  exists freq,
    (0 <= span)%Z
    /\ ((0 < span)%Z -> freq = of_nat count / IZR (Z.max span 1) * 30)
    /\ (span = 0%Z -> freq = of_nat count)
    /\ (label persona, description persona)
       = _assign_persona_label (avg_amount persona) freq
           (ratio (expense_count cluster_df) count)
           (essentials_ratio cluster_df) (entertainment_ratio cluster_df)
           (top_categories persona)
           match top_categories persona with
           | c :: _ => c
           | [] => "Unknown"
           end
           count (expense_count cluster_df).
Proof.
  intros cluster_df He Hl Hb span count persona.
  pose proof (date_range_spec cluster_df earliest latest He Hl Hb) as Hspan.
  fold span in Hspan.
  exists (frequency count (date_range cluster_df)).
  split; [rewrite <- Hspan; apply date_range_nonneg |].
  rewrite Hspan. unfold frequency. split; [| split].
  - intros Hpos. destruct (Z.ltb_spec 0 span); [reflexivity | lia].
  - intros ->. reflexivity.
  - rewrite <- Hspan. subst persona count cluster_df.
    unfold _generate_cluster_persona. cbv zeta.
    destruct (_assign_persona_label _ _ _ _ _ _ _ _ _) as [l d] eqn:E.
    cbn [label description avg_amount top_categories].
    now rewrite <- E.
Qed.

(** C5 at a cluster of two transactions ten days apart: the span is 10 and
    the frequency 2 / 10 * 30. *)
Lemma persona_frequency_spec_witness :
  let persona := _generate_cluster_persona 0 spread_txs spread_cluster in
  exists freq,
    (0 <= 10)%Z
    /\ ((0 < 10)%Z -> freq = of_nat 2 / IZR (Z.max 10 1) * 30)
    /\ (10%Z = 0%Z -> freq = of_nat 2)
    /\ (label persona, description persona)
       = _assign_persona_label (avg_amount persona) freq
           (ratio (expense_count spread_cluster) 2)
           (essentials_ratio spread_cluster)
           (entertainment_ratio spread_cluster)
           (top_categories persona)
           match top_categories persona with
           | c :: _ => c
           | [] => "Unknown"
           end
           2 (expense_count spread_cluster).
Proof.
  apply (persona_frequency_spec 0 spread_txs spread_cluster
           (1 * NS_PER_DAY) (11 * NS_PER_DAY)).
  - simpl. left. reflexivity.
  - simpl. right. left. reflexivity.
  - simpl. intros d [<- | [<- | []]]; vm_compute; split; discriminate.
Defined.

(** C4 at a cluster with one grocery expense and one insurance payout booked
    as income: the numerator counts both rows, the denominator only the
    expense, and the ratio is 2. *)
Theorem essentials_ratio_counts_income_rows :
  expense_count insurance_payout_cluster = 1%nat
  /\ length (filter (fun t => is_expense t && isin essentials t)
               insurance_payout_cluster) = 1%nat
  /\ essentials_count insurance_payout_cluster = 2%nat
  /\ essentials_ratio insurance_payout_cluster = 2
  /\ 1 < essentials_ratio insurance_payout_cluster.
Proof.
  assert (He : expense_count insurance_payout_cluster = 1%nat)
    by (vm_compute; reflexivity).
  assert (Hc : essentials_count insurance_payout_cluster = 2%nat)
    by (vm_compute; reflexivity).
  assert (Hr : essentials_ratio insurance_payout_cluster = 2).
  { unfold essentials_ratio, ratio. rewrite He, Hc.
    unfold of_nat. cbn. lra. }
  split; [exact He |].
  split; [vm_compute; reflexivity |].
  split; [exact Hc |].
  split; [exact Hr |].
  rewrite Hr. lra.
Qed.

(** The ratio reaches the answer: the cluster is labelled a saver, and its
    description prints the essentials share as 200 percent. *)
Lemma insurance_payout_persona :
  let c := _generate_cluster_persona 0
             [mkClusterTx 0 50 "Groceries" (1 * NS_PER_DAY);
              mkClusterTx 1 900 "Insurance" (2 * NS_PER_DAY)]
             insurance_payout_cluster in
  label c = "Conscious Saver"
  /\ description c = SaverText (Fin 475) 2.
Proof.
  cbv zeta. unfold _generate_cluster_persona.
  cbn [map tx_index iloc flat_map nth_error insurance_payout_cluster app
         length].
  unfold Clustering.essentials_ratio, Clustering.entertainment_ratio,
    Clustering.frequency, ratio, _assign_persona_label, date_range.
  eval_floats.
  split; [reflexivity | f_equal; [f_equal |]; lra].
Qed.

End ClusterStatistics.

(** ** Segmentation: the clusters partition the rows *)

Section ClusterPartition.

Import Clustering.

Lemma persona_id (cid : Z) (txs : list ClusterTx) (df : list Transaction) :
  id (_generate_cluster_persona cid txs df) = cid.
Proof.
  unfold _generate_cluster_persona. cbv zeta.
  now destruct (_assign_persona_label _ _ _ _ _ _ _ _ _).
Qed.

Lemma persona_transactions (cid : Z) (txs : list ClusterTx)
    (df : list Transaction) :
  cluster_transactions (_generate_cluster_persona cid txs df) = txs.
Proof.
  unfold _generate_cluster_persona. cbv zeta.
  now destruct (_assign_persona_label _ _ _ _ _ _ _ _ _).
Qed.

Lemma dict_append_keys (key : Z) (v : ClusterTx) (d : cluster_dict_t) (k : Z) :
  In k (map fst (dict_append key v d)) <-> k = key \/ In k (map fst d).
Proof.
  induction d as [| [k' vs] d IH]; cbn; [intuition |].
  destruct (Z.eqb_spec k' key); cbn; [subst; intuition |].
  rewrite IH. intuition.
Qed.

Lemma dict_append_NoDup (key : Z) (v : ClusterTx) (d : cluster_dict_t) :
  NoDup (map fst d) -> NoDup (map fst (dict_append key v d)).
Proof.
  induction d as [| [k' vs] d IH]; cbn; intros Hnd.
  - constructor; [intros [] | constructor].
  - inversion Hnd as [| ? ? Hnotin Hnd']; subst.
    destruct (Z.eqb_spec k' key); cbn; [now constructor |].
    constructor; [| now apply IH].
    rewrite dict_append_keys. intros [-> | Hin]; [congruence | contradiction].
Qed.

Lemma dict_append_indices (key : Z) (v : ClusterTx) (d : cluster_dict_t) :
  Permutation (dict_indices (dict_append key v d))
              (dict_indices d ++ [tx_index v]).
Proof.
  unfold dict_indices.
  induction d as [| [k' vs] d IH]; cbn; [reflexivity |].
  destruct (Z.eqb_spec k' key); cbn.
  - rewrite map_app. cbn. rewrite <- !app_assoc.
    apply Permutation_app_head. apply Permutation_app_comm.
  - rewrite <- app_assoc. now apply Permutation_app_head.
Qed.

Lemma build_cluster_dict_spec (df : list Transaction) (labels : list Z) :
  forall (start : nat) (d d' : cluster_dict_t),
    build_cluster_dict df start labels d = Ok d' ->
    NoDup (map fst d) ->
    NoDup (map fst d')
    /\ Permutation (dict_indices d')
                   (dict_indices d ++ seq start (length labels))
    /\ (forall k, In k (map fst d') <-> In k (map fst d) \/ In k labels).
Proof.
  induction labels as [| l labels IH]; cbn; intros start d d' Hb Hnd.
  - injection Hb as <-. rewrite app_nil_r. intuition.
  - destruct (nth_error df start) as [row |]; [| discriminate].
    apply IH in Hb; [| now apply dict_append_NoDup].
    destruct Hb as (Hnd' & Hperm & Hkeys).
    split; [exact Hnd' |]. split.
    + rewrite Hperm, dict_append_indices. cbn.
      now rewrite <- app_assoc.
    + intros k. rewrite Hkeys, dict_append_keys. intuition.
Qed.

Lemma dict_get_in (d : cluster_dict_t) (k : Z) (vs : list ClusterTx) :
  NoDup (map fst d) -> In (k, vs) d -> dict_get d k = vs.
Proof.
  induction d as [| [k' vs'] d IH]; cbn; [intros _ [] |].
  intros Hnd [Heq | Hin].
  - injection Heq as -> ->. now rewrite Z.eqb_refl.
  - inversion Hnd as [| ? ? Hnotin Hnd']; subst.
    destruct (Z.eqb_spec k' k) as [-> | Hne]; [| now apply IH].
    exfalso. apply Hnotin. now apply (in_map fst) in Hin.
Qed.

Lemma flat_map_ext_in {A B : Type} (f g : A -> list B) (l : list A) :
  (forall a, In a l -> f a = g a) -> flat_map f l = flat_map g l.
Proof.
  induction l as [| a l IH]; cbn; intros H; [reflexivity |].
  rewrite H by now left. f_equal. apply IH. intros; apply H; now right.
Qed.

Lemma flat_map_map {A B C : Type} (f : A -> B) (g : B -> list C) (l : list A) :
  flat_map g (map f l) = flat_map (fun a => g (f a)) l.
Proof. induction l as [| a l IH]; cbn; [reflexivity | now rewrite IH]. Qed.

Lemma insert_key_perm (x : Z) (l : list Z) :
  Permutation (insert_key x l) (x :: l).
Proof.
  induction l as [| y l IH]; cbn; [reflexivity |].
  destruct (x <=? y)%Z; [reflexivity |].
  rewrite IH. apply perm_swap.
Qed.

Lemma sorted_keys_perm (d : cluster_dict_t) :
  Permutation (sorted_keys d) (map fst d).
Proof.
  unfold sorted_keys. induction (map fst d) as [| x l IH]; cbn; [reflexivity |].
  rewrite insert_key_perm. now constructor.
Qed.

Lemma insert_key_sorted (x : Z) (l : list Z) :
  StronglySorted Z.lt l -> ~ In x l -> StronglySorted Z.lt (insert_key x l).
Proof.
  induction l as [| y l IH]; cbn; intros Hs Hnotin.
  - repeat constructor.
  - inversion Hs as [| ? ? Hs' Hall]; subst.
    destruct (Z.leb_spec x y).
    + constructor; [exact Hs |].
      assert (x < y)%Z by (assert (y <> x) by intuition; lia).
      constructor; [assumption |].
      rewrite Forall_forall in *. intros z Hz. specialize (Hall z Hz). lia.
    + constructor; [apply IH; intuition |].
      rewrite Forall_forall in *. intros z Hz.
      apply (Permutation_in _ (insert_key_perm x l)) in Hz.
      destruct Hz as [<- | Hz]; [assumption | now apply Hall].
Qed.

Lemma sort_keys_sorted (l : list Z) :
  NoDup l -> StronglySorted Z.lt (fold_right insert_key [] l).
Proof.
  induction l as [| x l IH]; cbn; intros Hnd; [constructor |].
  inversion Hnd as [| ? ? Hnotin Hnd']; subst.
  apply insert_key_sorted; [now apply IH |].
  intros Hin. apply Hnotin.
  revert Hin. clear. induction l as [| y l IH]; cbn; [trivial |].
  intros Hin. apply (Permutation_in _ (insert_key_perm y _)) in Hin.
  destruct Hin as [-> | Hin]; [now left | right; now apply IH].
Qed.

(** A strictly ascending list is determined by its elements. *)
Lemma ascending_unique (l1 : list Z) :
  StronglySorted Z.lt l1 ->
  forall l2, StronglySorted Z.lt l2 ->
             (forall k, In k l1 <-> In k l2) -> l1 = l2.
Proof.
  induction 1 as [| x l1 Hs1 IH Hall1]; intros l2 Hs2 Hsame.
  - destruct l2 as [| y l2]; [reflexivity |].
    exfalso. apply (proj2 (Hsame y)). now left.
  - destruct Hs2 as [| y l2 Hs2 Hall2].
    + exfalso. apply (proj1 (Hsame x)). now left.
    + rewrite Forall_forall in Hall1, Hall2.
      assert (x = y) as <-.
      { destruct (proj1 (Hsame x) (or_introl eq_refl)) as [E | Hx];
          [now symmetry |].
        destruct (proj2 (Hsame y) (or_introl eq_refl)) as [E | Hy];
          [exact E |].
        specialize (Hall1 y Hy). specialize (Hall2 x Hx). lia. }
      f_equal. apply IH; [exact Hs2 |].
      intros k. split; intros Hk.
      * destruct (proj1 (Hsame k) (or_intror Hk)) as [E | Hk'];
          [| exact Hk'].
        specialize (Hall1 k Hk). lia.
      * destruct (proj2 (Hsame k) (or_intror Hk)) as [E | Hk'];
          [| exact Hk'].
        specialize (Hall2 k Hk). lia.
Qed.

Lemma initial_segment_sorted (m start : nat) :
  StronglySorted Z.lt (map Z.of_nat (seq start m)).
Proof.
  revert start. induction m as [| m IH]; intros start; cbn; constructor.
  - apply IH.
  - rewrite Forall_forall. intros k Hk.
    apply in_map_iff in Hk. destruct Hk as (j & <- & Hj).
    apply in_seq in Hj. lia.
Qed.

Lemma initial_segment_In (m : nat) (k : Z) :
  In k (map Z.of_nat (seq 0 m)) <-> (0 <= k < Z.of_nat m)%Z.
Proof.
  rewrite in_map_iff. split.
  - intros (j & <- & Hj). apply in_seq in Hj. lia.
  - intros Hk. exists (Z.to_nat k). split; [lia |]. apply in_seq. lia.
Qed.

Lemma clusters_of_dict_indices (df : list Transaction) (d : cluster_dict_t) :
  NoDup (map fst d) ->
  Permutation
    (flat_map cluster_indices
       (map (fun cid => _generate_cluster_persona cid (dict_get d cid) df)
            (sorted_keys d)))
    (dict_indices d).
Proof.
  intros Hnd. rewrite flat_map_map.
  rewrite (Permutation_flat_map _ (sorted_keys_perm d)).
  rewrite flat_map_map. unfold dict_indices.
  erewrite flat_map_ext_in; [reflexivity |].
  intros [k vs] Hin. unfold cluster_indices.
  rewrite persona_transactions. cbn.
  now rewrite (dict_get_in d k vs Hnd Hin).
Qed.

End ClusterPartition.

Section ClusterPartitionTheorem.

Import Clustering.

Lemma try_except_ok {A : Type} (body : result A) (a : A) :
  try_except body = Ok a -> body = Ok a.
Proof. destruct body; cbn; [trivial | discriminate]. Qed.

Lemma map_id_personas (df : list Transaction) (d : cluster_dict_t)
    (keys : list Z) :
  map id (map (fun cid => _generate_cluster_persona cid (dict_get d cid) df)
              keys) = keys.
Proof.
  induction keys as [| k keys IH]; cbn; [reflexivity |].
  now rewrite persona_id, IH.
Qed.




(** X30: when the clustering algorithm labels every row, the index sets of
    the returned clusters partition the rows (each index in exactly one
    cluster), and the cluster ids are the distinct labels the algorithm
    returned, in strictly ascending order: the code never renumbers them, so
    they are the range [0 .. m - 1] exactly when those are the labels the
    algorithm used. *)
Theorem clusters_partition_rows
    (fit_predict : list Transaction -> Z -> result (list Z))
    (request : ClusteringRequest) (response : ClusteringResponse) :
  (forall df k labels,
      fit_predict df k = Ok labels -> length labels = length df) ->
  clustering_analysis fit_predict request = Ok response ->
  Permutation (flat_map cluster_indices (clusters response))
              (seq 0 (length (transactions request)))
  /\ StronglySorted Z.lt (map id (clusters response))
  /\ exists labels,
      fit_predict (transactions request)
        (clamp_n_clusters (length (transactions request))
           (n_clusters request)) = Ok labels
      /\ (forall k, In k (map id (clusters response)) <-> In k labels)
      /\ forall m : nat,
          (forall k, In k labels <-> (0 <= k < Z.of_nat m)%Z) <->
          map id (clusters response) = map Z.of_nat (seq 0 m).
Proof.
  intros Hcontract Hok. apply try_except_ok in Hok.
  unfold clustering_body in Hok.
  destruct (length (transactions request) <? 3)%nat; [discriminate |].
  destruct (fit_predict _ _) as [labels |] eqn:Hfit; [| discriminate].
  cbn in Hok.
  destruct (build_cluster_dict _ _ _ _) as [d |] eqn:Hbuild; [| discriminate].
  cbn in Hok. injection Hok as <-. cbn [clusters].
  apply build_cluster_dict_spec in Hbuild; [| constructor].
  destruct Hbuild as (Hnd & Hperm & Hkeys).
  rewrite map_id_personas.
  assert (Hsorted : StronglySorted Z.lt (sorted_keys d))
    by apply sort_keys_sorted, Hnd.
  assert (Hids : forall k, In k (sorted_keys d) <-> In k labels).
  { intros k. specialize (Hkeys k). cbn in Hkeys. split; intros Hin.
    - apply (Permutation_in _ (sorted_keys_perm d)) in Hin. tauto.
    - apply (Permutation_in _ (Permutation_sym (sorted_keys_perm d))). tauto. }
  split; [| split; [exact Hsorted |]].
  - rewrite clusters_of_dict_indices by assumption.
    rewrite Hperm. cbn. now rewrite (Hcontract _ _ _ Hfit).
  - exists labels. split; [reflexivity |]. split; [exact Hids |].
    intros m. split.
    + intros Hused. apply ascending_unique;
        [exact Hsorted | apply initial_segment_sorted |].
      intros k. now rewrite Hids, Hused, initial_segment_In.
    + intros Heq k. now rewrite <- Hids, Heq, initial_segment_In.
Qed.

Lemma clusters_partition_rows_witness :
  Permutation (flat_map cluster_indices (clusters mixed_response))
              (seq 0 (length (transactions mixed_request)))
  /\ StronglySorted Z.lt (map id (clusters mixed_response))
  /\ exists labels,
      head_apart (transactions mixed_request)
        (clamp_n_clusters (length (transactions mixed_request))
           (n_clusters mixed_request)) = Ok labels
      /\ (forall k, In k (map id (clusters mixed_response)) <-> In k labels)
      /\ forall m : nat,
          (forall k, In k labels <-> (0 <= k < Z.of_nat m)%Z) <->
          map id (clusters mixed_response) = map Z.of_nat (seq 0 m).
Proof.
  apply (clusters_partition_rows head_apart mixed_request mixed_response).
  - intros df k labels [= <-].
    destruct df as [| t [| t' df]]; simpl; try reflexivity.
    now rewrite length_map.
  - reflexivity.
Defined.

End ClusterPartitionTheorem.

(** ** Batch anomaly detection: indices and order *)

Section AnomalyOrder.

Import Anomaly.

Lemma where_outlier_bounds (labels : list Z) :
  forall start i,
    In i (where_outlier start labels) ->
    (start <= i < start + length labels)%nat.
Proof.
  induction labels as [| l labels IH]; cbn; intros start i; [intros [] |].
  destruct (l =? -1)%Z; cbn; [intros [<- | Hin] | intros Hin];
    try lia; apply IH in Hin; lia.
Qed.

Lemma where_outlier_ascending (labels : list Z) :
  forall start, StronglySorted lt (where_outlier start labels).
Proof.
  induction labels as [| l labels IH]; cbn; intros start; [constructor |].
  destruct (l =? -1)%Z; [| apply IH].
  constructor; [apply IH |].
  rewrite Forall_forall. intros i Hin.
  apply where_outlier_bounds in Hin. lia.
Qed.

Lemma take_at_spec {A : Type} (xs : list A) (indices : list nat) :
  forall ys,
    take_at xs indices = Ok ys ->
    length ys = length indices
    /\ Forall (fun i => (i < length xs)%nat) indices.
Proof.
  induction indices as [| i indices IH]; cbn; intros ys.
  - intros [= <-]. split; [reflexivity | constructor].
  - destruct (nth_error xs i) as [x |] eqn:Hnth; [| discriminate].
    destruct (take_at xs indices) as [tl |]; [| discriminate].
    cbn. intros [= <-]. destruct (IH tl eq_refl) as [Hlen Hall].
    split; [cbn; now rewrite Hlen |].
    constructor; [| exact Hall].
    apply nth_error_Some. congruence.
Qed.

Lemma insert_desc_perm (x : HighRisk) (l : list HighRisk) :
  Permutation (insert_desc x l) (x :: l).
Proof.
  induction l as [| y l IH]; cbn; [reflexivity |].
  destruct (Rleb _ _); [reflexivity |].
  rewrite IH. apply perm_swap.
Qed.

Lemma sort_desc_perm (l : list HighRisk) : Permutation (sort_desc l) l.
Proof.
  unfold sort_desc. induction l as [| x l IH]; cbn; [reflexivity |].
  rewrite insert_desc_perm. now constructor.
Qed.

Lemma insert_desc_sorted (x : HighRisk) (l : list HighRisk) :
  StronglySorted score_ge l -> StronglySorted score_ge (insert_desc x l).
Proof.
  induction l as [| y l IH]; cbn; intros Hs; [repeat constructor |].
  inversion Hs as [| ? ? Hs' Hall]; subst.
  destruct (Rleb _ _) eqn:E.
  - apply Rleb_le in E. constructor; [exact Hs |].
    constructor; [exact E |].
    rewrite Forall_forall in *. intros z Hz. specialize (Hall z Hz).
    unfold score_ge in *. lra.
  - apply Rleb_gt in E. constructor; [now apply IH |].
    rewrite Forall_forall in *. intros z Hz.
    apply (Permutation_in _ (insert_desc_perm x l)) in Hz.
    destruct Hz as [<- | Hz]; [unfold score_ge; lra | now apply Hall].
Qed.

Lemma sort_desc_sorted (l : list HighRisk) :
  StronglySorted score_ge (sort_desc l).
Proof.
  unfold sort_desc. induction l as [| x l IH]; cbn; [constructor |].
  now apply insert_desc_sorted.
Qed.

(** The rows of [high_risk] before sorting carry the indices and the
    negated scores, position by position. *)
Lemma high_risk_pairs (df : list Transaction) (indices : list nat) :
  forall (rows : list Transaction) (picked : list R),
    length rows = length indices ->
    length picked = length indices ->
    map (fun h => (hr_index h, hr_anomaly_score h))
      (map (fun '(idx, (row, score)) =>
              mkHighRisk idx (amount row) (category row) (date row)
                (- score) (_explain_anomaly row df))
           (combine indices (combine rows picked)))
    = combine indices (map Ropp picked).
Proof.
  induction indices as [| i indices IH]; intros rows picked Hr Hp;
    [reflexivity |].
  destruct rows as [| row rows]; [discriminate |].
  destruct picked as [| s picked]; [discriminate |].
  cbn. f_equal. apply IH; cbn in *; lia.
Qed.

(** C6, amended: the anomalies are row indices of the request, in ascending
    order; the records of [high_risk_transactions] are sorted by descending
    anomaly score; the list [scores] runs parallel to [anomalies] (one score
    per anomaly, in row order), and the records carry exactly these
    (index, score) pairs. *)
Theorem anomaly_response_order
    (iso_forest : list Transaction -> R -> result (list Z * list R))
    (request : AnomalyRequest) (response : AnomalyResponse) :
  anomaly_detection iso_forest request = Ok response ->
  (forall i, In i (anomalies response) ->
             (i < length (transactions request))%nat)
  /\ StronglySorted lt (anomalies response)
  /\ StronglySorted score_ge (high_risk_transactions response)
  /\ length (scores response) = length (anomalies response)
  /\ Permutation
       (map (fun h => (hr_index h, hr_anomaly_score h))
            (high_risk_transactions response))
       (combine (anomalies response) (scores response)).
Proof.
  intros Hok. apply try_except_ok in Hok. unfold anomaly_body in Hok.
  destruct (length (transactions request) <? 5)%nat; [discriminate |].
  destruct (iso_forest _ _) as [[labels samples] |]; [| discriminate].
  cbn in Hok.
  destruct (take_at samples _) as [picked |] eqn:Hpicked; [| discriminate].
  cbn in Hok.
  destruct (take_at (transactions request) _) as [rows |] eqn:Hrows;
    [| discriminate].
  cbn in Hok. injection Hok as <-.
  cbn [anomalies scores high_risk_transactions].
  apply take_at_spec in Hpicked, Hrows.
  destruct Hpicked as [Hlp _], Hrows as [Hlr Hall].
  repeat split.
  - intros i Hin. rewrite Forall_forall in Hall. now apply Hall.
  - apply where_outlier_ascending.
  - apply sort_desc_sorted.
  - now rewrite length_map.
  - rewrite (Permutation_map _ (sort_desc_perm _)).
    now rewrite high_risk_pairs.
Qed.

End AnomalyOrder.

Section AnomalyExample.

Import Anomaly.

Lemma two_outliers_accepted :
  anomaly_detection two_outliers five_request = Ok two_outliers_response.
Proof. reflexivity. Qed.

(** C6, as stated, fails on the [scores] list: it follows the row order of
    [anomalies], so with rows 0 and 1 flagged and row 1 the more anomalous
    the scores come out ascending (0.5, then 0.7). *)
Lemma scores_follow_row_order :
  anomaly_detection two_outliers five_request = Ok two_outliers_response
  /\ scores two_outliers_response = [- (-0.5); - (-0.7)]
  /\ - (-0.5) < - (-0.7).
Proof.
  split; [exact two_outliers_accepted |].
  split; [reflexivity | lra].
Qed.

Lemma anomaly_response_order_witness :
  (forall i, In i (anomalies two_outliers_response) ->
             (i < length (transactions five_request))%nat)
  /\ StronglySorted lt (anomalies two_outliers_response)
  /\ StronglySorted score_ge (high_risk_transactions two_outliers_response)
  /\ length (scores two_outliers_response)
     = length (anomalies two_outliers_response)
  /\ Permutation
       (map (fun h => (hr_index h, hr_anomaly_score h))
            (high_risk_transactions two_outliers_response))
       (combine (anomalies two_outliers_response)
                (scores two_outliers_response)).
Proof.
  apply (anomaly_response_order two_outliers five_request).
  exact two_outliers_accepted.
Defined.

End AnomalyExample.

(** ** Forecasting: horizon, bounds and dates *)

Section ForecastFacts.

Import Forecast.

Lemma pymax_Fin (lo : R) (b : pyfloat) :
  exists v, pymax (Fin lo) b = Fin v /\ lo <= v.
Proof.
  unfold pymax, fgt, cmp, Rgtb. destruct b as [| r].
  - exists lo. split; [reflexivity | lra].
  - destruct (Rltb lo r) eqn:E.
    + apply Rltb_lt in E. exists r. split; [reflexivity | lra].
    + exists lo. split; [reflexivity | lra].
Qed.

Lemma min2_le_left (a b : R) : min2 a b <= a.
Proof. unfold min2. split_cmp; lra. Qed.

Lemma std_nonneg (l : list R) :
  (2 <= length l)%nat -> exists s, std l = Fin s /\ 0 <= s.
Proof.
  destruct l as [| a [| b l]]; cbn [length]; try lia. intros _.
  eexists. split; [reflexivity | apply sqrt_pos].
Qed.

Lemma forecast_point_bounds (last_date : Z) (current_ema trend_coef : pyfloat)
    (s : R) (factors : list (Z * pyfloat)) (n_days : nat) (N i : Z) :
  0 <= s ->
  let p := forecast_point last_date current_ema trend_coef (Fin s) factors
             n_days N i in
  exists v, predicted_expense p = Fin v
            /\ 100 <= v
            /\ fle (range_low p) (predicted_expense p) = true
            /\ fle (predicted_expense p) (range_high p) = true.
Proof.
  intros Hs. unfold forecast_point. cbv zeta.
  cbn [predicted_expense range_low range_high].
  destruct (pymax_Fin 100
              (fmul (pymax (Fin 0)
                       (fadd current_ema (fmul trend_coef (Fin (IZR i)))))
                    (factor_get factors
                       (weekday ((last_date + i * NS_PER_DAY) / NS_PER_DAY)))))
    as (v & -> & Hv).
  exists v. split; [reflexivity |]. split; [exact Hv |].
  set (c := min2 0.95 _).
  assert (Hc : c <= 0.95) by apply min2_le_left.
  cbn [fmul fsub fadd lift2].
  assert (Hci : 0 <= s * (1 - c) * 1.5) by nra.
  split.
  - unfold pymax, fgt, fle, cmp, Rgtb.
    destruct (Rltb 0 (v - s * (1 - c) * 1.5)); apply Rleb_true; lra.
  - unfold fle, cmp. apply Rleb_true. lra.
Qed.

(** Why the bounds of C7 ask for two days of history: with a single day the
    standard deviation of the daily totals is NaN, and so is [range_high]. *)
Lemma forecast_point_nan_std (last_date : Z) (current_ema trend_coef : pyfloat)
    (factors : list (Z * pyfloat)) (n_days : nat) (N i : Z) :
  range_high (forecast_point last_date current_ema trend_coef NaN factors
                n_days N i) = NaN.
Proof.
  unfold forecast_point. cbv zeta. cbn [range_high].
  now destruct (pymax (Fin 100) _).
Qed.

Lemma add_to_day_keys (day : Z) (a : R) (daily : list (Z * R)) (d : Z) :
  In d (map fst (add_to_day day a daily)) <-> d = day \/ In d (map fst daily).
Proof.
  induction daily as [| [d' s] daily IH]; cbn; [intuition |].
  destruct (Z.ltb_spec day d'); cbn; [intuition |].
  destruct (Z.eqb_spec day d'); cbn; [subst; intuition |].
  rewrite IH. intuition.
Qed.

Lemma daily_expenses_keys (expenses : list Transaction) (d : Z) :
  In d (map fst (daily_expenses expenses))
  <-> exists t, In t expenses /\ day_of t = d.
Proof.
  unfold daily_expenses.
  assert (H : forall daily,
             In d (map fst (fold_left
                              (fun daily t =>
                                 add_to_day (day_of t) (amount t) daily)
                              expenses daily))
             <-> In d (map fst daily)
                 \/ exists t, In t expenses /\ day_of t = d).
  { induction expenses as [| t expenses IH]; cbn; intros daily.
    - split; [auto | intros [H | (t & [] & _)]; exact H].
    - rewrite IH, add_to_day_keys. split.
      + intros [[-> | H] | (t' & Hin & Heq)]; eauto.
      + intros [H | (t' & [<- | Hin] & Heq)]; eauto. }
  rewrite H. cbn. split; [intros [[] | Hex]; exact Hex | auto].
Qed.

(** The day [last_date] stands for is the latest day with an expense. *)
Lemma last_date_of_latest (expenses : list Transaction) :
  expenses <> [] ->
  exists last_day,
    last_date_of (daily_expenses expenses) = (last_day * NS_PER_DAY)%Z
    /\ (exists t, In t expenses /\ day_of t = last_day)
    /\ forall t, In t expenses -> (day_of t <= last_day)%Z.
Proof.
  intros Hne. unfold last_date_of.
  pose proof (daily_expenses_keys expenses) as Hkeys.
  destruct (map fst (daily_expenses expenses)) as [| d ds].
  - destruct expenses as [| t ?]; [congruence |].
    exfalso. apply (proj2 (Hkeys (day_of t))). exists t. split; [now left | reflexivity].
  - destruct (maximum_spec ds d) as [Hin Hmax].
    exists (maximum d ds). split; [reflexivity |]. split.
    + now apply Hkeys.
    + intros t Ht. apply Hmax, Hkeys. now exists t.
Qed.

Lemma add_to_day_sorted (day : Z) (a : R) (daily : list (Z * R)) :
  StronglySorted Z.lt (map fst daily) ->
  StronglySorted Z.lt (map fst (add_to_day day a daily)).
Proof.
  induction daily as [| [d s] daily IH]; cbn; intros Hs;
    [repeat constructor |].
  inversion Hs as [| ? ? Hs' Hall]; subst.
  destruct (Z.ltb_spec day d); cbn.
  - constructor; [exact Hs |]. constructor; [assumption |].
    rewrite Forall_forall in *. intros x Hx. specialize (Hall x Hx). lia.
  - destruct (Z.eqb_spec day d); cbn; [exact Hs |].
    constructor; [now apply IH |].
    rewrite Forall_forall in *. intros x Hx.
    apply add_to_day_keys in Hx. destruct Hx as [-> | Hx]; [lia | auto].
Qed.

(** The daily series is in strictly ascending order of day. *)
Lemma daily_expenses_sorted (expenses : list Transaction) :
  StronglySorted Z.lt (map fst (daily_expenses expenses)).
Proof.
  unfold daily_expenses.
  assert (H : forall daily,
             StronglySorted Z.lt (map fst daily) ->
             StronglySorted Z.lt
               (map fst (fold_left
                           (fun daily t =>
                              add_to_day (day_of t) (amount t) daily)
                           expenses daily))).
  { induction expenses as [| t expenses IH]; cbn; intros daily Hs;
      [exact Hs |].
    apply IH. now apply add_to_day_sorted. }
  apply H. constructor.
Qed.

Lemma ascending_length (l : list Z) :
  StronglySorted Z.lt l ->
  forall lo hi,
    (forall x, In x l -> lo <= x <= hi)%Z ->
    (Z.of_nat (length l) <= Z.max 0 (hi - lo + 1))%Z.
Proof.
  induction 1 as [| x l Hs IH Hall]; intros lo hi Hin; [cbn; lia |].
  rewrite Forall_forall in Hall.
  specialize (IH (x + 1)%Z hi).
  assert (lo <= x <= hi)%Z by (apply Hin; now left).
  cbn [length]. rewrite Nat2Z.inj_succ.
  assert (Z.of_nat (length l) <= Z.max 0 (hi - (x + 1) + 1))%Z.
  { apply IH. intros y Hy. specialize (Hall y Hy).
    specialize (Hin y (or_intror Hy)). lia. }
  lia.
Qed.

(** A history whose expenses span fewer than 14 calendar days, first and
    last day included, has fewer than 14 rows. *)
Lemma short_span_short_history (request : ForecastingRequest)
    (first_day last_day : Z) :
  (forall t, In t (transactions request) -> is_expense t = true ->
             first_day <= day_of t <= last_day)%Z ->
  (last_day - first_day + 1 < 14)%Z ->
  (length (history request) < 14)%nat.
Proof.
  intros Hspan Hshort. unfold history.
  pose proof (ascending_length _
                (daily_expenses_sorted
                   (filter is_expense (transactions request)))
                first_day last_day) as Hlen.
  rewrite length_map in Hlen.
  assert (Z.of_nat (length (daily_expenses
                              (filter is_expense (transactions request))))
          <= Z.max 0 (last_day - first_day + 1))%Z.
  { apply Hlen. intros d Hd. apply daily_expenses_keys in Hd.
    destruct Hd as (t & Ht & <-). apply filter_In in Ht.
    now apply Hspan. }
  lia.
Qed.

End ForecastFacts.

Section ForecastTheorems.

Import Forecast.

Lemma forecast_accepted
    (polyfit_slope : list R -> list R -> result pyfloat)
    (request : ForecastingRequest) (response : ForecastingResponse) :
  expense_forecasting polyfit_slope request = Ok response ->
  (10 <= length (filter is_expense (transactions request)))%nat
  /\ exists trend_coef,
      forecast response =
      map (forecast_point (last_date_of (history request))
             (current_ema_of (history request)) trend_coef
             (std (map snd (history request)))
             (seasonal_factors (history request))
             (length (history request)) (forecast_days request))
          (range_from_1 (forecast_days request)).
Proof.
  intros Hok. apply try_except_ok in Hok. unfold forecast_body in Hok.
  destruct (length (transactions request) <? 10)%nat; [discriminate |].
  destruct (Nat.ltb_spec (length (filter is_expense (transactions request))) 10);
    [discriminate |].
  split; [assumption |].
  destruct (polyfit_slope _ _) as [t0 |]; [| discriminate].
  cbn [bind] in Hok.
  match type of Hok with
  | bind ?m _ = _ => destruct m as [trend_coef |]; [| discriminate]
  end.
  cbn [bind] in Hok. injection Hok as <-.
  exists trend_coef. reflexivity.
Qed.

Lemma length_range_from_1 (N : Z) : length (range_from_1 N) = Z.to_nat N.
Proof. unfold range_from_1. now rewrite length_map, length_seq. Qed.

(** C7, amended: an accepted request gets [max(forecast_days, 0)] points;
    their dates are the consecutive days after the latest day with an
    expense; and when the expenses fall on at least two days (so that the
    standard deviation of the daily totals is a number),
    [range_low <= predicted_expense <= range_high] at every point. *)
Theorem forecast_horizon_bounds_dates
    (polyfit_slope : list R -> list R -> result pyfloat)
    (request : ForecastingRequest) (response : ForecastingResponse) :
  expense_forecasting polyfit_slope request = Ok response ->
  length (forecast response) = Z.to_nat (forecast_days request)
  /\ ((2 <= length (history request))%nat ->
      forall p, In p (forecast response) ->
                fle (range_low p) (predicted_expense p) = true
                /\ fle (predicted_expense p) (range_high p) = true)
  /\ exists last_day,
      (exists t, In t (transactions request)
                 /\ is_expense t = true /\ day_of t = last_day)
      /\ (forall t, In t (transactions request) -> is_expense t = true ->
                    (day_of t <= last_day)%Z)
      /\ map point_date (forecast response) =
         map (fun k => ((last_day + Z.of_nat (S k)) * NS_PER_DAY)%Z)
             (seq 0 (Z.to_nat (forecast_days request))).
Proof.
  intros Hok. apply forecast_accepted in Hok.
  destruct Hok as (Hlen & trend_coef & ->).
  split; [now rewrite length_map, length_range_from_1 |]. split.
  - intros Hdays p Hin. apply in_map_iff in Hin. destruct Hin as (i & <- & _).
    destruct (std_nonneg (map snd (history request))) as (s & -> & Hs);
      [now rewrite length_map |].
    destruct (forecast_point_bounds (last_date_of (history request))
                (current_ema_of (history request)) trend_coef s
                (seasonal_factors (history request))
                (length (history request)) (forecast_days request) i Hs)
      as (v & _ & _ & Hlow & Hhigh).
    now split.
  - destruct (last_date_of_latest (filter is_expense (transactions request)))
      as (last_day & Hlast & (t & Ht & Hday) & Hmax).
    { intros E. rewrite E in Hlen. cbn in Hlen. lia. }
    exists last_day. apply filter_In in Ht. split; [exists t; tauto |].
    split.
    + intros t' Hin He. apply Hmax. apply filter_In. now split.
    + unfold range_from_1. rewrite !map_map. apply map_ext.
      intros k. cbn [forecast_point point_date]. unfold history.
      rewrite Hlast. lia.
Qed.

Lemma antitone_sorted (g : nat -> R) :
  (forall a b, (a <= b)%nat -> g b <= g a) ->
  forall n s, StronglySorted Rge (map g (seq s n)).
Proof.
  intros Hg. induction n as [| n IH]; intros s; cbn; constructor.
  - apply IH.
  - rewrite Forall_forall. intros x Hin.
    apply in_map_iff in Hin. destruct Hin as (k & <- & Hk).
    apply in_seq in Hk. apply Rle_ge, Hg. lia.
Qed.

Lemma decayed_confidence_antitone (N i j : Z) :
  (0 < N)%Z -> (i <= j)%Z -> decayed_confidence N j <= decayed_confidence N i.
Proof.
  intros HN Hij. unfold decayed_confidence.
  apply IZR_lt in HN. apply IZR_le in Hij.
  pose proof (Rinv_0_lt_compat _ HN) as Hinv.
  assert (H : IZR i / IZR N <= IZR j / IZR N) by (unfold Rdiv; nra).
  apply Rle_min_compat_l, Rle_max_compat_l. lra.
Qed.

(** C8: with fewer than 14 days of daily expense history (no seasonality
    boost), the forecast has one confidence per day [i = 1, ..., N] of the
    horizon [N], the confidence of day [i] is
    [min(0.95, max(0.6, 1 - (i/N) * 0.3))], and the confidences never
    increase along the horizon. *)
Theorem confidence_without_seasonality
    (polyfit_slope : list R -> list R -> result pyfloat)
    (request : ForecastingRequest) (response : ForecastingResponse) :
  expense_forecasting polyfit_slope request = Ok response ->
  (length (history request) < 14)%nat ->
  map confidence (forecast response) =
  map (fun k => decayed_confidence (forecast_days request) (Z.of_nat (S k)))
      (seq 0 (Z.to_nat (forecast_days request)))
  /\ StronglySorted Rge (map confidence (forecast response)).
Proof.
  intros Hok Hdays. apply forecast_accepted in Hok.
  destruct Hok as (_ & trend_coef & ->).
  change (map (fun k => decayed_confidence (forecast_days request)
                          (Z.of_nat (S k)))
              (seq 0 (Z.to_nat (forecast_days request))))
    with (map (fun k => decayed_confidence (forecast_days request)
                          ((fun k => Z.of_nat (S k)) k))
              (seq 0 (Z.to_nat (forecast_days request)))).
  rewrite <- (map_map (fun k => Z.of_nat (S k))
                (decayed_confidence (forecast_days request))).
  fold (range_from_1 (forecast_days request)).
  assert (Heq : map confidence
                  (map (forecast_point (last_date_of (history request))
                          (current_ema_of (history request)) trend_coef
                          (std (map snd (history request)))
                          (seasonal_factors (history request))
                          (length (history request)) (forecast_days request))
                       (range_from_1 (forecast_days request)))
                = map (decayed_confidence (forecast_days request))
                      (range_from_1 (forecast_days request))).
  { rewrite map_map. apply map_ext. intros i.
    cbn [forecast_point confidence].
    destruct (Nat.leb_spec 14 (length (history request))); [lia |].
    unfold decayed_confidence.
    rewrite min2_Rmin, max2_Rmax. f_equal. lra. }
  split; [exact Heq |].
  rewrite Heq. unfold range_from_1. rewrite map_map.
  destruct (Z.ltb_spec 0 (forecast_days request)) as [Hpos | Hneg].
  - apply antitone_sorted. intros a b Hab.
    apply decayed_confidence_antitone; lia.
  - replace (Z.to_nat (forecast_days request)) with 0%nat by lia.
    constructor.
Qed.

End ForecastTheorems.

Section ForecastExamples.

Import Forecast.

Lemma uniform_request_accepted (forecast_days : Z) :
  expense_forecasting flat_fit (uniform_request forecast_days)
  = Ok (response_of
          (expense_forecasting flat_fit (uniform_request forecast_days))).
Proof. reflexivity. Qed.

(** C7, as stated, fails on the number of points: a request with
    [forecast_days = -1] is accepted and its forecast is empty. *)
Lemma negative_horizon_gives_empty_forecast :
  expense_forecasting flat_fit (uniform_request (-1))
  = Ok (response_of (expense_forecasting flat_fit (uniform_request (-1))))
  /\ forecast (response_of
                 (expense_forecasting flat_fit (uniform_request (-1)))) = []
  /\ forecast_days (uniform_request (-1)) = (-1)%Z.
Proof. repeat split. Qed.

Lemma forecast_horizon_bounds_dates_witness :
  let request := uniform_request 5 in
  let response := response_of (expense_forecasting flat_fit request) in
  length (forecast response) = Z.to_nat (forecast_days request)
  /\ ((2 <= length (history request))%nat ->
      forall p, In p (forecast response) ->
                fle (range_low p) (predicted_expense p) = true
                /\ fle (predicted_expense p) (range_high p) = true)
  /\ exists last_day,
      (exists t, In t (transactions request)
                 /\ is_expense t = true /\ day_of t = last_day)
      /\ (forall t, In t (transactions request) -> is_expense t = true ->
                    (day_of t <= last_day)%Z)
      /\ map point_date (forecast response) =
         map (fun k => ((last_day + Z.of_nat (S k)) * NS_PER_DAY)%Z)
             (seq 0 (Z.to_nat (forecast_days request))).
Proof.
  apply (forecast_horizon_bounds_dates flat_fit (uniform_request 5)).
  exact (uniform_request_accepted 5).
Defined.

Lemma uniform_history_days : length (history (uniform_request 5)) = 10%nat.
Proof. vm_compute. reflexivity. Qed.

(** Ten uniform days and a horizon of 5, the specification's example: five
    confidences, for the days 1 to 5. *)
Lemma confidence_without_seasonality_witness :
  let request := uniform_request 5 in
  let response := response_of (expense_forecasting flat_fit request) in
  map confidence (forecast response) =
  [decayed_confidence 5 1; decayed_confidence 5 2; decayed_confidence 5 3;
   decayed_confidence 5 4; decayed_confidence 5 5]
  /\ StronglySorted Rge (map confidence (forecast response)).
Proof.
  apply (confidence_without_seasonality flat_fit (uniform_request 5)).
  - exact (uniform_request_accepted 5).
  - rewrite uniform_history_days. lia.
Defined.

End ForecastExamples.

(** ** Requests below the minimum size *)

Section UndersizedRequests.

(** What [str] makes of the three validation errors. *)
Lemma str_of_validation_errors :
  str (HTTPException 400 "Need at least 3 transactions for clustering")
  = "400: Need at least 3 transactions for clustering"
  /\ str (HTTPException 400
            "Need at least 5 transactions for anomaly detection")
     = "400: Need at least 5 transactions for anomaly detection"
  /\ str (HTTPException 400 "Need at least 10 transactions for forecasting")
     = "400: Need at least 10 transactions for forecasting".
Proof. repeat split. Qed.

(** C1 on the code: a request below the minimum size makes the body raise
    the 400 error before the library is called, but the endpoint's own
    [except Exception] handler catches it and answers with status 500, the
    400 and its message surviving only inside the detail text.  This holds
    whatever the numerical libraries would do. *)
Theorem undersized_requests_answer_500
    (fit_predict : list Transaction -> Z -> result (list Z))
    (iso_forest : list Transaction -> R -> result (list Z * list R))
    (polyfit_slope : list R -> list R -> result pyfloat)
    (c : Clustering.ClusteringRequest) (a : Anomaly.AnomalyRequest)
    (f : Forecast.ForecastingRequest) :
  (length (Clustering.transactions c) < 3)%nat ->
  (length (Anomaly.transactions a) < 5)%nat ->
  (length (Forecast.transactions f) < 10)%nat ->
  Clustering.clustering_analysis fit_predict c
  = Raise (HTTPException 500
             (str (HTTPException 400
                     "Need at least 3 transactions for clustering")))
  /\ Anomaly.anomaly_detection iso_forest a
     = Raise (HTTPException 500
                (str (HTTPException 400
                        "Need at least 5 transactions for anomaly detection")))
  /\ Forecast.expense_forecasting polyfit_slope f
     = Raise (HTTPException 500
                (str (HTTPException 400
                        "Need at least 10 transactions for forecasting"))).
Proof.
  intros Hc Ha Hf.
  unfold Clustering.clustering_analysis, Clustering.clustering_body,
    Anomaly.anomaly_detection, Anomaly.anomaly_body,
    Forecast.expense_forecasting, Forecast.forecast_body.
  destruct (Nat.ltb_spec (length (Clustering.transactions c)) 3); [| lia].
  destruct (Nat.ltb_spec (length (Anomaly.transactions a)) 5); [| lia].
  destruct (Nat.ltb_spec (length (Forecast.transactions f)) 10); [| lia].
  repeat split.
Qed.

(** Two transactions sent to each endpoint. *)
Lemma undersized_requests_answer_500_witness :
  let rows := [tx 1 10 "Expense" "Food"; tx 2 5000 "Expense" "Rent"] in
  Clustering.clustering_analysis one_cluster (Clustering.mkRequest "u" rows 5)
  = Raise (HTTPException 500
             (str (HTTPException 400
                     "Need at least 3 transactions for clustering")))
  /\ Anomaly.anomaly_detection two_outliers (Anomaly.mkRequest "u" rows 0.1)
     = Raise (HTTPException 500
                (str (HTTPException 400
                        "Need at least 5 transactions for anomaly detection")))
  /\ Forecast.expense_forecasting flat_fit (Forecast.mkRequest "u" rows 30)
     = Raise (HTTPException 500
                (str (HTTPException 400
                        "Need at least 10 transactions for forecasting"))).
Proof.
  apply undersized_requests_answer_500; cbn; lia.
Defined.

End UndersizedRequests.

(** * Further properties of the code *)

(** ** Single-transaction scoring: the values of the score *)

Section ScoreValues.

Import Scoring.

(** The amounts the two rules can add. *)
Lemma category_rule_values (a : R) (c : string) (txs : list Transaction) :
  In (fst (category_rule a c txs)) [0; 0.6; 0.3; 0.4; 0.2].
Proof.
  unfold category_rule. destruct txs as [| t txs]; [cbn; tauto |].
  repeat match goal with
         | |- context [if ?b then _ else _] => destruct b
         end; cbn; tauto.
Qed.

Lemma overall_rule_values (a : R) (hist_df : list Transaction) :
  In (fst (overall_rule a hist_df)) [0; 0.3; 0.15].
Proof.
  unfold overall_rule.
  repeat match goal with
         | |- context [if ?b then _ else _] => destruct b
         end; cbn; tauto.
Qed.

(** A rule adds nothing exactly when it gives no reason. *)
Lemma category_rule_reason (a : R) (c : string) (txs : list Transaction) :
  (fst (category_rule a c txs) = 0 <-> snd (category_rule a c txs) = [])
  /\ 0 <= fst (category_rule a c txs).
Proof.
  unfold category_rule. destruct txs as [| t txs].
  - cbn. split; [split; [lra | discriminate] | lra].
  - repeat match goal with
           | |- context [if ?b then _ else _] => destruct b
           end; cbn; (split; [split; [try lra; tauto | try discriminate; tauto] | lra]).
Qed.

Lemma overall_rule_reason (a : R) (hist_df : list Transaction) :
  (fst (overall_rule a hist_df) = 0 <-> snd (overall_rule a hist_df) = [])
  /\ 0 <= fst (overall_rule a hist_df).
Proof.
  unfold overall_rule.
  repeat match goal with
         | |- context [if ?b then _ else _] => destruct b
         end; cbn; (split; [split; [try lra; tauto | try discriminate; tauto] | lra]).
Qed.

(** What the endpoint answers on a history that is not empty. *)
Lemma score_body_nonempty (request : TransactionScoringRequest) :
  historical_transactions request <> [] ->
  let a := amount (new_transaction request) in
  let c := category (new_transaction request) in
  let r1 := category_rule a c (cat_txs_of request) in
  let r2 := overall_rule a (historical_transactions request) in
  let s := 0 + fst r1 + fst r2 in
  score_single_transaction request =
  Ok (mkResponse (if Rltb s 1 then s else 1)
        (Rgtb (if Rltb s 1 then s else 1) 0.5)
        match (snd r1 ++ snd r2)%list with
        | [] => NormalSpendingPattern
        | _ => Joined (snd r1 ++ snd r2)
        end
        (risk_of (if Rltb s 1 then s else 1))).
Proof.
  intros Hne. cbv zeta.
  unfold score_single_transaction, score_body, cat_txs_of.
  destruct (historical_transactions request) as [| h hist]; [congruence |].
  destruct (category_rule _ _ _) as [x1 w1].
  destruct (overall_rule _ _) as [x2 w2]. reflexivity.
Qed.

(** The shape of every answer: a score [s] out of thirteen sums of the
    increments (taken as real numbers), with the flag and the risk level
    computed from it. *)
Lemma score_response_shape (request : TransactionScoringRequest) :
  exists s reason,
    score_single_transaction request
    = Ok (mkResponse s (Rgtb s 0.5) reason (risk_of s))
    /\ In s [0; 0.15; 0.2; 0.3; 0.35; 0.4; 0.45; 0.5; 0.55; 0.6; 0.7; 0.75;
             0.9].
Proof.
  destruct (historical_transactions request) as [| h hist] eqn:Hh.
  - exists 0, NotEnoughHistoricalData.
    unfold score_single_transaction, score_body, risk_of, Rgtb, Rgeb.
    rewrite Hh. rewrite Rltb_false, !Rleb_false by lra.
    split; [reflexivity | cbn; tauto].
  - pose proof (score_body_nonempty request) as Hbody.
    cbv zeta in Hbody. rewrite Hbody by congruence. clear Hbody.
    pose proof (category_rule_values (amount (new_transaction request))
                  (category (new_transaction request)) (cat_txs_of request))
      as H1.
    pose proof (overall_rule_values (amount (new_transaction request))
                  (historical_transactions request)) as H2.
    rewrite Hh in *.
    set (x := fst (category_rule _ _ _)) in *.
    set (y := fst (overall_rule _ _)) in *.
    assert (Hs : 0 + x + y < 1).
    { cbn in H1, H2.
      destruct H1 as [<- | [<- | [<- | [<- | [<- | []]]]]];
        destruct H2 as [<- | [<- | [<- | []]]]; lra. }
    rewrite Rltb_true by exact Hs.
    do 2 eexists. split; [reflexivity |].
    cbn in H1, H2.
    destruct H1 as [<- | [<- | [<- | [<- | [<- | []]]]]];
      destruct H2 as [<- | [<- | [<- | []]]];
      cbn; repeat (first [left; lra | right]).
Qed.

(** X1: whenever the endpoint answers, the score is 0 or at least 0.15,
    and never above 0.9: the cap [min(1.0, score)] is never reached. *)
Theorem score_stays_below_cap (request : TransactionScoringRequest)
    (response : TransactionScoringResponse) :
  score_single_transaction request = Ok response ->
  0 <= anomaly_score response <= 0.9
  /\ (anomaly_score response = 0 \/ 0.15 <= anomaly_score response).
Proof.
  intros Hok.
  destruct (score_response_shape request) as (s & reason & Hshape & Hin).
  rewrite Hshape in Hok. injection Hok as <-. cbn [anomaly_score].
  cbn in Hin.
  repeat (destruct Hin as [<- | Hin]; [split; [lra | first [left; lra | right; lra]] |]).
  destruct Hin.
Qed.

Lemma score_stays_below_cap_witness :
  0 <= anomaly_score food_response_110 <= 0.9
  /\ (anomaly_score food_response_110 = 0
      \/ 0.15 <= anomaly_score food_response_110).
Proof.
  apply (score_stays_below_cap (food_request 110) food_response_110).
  unfold score_single_transaction. now rewrite food_score_110.
Defined.

(** X2: in every answer, a "high" risk level comes with
    [is_anomaly = True]; an anomalous answer that is only "medium" has the
    score 0.55 (a candidate above twice the mean of a category without
    spread, and in the top 5% of expenses). *)
Theorem high_risk_is_anomalous (request : TransactionScoringRequest)
    (response : TransactionScoringResponse) :
  score_single_transaction request = Ok response ->
  (risk_level response = "high" -> is_anomaly response = true)
  /\ (is_anomaly response = true -> risk_level response = "medium" ->
      anomaly_score response = 0.55).
Proof.
  intros Hok.
  destruct (score_response_shape request) as (s & reason & Hshape & Hin).
  rewrite Hshape in Hok. injection Hok as <-.
  cbn [anomaly_score is_anomaly risk_level]. unfold risk_of, Rgtb, Rgeb.
  cbn in Hin.
  repeat (destruct Hin as [<- | Hin];
          [split; intros; rcmp; try reflexivity; try lra;
           repeat match goal with
                  | H : context [Rleb ?a ?b] |- _ =>
                      first [rewrite (Rleb_true a b) in H by lra
                            | rewrite (Rleb_false a b) in H by lra]
                  | H : context [Rltb ?a ?b] |- _ =>
                      first [rewrite (Rltb_true a b) in H by lra
                            | rewrite (Rltb_false a b) in H by lra]
                  end; try discriminate |]).
  destruct Hin.
Qed.

Lemma high_risk_is_anomalous_witness :
  (risk_level food_response_110 = "high"
   -> is_anomaly food_response_110 = true)
  /\ (is_anomaly food_response_110 = true ->
      risk_level food_response_110 = "medium" ->
      anomaly_score food_response_110 = 0.55).
Proof.
  apply (high_risk_is_anomalous (food_request 110) food_response_110).
  unfold score_single_transaction. now rewrite food_score_110.
Defined.

(** X3: when the endpoint answers for a candidate in a category that a
    history with entries has never seen, the candidate is not flagged: its
    score is 0.2, 0.35 or 0.5, [is_anomaly] is false, and the first reason
    is the first-transaction one. *)
Theorem first_in_category_never_anomalous
    (request : TransactionScoringRequest)
    (response : TransactionScoringResponse) :
  historical_transactions request <> [] ->
  cat_txs_of request = [] ->
  score_single_transaction request = Ok response ->
  In (anomaly_score response) [0.2; 0.35; 0.5]
  /\ is_anomaly response = false
  /\ exists rest,
      reason response
      = Joined (FirstTransactionInCategory
                  (category (new_transaction request)) :: rest).
Proof.
  intros Hne Hcat Hok.
  pose proof (score_body_nonempty request Hne) as Hbody.
  cbv zeta in Hbody. rewrite Hbody in Hok. clear Hbody.
  rewrite Hcat in Hok. cbn [category_rule fst snd] in Hok.
  pose proof (overall_rule_values (amount (new_transaction request))
                (historical_transactions request)) as H2.
  destruct (overall_rule _ _) as [y w]. cbn [fst snd] in *.
  assert (Hs : 0 + 0.2 + y < 1)
    by (cbn in H2; destruct H2 as [<- | [<- | [<- | []]]]; lra).
  rewrite Rltb_true in Hok by exact Hs.
  injection Hok as <-. cbn [anomaly_score is_anomaly reason app].
  unfold Rgtb. cbn in H2.
  destruct H2 as [<- | [<- | [<- | []]]];
    (split; [cbn; repeat (first [left; lra | right])
            | split; [apply Rltb_false; lra | now exists w]]).
Qed.

Lemma first_in_category_never_anomalous_witness :
  exists response,
    score_single_transaction jewellery_request = Ok response
    /\ In (anomaly_score response) [0.2; 0.35; 0.5]
    /\ is_anomaly response = false
    /\ exists rest,
        reason response
        = Joined (FirstTransactionInCategory "Jewellery" :: rest).
Proof.
  assert (Hne : historical_transactions jewellery_request <> [])
    by discriminate.
  pose proof (score_body_nonempty jewellery_request Hne) as Hok.
  cbv zeta in Hok.
  eexists. split; [exact Hok |].
  exact (first_in_category_never_anomalous jewellery_request _ Hne eq_refl
           Hok).
Defined.

(** X4: when the endpoint answers on a history that is not empty, the
    reason is "Normal spending pattern" exactly when the score is 0: every
    rule that adds to the score also gives a reason, and no reason comes
    without a score. *)
Theorem normal_pattern_iff_zero_score (request : TransactionScoringRequest)
    (response : TransactionScoringResponse) :
  historical_transactions request <> [] ->
  score_single_transaction request = Ok response ->
  (reason response = NormalSpendingPattern <-> anomaly_score response = 0).
Proof.
  intros Hne Hok.
  pose proof (score_body_nonempty request Hne) as Hbody.
  cbv zeta in Hbody. rewrite Hbody in Hok. clear Hbody.
  destruct (category_rule_reason (amount (new_transaction request))
              (category (new_transaction request)) (cat_txs_of request))
    as [H1 H1'].
  destruct (overall_rule_reason (amount (new_transaction request))
              (historical_transactions request)) as [H2 H2'].
  pose proof (category_rule_values (amount (new_transaction request))
                (category (new_transaction request)) (cat_txs_of request))
    as V1.
  pose proof (overall_rule_values (amount (new_transaction request))
                (historical_transactions request)) as V2.
  destruct (category_rule _ _ _) as [x w1].
  destruct (overall_rule _ _) as [y w2]. cbn [fst snd] in *.
  assert (Hs : 0 + x + y < 1).
  { cbn in V1, V2.
    destruct V1 as [<- | [<- | [<- | [<- | [<- | []]]]]];
      destruct V2 as [<- | [<- | [<- | []]]]; lra. }
  rewrite Rltb_true in Hok by exact Hs.
  injection Hok as <-. cbn [reason anomaly_score].
  split.
  - intros Hr. destruct (w1 ++ w2)%list eqn:E; [| discriminate].
    apply app_eq_nil in E. destruct E as [-> ->].
    pose proof (proj2 H1 eq_refl). pose proof (proj2 H2 eq_refl). lra.
  - intros Hz. assert (x = 0) by lra. assert (y = 0) by lra.
    rewrite (proj1 H1), (proj1 H2) by assumption. reflexivity.
Qed.

Lemma normal_pattern_iff_zero_score_witness :
  reason food_response_100 = NormalSpendingPattern
  <-> anomaly_score food_response_100 = 0.
Proof.
  apply (normal_pattern_iff_zero_score (food_request 100) food_response_100).
  - discriminate.
  - unfold score_single_transaction. now rewrite food_score_100.
Defined.

End ScoreValues.

(** ** Segmentation: the persona cascade *)

Section PersonaCascade.

Import Clustering.

(** A fallback label ends in " Focused", so it is none of the fixed labels. *)
Ltac focused_is_not H :=
  exfalso;
  repeat match type of H with
         | (?d ++ _)%string = _ =>
             destruct d; cbn in H; [discriminate H |];
             first [injection H as _ H | discriminate H]
         end.

Lemma focused_not_balanced (d : string) :
  (d ++ " Focused")%string <> "Balanced Spender".
Proof. intros H. focused_is_not H. Qed.

Lemma focused_not_occasional (d : string) :
  (d ++ " Focused")%string <> "Occasional High Spender".
Proof. intros H. focused_is_not H. Qed.

Lemma focused_not_frequent (d : string) :
  (d ++ " Focused")%string <> "Frequent Small Spender".
Proof. intros H. focused_is_not H. Qed.

(** X5: the label "Balanced Spender" is never assigned.  Its rule asks for
    an entertainment ratio above 0.3 and an average amount above 500, and
    with these the first rule has already answered "Lifestyle Spender". *)
Theorem balanced_spender_never_assigned
    (avg_amount : pyfloat) (frequency expense_ratio essentials_ratio
     entertainment_ratio : R) (top_cats : list string) (dominant_cat : string)
    (total_count expense_count : nat) :
  let answer :=
    _assign_persona_label avg_amount frequency expense_ratio essentials_ratio
      entertainment_ratio top_cats dominant_cat total_count expense_count in
  fst answer <> "Balanced Spender"
  /\ (forall n a, snd answer <> BalancedText n a)
  /\ (In (fst answer)
         ["Lifestyle Spender"; "Conscious Saver"; "Big Ticket Buyer";
          "Essentials-First"; "Frequent Small Spender";
          "Occasional High Spender"]
      \/ fst answer = (dominant_cat ++ " Focused")%string).
Proof.
  cbv zeta. unfold _assign_persona_label.
  destruct ((Rgtb entertainment_ratio 0.3
             || mem "Food & Dining" top_cats && Rgtb frequency 5)
            && fgt avg_amount (Fin 500)) eqn:R1;
    [cbn; repeat split; try discriminate; tauto |].
  destruct (flt avg_amount (Fin 500) && Rgtb essentials_ratio 0.6
            && Rgtb frequency 3);
    [cbn; repeat split; try discriminate; tauto |].
  destruct (fgt avg_amount (Fin 3000) && Rltb frequency 2);
    [cbn; repeat split; try discriminate; tauto |].
  destruct ((3 <=? length top_cats)%nat
            && (flt (Fin 500) avg_amount && flt avg_amount (Fin 3000))
            && (Rltb 0.3 entertainment_ratio && Rltb entertainment_ratio 0.6))
    eqn:R4.
  { exfalso.
    apply andb_prop in R4. destruct R4 as [R4 R4e].
    apply andb_prop in R4. destruct R4 as [_ R4a].
    apply andb_prop in R4a. destruct R4a as [R4a _].
    apply andb_prop in R4e. destruct R4e as [R4e _].
    destruct avg_amount as [| a]; [discriminate |].
    unfold fgt, flt, cmp, Rgtb in *.
    rewrite R4e, R4a in R1. discriminate. }
  destruct (Rgtb essentials_ratio 0.7 && Rltb entertainment_ratio 0.15
            && flt avg_amount (Fin 2000));
    [cbn; repeat split; try discriminate; tauto |].
  destruct (Rgtb frequency 8 && flt avg_amount (Fin 1000));
    [cbn; repeat split; try discriminate; tauto |].
  destruct (Rltb frequency 1 && fgt avg_amount (Fin 2000));
    [cbn; repeat split; try discriminate; tauto |].
  cbn. repeat split; try discriminate; [apply focused_not_balanced | tauto].
Qed.

(** X6: the two late rules only see what the earlier rules left.  The label
    "Occasional High Spender" means an average amount above 2000 and at most
    3000 (above 3000 the same frequency makes a "Big Ticket Buyer"); the
    label "Frequent Small Spender" means a frequency above 8, an average
    below 1000, and either an average of at least 500 or an essentials ratio
    of at most 0.6 (otherwise the answer was "Conscious Saver"). *)
Theorem late_rules_bands
    (avg_amount : pyfloat) (frequency expense_ratio essentials_ratio
     entertainment_ratio : R) (top_cats : list string) (dominant_cat : string)
    (total_count expense_count : nat) :
  let label :=
    fst (_assign_persona_label avg_amount frequency expense_ratio
           essentials_ratio entertainment_ratio top_cats dominant_cat
           total_count expense_count) in
  (label = "Occasional High Spender" ->
   exists a, avg_amount = Fin a /\ 2000 < a <= 3000 /\ frequency < 1)
  /\ (label = "Frequent Small Spender" ->
      exists a, avg_amount = Fin a /\ a < 1000 /\ 8 < frequency
                /\ (500 <= a \/ essentials_ratio <= 0.6)).
Proof.
  cbv zeta. unfold _assign_persona_label.
  destruct ((Rgtb entertainment_ratio 0.3
             || mem "Food & Dining" top_cats && Rgtb frequency 5)
            && fgt avg_amount (Fin 500));
    [cbn; split; discriminate |].
  destruct (flt avg_amount (Fin 500) && Rgtb essentials_ratio 0.6
            && Rgtb frequency 3) eqn:R2;
    [cbn; split; discriminate |].
  destruct (fgt avg_amount (Fin 3000) && Rltb frequency 2) eqn:R3;
    [cbn; split; discriminate |].
  destruct ((3 <=? length top_cats)%nat
            && (flt (Fin 500) avg_amount && flt avg_amount (Fin 3000))
            && (Rltb 0.3 entertainment_ratio && Rltb entertainment_ratio 0.6));
    [cbn; split; discriminate |].
  destruct (Rgtb essentials_ratio 0.7 && Rltb entertainment_ratio 0.15
            && flt avg_amount (Fin 2000));
    [cbn; split; discriminate |].
  destruct (Rgtb frequency 8 && flt avg_amount (Fin 1000)) eqn:R6.
  { cbn. split; [discriminate |]. intros _.
    apply andb_prop in R6. destruct R6 as [R6f R6a].
    destruct avg_amount as [| a]; [discriminate |].
    unfold fgt, flt, cmp, Rgtb in *.
    apply Rltb_lt in R6f, R6a.
    exists a. repeat split; try assumption.
    rewrite (Rltb_true 3 frequency) in R2 by lra.
    rewrite andb_true_r in R2.
    apply andb_false_iff in R2. destruct R2 as [R2 | R2];
      apply Rltb_ge in R2; [left | right]; lra. }
  destruct (Rltb frequency 1 && fgt avg_amount (Fin 2000)) eqn:R7.
  { cbn. split; [| discriminate]. intros _.
    apply andb_prop in R7. destruct R7 as [R7f R7a].
    destruct avg_amount as [| a]; [discriminate |].
    unfold fgt, flt, cmp, Rgtb in *.
    apply Rltb_lt in R7f, R7a.
    exists a. repeat split; try assumption.
    rewrite (Rltb_true frequency 2) in R3 by lra.
    rewrite andb_true_r in R3. apply Rltb_ge in R3. lra. }
  cbn. split; intros H;
    [now apply focused_not_occasional in H
    | now apply focused_not_frequent in H].
Qed.

End PersonaCascade.

Lemma late_rules_bands_witness :
  (exists a, Fin 2500 = Fin a /\ 2000 < a <= 3000 /\ 0.5 < 1)
  /\ (exists a, Fin 800 = Fin a /\ a < 1000 /\ 8 < 9
                /\ (500 <= a \/ 0.5 <= 0.6)).
Proof.
  split.
  - apply (proj1 (late_rules_bands (Fin 2500) 0.5 1 0.5 0 ["Rent"] "Rent"
                    3 3)).
    unfold Clustering._assign_persona_label. eval_floats. reflexivity.
  - apply (proj2 (late_rules_bands (Fin 800) 9 1 0.5 0 ["Rent"] "Rent"
                    30 30)).
    unfold Clustering._assign_persona_label. eval_floats. reflexivity.
Defined.

(** ** Segmentation: what a cluster of the response holds *)

Section ClusterContents.

Import Clustering.

Lemma ascending_snoc (l : list nat) (x : nat) :
  StronglySorted lt l -> Forall (fun y => (y < x)%nat) l ->
  StronglySorted lt (l ++ [x]).
Proof.
  induction 1 as [| y l Hs IH Hall]; intros Hlt; cbn.
  - repeat constructor.
  - inversion Hlt as [| ? ? Hy Hlt']; subst.
    constructor; [now apply IH |].
    apply Forall_app. split; [exact Hall | now repeat constructor].
Qed.

Lemma dict_append_filed (df : list Transaction) (start : nat) (key : Z)
    (v : ClusterTx) (d : cluster_dict_t) :
  filed df start d -> tx_index v = start -> copies_row df v ->
  filed df (S start) (dict_append key v d).
Proof.
  intros Hd Hidx Hrow. unfold filed in *.
  induction d as [| [k vs] d IH]; cbn.
  - constructor; [| constructor]. cbn.
    split; [discriminate |].
    split; [repeat constructor |].
    constructor; [split; [lia | exact Hrow] | constructor].
  - inversion Hd as [| ? ? (Hne & Hs & Hall) Hd']; subst. cbn in *.
    assert (Hweak : Forall (fun v0 => (tx_index v0 < S (tx_index v))%nat
                                      /\ copies_row df v0) vs).
    { eapply Forall_impl; [| exact Hall]. cbn. intros ? [? ?]. split; [lia | assumption]. }
    destruct (k =? key)%Z.
    + constructor.
      * cbn. split; [now destruct vs |]. split.
        -- rewrite map_app. cbn. apply ascending_snoc; [exact Hs |].
           rewrite Forall_map. eapply Forall_impl; [| exact Hall].
           cbn. tauto.
        -- apply Forall_app. split; [exact Hweak |].
           constructor; [split; [lia | exact Hrow] | constructor].
      * eapply Forall_impl; [| exact Hd']. cbn.
        intros kv (? & ? & Hkv). repeat split; try assumption.
        eapply Forall_impl; [| exact Hkv]. cbn. intros ? [? ?].
        split; [lia | assumption].
    + constructor; [cbn; tauto | now apply IH].
Qed.

Lemma build_cluster_dict_filed (df : list Transaction) (labels : list Z) :
  forall (start : nat) (d d' : cluster_dict_t),
    build_cluster_dict df start labels d = Ok d' ->
    filed df start d -> filed df (start + length labels) d'.
Proof.
  induction labels as [| l labels IH]; cbn; intros start d d' Hb Hd.
  - injection Hb as <-. now rewrite Nat.add_0_r.
  - destruct (nth_error df start) as [row |] eqn:Hrow; [| discriminate].
    apply IH in Hb.
    + now rewrite Nat.add_succ_r.
    + apply dict_append_filed; [exact Hd | reflexivity |].
      exists row. cbn. tauto.
Qed.

Lemma dict_get_key (d : cluster_dict_t) (k : Z) :
  In k (map fst d) -> In (k, dict_get d k) d.
Proof.
  induction d as [| [k' vs] d IH]; cbn; [tauto |].
  destruct (Z.eqb_spec k' k) as [-> | Hne]; [now left |].
  intros [H | H]; [congruence | right; now apply IH].
Qed.

Lemma iloc_copies (df : list Transaction) (txs : list ClusterTx) :
  Forall (copies_row df) txs ->
  amounts (iloc df (map tx_index txs)) = map tx_amount txs
  /\ map category (iloc df (map tx_index txs)) = map tx_category txs.
Proof.
  induction 1 as [| v txs (row & Hrow & Ha & Hc & _) _ [IHa IHc]]; cbn;
    [split; reflexivity |].
  unfold iloc in *. cbn. rewrite Hrow. cbn.
  unfold amounts in *. cbn. rewrite IHa, IHc, Ha, Hc. split; reflexivity.
Qed.

Lemma persona_fields (cid : Z) (txs : list ClusterTx) (df : list Transaction) :
  let c := _generate_cluster_persona cid txs df in
  count c = length txs
  /\ avg_amount c = mean (amounts (iloc df (map tx_index txs)))
  /\ top_categories c
     = map fst (firstn 3 (value_counts
                            (map category (iloc df (map tx_index txs))))).
Proof.
  cbv zeta. unfold _generate_cluster_persona. cbv zeta.
  now destruct (_assign_persona_label _ _ _ _ _ _ _ _ _).
Qed.

Lemma clustering_accepted
    (fit_predict : list Transaction -> Z -> result (list Z))
    (request : ClusteringRequest) (response : ClusteringResponse) :
  clustering_analysis fit_predict request = Ok response ->
  exists labels d,
    fit_predict (transactions request)
      (clamp_n_clusters (length (transactions request)) (n_clusters request))
    = Ok labels
    /\ build_cluster_dict (transactions request) 0 labels [] = Ok d
    /\ clusters response
       = map (fun cid => _generate_cluster_persona cid (dict_get d cid)
                           (transactions request))
             (sorted_keys d).
Proof.
  intros Hok. apply try_except_ok in Hok. unfold clustering_body in Hok.
  destruct (length (transactions request) <? 3)%nat; [discriminate |].
  destruct (fit_predict _ _) as [labels |]; [| discriminate].
  cbn in Hok.
  destruct (build_cluster_dict _ _ _ _) as [d |] eqn:Hb; [| discriminate].
  cbn in Hok. injection Hok as <-.
  exists labels, d. cbn. tauto.
Qed.

(** X7: in an accepted answer every cluster lists its rows in ascending row
    order, each entry repeats the amount, category and date of the row at
    its index, no cluster is empty, [count] is the number of entries, and
    [avg_amount] is the mean of the amounts listed. *)
Theorem cluster_entries_repeat_rows
    (fit_predict : list Transaction -> Z -> result (list Z))
    (request : ClusteringRequest) (response : ClusteringResponse) :
  clustering_analysis fit_predict request = Ok response ->
  Forall (fun c =>
            cluster_transactions c <> []
            /\ count c = length (cluster_transactions c)
            /\ StronglySorted lt (cluster_indices c)
            /\ Forall (copies_row (transactions request))
                      (cluster_transactions c)
            /\ avg_amount c = mean (map tx_amount (cluster_transactions c)))
         (clusters response).
Proof.
  intros Hok. apply clustering_accepted in Hok.
  destruct Hok as (labels & d & _ & Hb & ->).
  apply build_cluster_dict_filed in Hb; [| constructor].
  rewrite Forall_map, Forall_forall. intros k Hk.
  apply (Permutation_in _ (sorted_keys_perm d)) in Hk.
  apply dict_get_key in Hk.
  unfold filed in Hb. rewrite Forall_forall in Hb.
  destruct (Hb _ Hk) as (Hne & Hs & Hall). cbn [snd] in *.
  assert (Hrows : Forall (copies_row (transactions request)) (dict_get d k)).
  { eapply Forall_impl; [| exact Hall]. cbn. tauto. }
  pose proof (persona_fields k (dict_get d k) (transactions request)) as Hf.
  cbv zeta in Hf. destruct Hf as (Hc & Ha & _).
  unfold cluster_indices. rewrite persona_transactions.
  repeat split; try assumption.
  rewrite Ha. now rewrite (proj1 (iloc_copies _ _ Hrows)).
Qed.

Lemma length_flat_map_sum {A B : Type} (f : A -> list B) (l : list A) :
  length (flat_map f l) = list_sum (map (fun a => length (f a)) l).
Proof.
  induction l as [| a l IH]; cbn; [reflexivity |].
  now rewrite length_app, IH.
Qed.

(** X8: when the clustering algorithm labels every row, the [count] fields
    of the returned clusters add up to the number of transactions of the
    request. *)
Theorem cluster_counts_add_up
    (fit_predict : list Transaction -> Z -> result (list Z))
    (request : ClusteringRequest) (response : ClusteringResponse) :
  (forall df k labels,
      fit_predict df k = Ok labels -> length labels = length df) ->
  clustering_analysis fit_predict request = Ok response ->
  list_sum (map count (clusters response)) = length (transactions request).
Proof.
  intros Hcontract Hok. apply clustering_accepted in Hok.
  destruct Hok as (labels & d & Hfit & Hb & ->).
  apply build_cluster_dict_spec in Hb; [| constructor].
  destruct Hb as (Hnd & Hperm & _).
  pose proof (clusters_of_dict_indices (transactions request) d Hnd) as Hp.
  apply Permutation_length in Hp, Hperm.
  rewrite length_flat_map_sum in Hp. cbn in Hperm.
  rewrite length_seq, (Hcontract _ _ _ Hfit) in Hperm.
  rewrite <- Hperm, <- Hp. f_equal. rewrite !map_map. apply map_ext.
  intros k. unfold cluster_indices. rewrite length_map, persona_transactions.
  pose proof (persona_fields k (dict_get d k) (transactions request)) as Hf.
  cbv zeta in Hf. tauto.
Qed.

Lemma cluster_entries_repeat_rows_witness :
  Forall (fun c =>
            cluster_transactions c <> []
            /\ count c = length (cluster_transactions c)
            /\ StronglySorted lt (cluster_indices c)
            /\ Forall (copies_row (transactions rent_request))
                      (cluster_transactions c)
            /\ avg_amount c = mean (map tx_amount (cluster_transactions c)))
         (clusters two_label_response).
Proof.
  apply (cluster_entries_repeat_rows (fun _ _ => Ok [0; 2; 2]%Z) rent_request).
  reflexivity.
Defined.

Lemma cluster_counts_add_up_witness :
  list_sum (map count (clusters one_cluster_response))
  = length (transactions rent_request).
Proof.
  apply (cluster_counts_add_up one_cluster rent_request).
  - intros df k labels [= <-]. apply length_map.
  - reflexivity.
Defined.

End ClusterContents.

(** ** Segmentation: the top categories of a cluster *)

Section TopCategories.

Import Clustering.

Lemma count_in_bump (x c : string) (counts : list (string * nat)) :
  count_in x (bump c counts)
  = (count_in x counts + if String.eqb x c then 1 else 0)%nat.
Proof.
  induction counts as [| [c' k] counts IH]; cbn.
  - destruct (String.eqb x c); reflexivity.
  - destruct (String.eqb_spec c c') as [-> | Hne]; cbn.
    + destruct (String.eqb x c'); lia.
    + destruct (String.eqb_spec x c') as [-> | Hx].
      * destruct (String.eqb_spec c' c); [congruence | lia].
      * exact IH.
Qed.

Lemma bump_keys (x c : string) (counts : list (string * nat)) :
  In x (map fst (bump c counts)) <-> x = c \/ In x (map fst counts).
Proof.
  induction counts as [| [c' k] counts IH]; cbn; [intuition |].
  destruct (String.eqb_spec c c') as [-> | Hne]; cbn; [intuition |].
  rewrite IH. intuition.
Qed.

Lemma bump_NoDup (c : string) (counts : list (string * nat)) :
  NoDup (map fst counts) -> NoDup (map fst (bump c counts)).
Proof.
  induction counts as [| [c' k] counts IH]; cbn; intros Hnd.
  - constructor; [intros [] | constructor].
  - inversion Hnd as [| ? ? Hnotin Hnd']; subst.
    destruct (String.eqb_spec c c') as [-> | Hne]; cbn; [now constructor |].
    constructor; [| now apply IH].
    rewrite bump_keys. intros [-> | Hin]; [congruence | contradiction].
Qed.

Lemma tally_spec (cats : list string) :
  forall counts,
    NoDup (map fst counts) ->
    let table := fold_left (fun acc c => bump c acc) cats counts in
    NoDup (map fst table)
    /\ (forall x, count_in x table
                  = (count_in x counts + occurrences x cats)%nat)
    /\ (forall x, In x (map fst table)
                  <-> In x (map fst counts) \/ In x cats).
Proof.
  induction cats as [| c cats IH]; cbn; intros counts Hnd.
  - repeat split; auto; try tauto; intros; unfold occurrences; cbn; lia.
  - destruct (IH (bump c counts) (bump_NoDup c counts Hnd))
      as (Hnd' & Hcount & Hkeys).
    split; [exact Hnd' |]. split.
    + intros x. rewrite Hcount, count_in_bump. unfold occurrences. cbn.
      destruct (String.eqb x c); cbn; lia.
    + intros x. rewrite Hkeys, bump_keys. intuition.
Qed.

Lemma count_in_entry (counts : list (string * nat)) (c : string) (k : nat) :
  NoDup (map fst counts) -> In (c, k) counts -> count_in c counts = k.
Proof.
  induction counts as [| [c' k'] counts IH]; cbn; [intros _ [] |].
  intros Hnd [Heq | Hin].
  - injection Heq as -> ->. now rewrite String.eqb_refl.
  - inversion Hnd as [| ? ? Hnotin Hnd']; subst.
    destruct (String.eqb_spec c c') as [-> | Hne]; [| now apply IH].
    exfalso. apply Hnotin. now apply (in_map fst) in Hin.
Qed.

Lemma insert_count_perm (x : string * nat) (l : list (string * nat)) :
  Permutation (insert_count x l) (x :: l).
Proof.
  induction l as [| y l IH]; cbn; [reflexivity |].
  destruct (snd y <=? snd x)%nat; [reflexivity |].
  rewrite IH. apply perm_swap.
Qed.

Lemma insert_count_sorted (x : string * nat) (l : list (string * nat)) :
  StronglySorted (fun a b => (snd b <= snd a)%nat) l ->
  StronglySorted (fun a b => (snd b <= snd a)%nat) (insert_count x l).
Proof.
  induction l as [| y l IH]; cbn; intros Hs; [repeat constructor |].
  inversion Hs as [| ? ? Hs' Hall]; subst.
  destruct (Nat.leb_spec (snd y) (snd x)).
  - constructor; [exact Hs |]. constructor; [assumption |].
    rewrite Forall_forall in *. intros z Hz. specialize (Hall z Hz). lia.
  - constructor; [now apply IH |].
    rewrite Forall_forall in *. intros z Hz.
    apply (Permutation_in _ (insert_count_perm x l)) in Hz.
    destruct Hz as [<- | Hz]; [lia | now apply Hall].
Qed.

Lemma value_counts_spec (cats : list string) :
  let table := value_counts cats in
  NoDup (map fst table)
  /\ (forall x, In x (map fst table) <-> In x cats)
  /\ StronglySorted
       (fun a b => (occurrences b cats <= occurrences a cats)%nat)
       (map fst table).
Proof.
  cbv zeta. unfold value_counts.
  destruct (tally_spec cats [] (NoDup_nil _)) as (Hnd & Hcount & Hkeys).
  cbv zeta in *.
  set (tally := fold_left (fun acc c => bump c acc) cats []) in *.
  assert (Hperm : Permutation (fold_right insert_count [] tally) tally).
  { clear. induction tally as [| x l IH]; cbn; [reflexivity |].
    rewrite insert_count_perm. now constructor. }
  assert (Hsorted : StronglySorted (fun a b => (snd b <= snd a)%nat)
                      (fold_right insert_count [] tally)).
  { clear. induction tally as [| x l IH]; cbn; [constructor |].
    now apply insert_count_sorted. }
  assert (Hentry : forall e, In e (fold_right insert_count [] tally) ->
                             snd e = occurrences (fst e) cats).
  { intros [c k] He. apply (Permutation_in _ Hperm) in He. cbn.
    rewrite <- (count_in_entry tally c k Hnd He), Hcount. reflexivity. }
  split; [| split].
  - eapply Permutation_NoDup; [| exact Hnd].
    apply Permutation_map. now symmetry.
  - intros x. specialize (Hkeys x). cbn in Hkeys.
    split; intros Hin.
    + apply (Permutation_in _ (Permutation_map fst Hperm)) in Hin. tauto.
    + apply (Permutation_in _ (Permutation_map fst (Permutation_sym Hperm))).
      tauto.
  - clear Hperm. revert Hsorted Hentry.
    induction (fold_right insert_count [] tally) as [| e l IH];
      intros Hs He; cbn; [constructor |].
    inversion Hs as [| ? ? Hs' Hall]; subst.
    constructor; [apply IH; [exact Hs' | intros; apply He; now right] |].
    rewrite Forall_map, Forall_forall in *. intros z Hz.
    specialize (Hall z Hz).
    rewrite <- (He e (or_introl eq_refl)), <- (He z (or_intror Hz)).
    exact Hall.
Qed.

(** X9: in an accepted answer, the [top_categories] of a cluster are the
    first three (or fewer) of the distinct categories of its entries, taken
    in descending order of how often each occurs in the cluster. *)
Theorem top_categories_most_frequent
    (fit_predict : list Transaction -> Z -> result (list Z))
    (request : ClusteringRequest) (response : ClusteringResponse) :
  clustering_analysis fit_predict request = Ok response ->
  Forall (fun c =>
            let cats := map tx_category (cluster_transactions c) in
            exists others,
              NoDup (top_categories c ++ others)
              /\ (forall x, In x (top_categories c ++ others) <-> In x cats)
              /\ StronglySorted
                   (fun a b => (occurrences b cats <= occurrences a cats)%nat)
                   (top_categories c ++ others)
              /\ length (top_categories c)
                 = Nat.min 3 (length (top_categories c ++ others)))
         (clusters response).
Proof.
  intros Hok. apply clustering_accepted in Hok.
  destruct Hok as (labels & d & _ & Hb & ->).
  apply build_cluster_dict_filed in Hb; [| constructor].
  rewrite Forall_map, Forall_forall. intros k Hk.
  apply (Permutation_in _ (sorted_keys_perm d)) in Hk.
  apply dict_get_key in Hk.
  unfold filed in Hb. rewrite Forall_forall in Hb.
  destruct (Hb _ Hk) as (_ & _ & Hall). cbn [snd] in *.
  assert (Hrows : Forall (copies_row (transactions request)) (dict_get d k)).
  { eapply Forall_impl; [| exact Hall]. cbn. tauto. }
  pose proof (persona_fields k (dict_get d k) (transactions request)) as Hf.
  cbv zeta in Hf. destruct Hf as (_ & _ & Htop).
  cbv zeta. rewrite persona_transactions, Htop.
  rewrite (proj2 (iloc_copies _ _ Hrows)).
  set (cats := map tx_category (dict_get d k)).
  destruct (value_counts_spec cats) as (Hnd & Hkeys & Hsorted).
  cbv zeta in *.
  exists (map fst (skipn 3 (value_counts cats))).
  rewrite <- map_app, firstn_skipn.
  repeat split; try assumption; try apply Hkeys.
  rewrite !length_map, length_firstn. reflexivity.
Qed.

Lemma top_categories_most_frequent_witness :
  Forall (fun c =>
            let cats := map tx_category (cluster_transactions c) in
            exists others,
              NoDup (top_categories c ++ others)
              /\ (forall x, In x (top_categories c ++ others) <-> In x cats)
              /\ StronglySorted
                   (fun a b => (occurrences b cats <= occurrences a cats)%nat)
                   (top_categories c ++ others)
              /\ length (top_categories c)
                 = Nat.min 3 (length (top_categories c ++ others)))
         (clusters one_cluster_response).
Proof.
  apply (top_categories_most_frequent one_cluster rent_request).
  reflexivity.
Defined.

End TopCategories.

(** ** Segmentation: ratios and the cluster count *)

Section ClusterRatios.

Import Clustering.

Lemma essentials_entertainment_disjoint (c : string) :
  mem c essentials && mem c entertainment = false.
Proof.
  unfold mem, essentials, entertainment. cbn.
  repeat match goal with
         | |- context [String.eqb c ?s] =>
             destruct (String.eqb_spec c s); [subst; reflexivity |]
         end.
  reflexivity.
Qed.

Lemma disjoint_counts (df : list Transaction) :
  (forall t, In t df ->
             (isin essentials t || isin entertainment t) = true ->
             is_expense t = true) ->
  (essentials_count df + length (filter (isin entertainment) df)
   <= expense_count df)%nat.
Proof.
  unfold essentials_count, expense_count.
  induction df as [| t df IH]; intros H; [cbn; lia |].
  assert (IH' := IH (fun t' Ht' => H t' (or_intror Ht'))).
  pose proof (H t (or_introl eq_refl)) as Ht.
  pose proof (essentials_entertainment_disjoint (category t)) as Hd.
  fold (isin essentials t) in Hd. fold (isin entertainment t) in Hd.
  cbn [filter].
  destruct (isin essentials t), (isin entertainment t), (is_expense t);
    cbn [length orb andb] in *; try discriminate; try lia;
    specialize (Ht eq_refl); discriminate.
Qed.

Lemma of_nat_le (a b : nat) : (a <= b)%nat -> of_nat a <= of_nat b.
Proof. intros H. unfold of_nat. apply IZR_le. lia. Qed.

Lemma of_nat_plus (a b : nat) : of_nat (a + b) = of_nat a + of_nat b.
Proof. unfold of_nat. now rewrite Nat2Z.inj_add, plus_IZR. Qed.

Lemma of_nat_pos (a : nat) : (0 < a)%nat -> 0 < of_nat a.
Proof. intros H. unfold of_nat. apply IZR_lt. lia. Qed.

Lemma ratio_bounds (num den : nat) :
  (num <= den)%nat -> 0 <= ratio num den <= 1.
Proof.
  intros H. unfold ratio. destruct (Nat.ltb_spec 0 den); [| lra].
  pose proof (of_nat_pos den H0). pose proof (of_nat_le _ _ H).
  pose proof (of_nat_le 0 num (Nat.le_0_l _)) as Hn.
  unfold of_nat at 1 in Hn. cbn in Hn.
  split.
  - apply Rmult_le_pos; [exact Hn |]. left. now apply Rinv_0_lt_compat.
  - apply (Rmult_le_reg_r (of_nat den)); [assumption |].
    unfold Rdiv. rewrite Rmult_assoc, Rinv_l by lra. lra.
Qed.

Lemma ratio_nonneg (num den : nat) : 0 <= ratio num den.
Proof.
  unfold ratio. destruct (Nat.ltb_spec 0 den) as [Hpos | _]; [| lra].
  pose proof (of_nat_pos den Hpos) as Hden.
  assert (0 <= of_nat num) by (unfold of_nat; apply IZR_le; lia).
  unfold Rdiv. apply Rmult_le_pos; [assumption |].
  left. now apply Rinv_0_lt_compat.
Qed.

(** X10: the expense ratio of a cluster is a fraction between 0 and 1, and
    its essentials and entertainment ratios are never negative.  When every
    row with an essentials or entertainment category is an expense, the
    two together are at most 1 (so each is a fraction). *)
Theorem cluster_ratios_are_fractions (cluster_df : list Transaction) :
  0 <= ratio (expense_count cluster_df) (length cluster_df) <= 1
  /\ 0 <= essentials_ratio cluster_df
  /\ 0 <= entertainment_ratio cluster_df
  /\ ((forall t, In t cluster_df ->
                 (isin essentials t || isin entertainment t) = true ->
                 is_expense t = true) ->
      essentials_ratio cluster_df + entertainment_ratio cluster_df <= 1).
Proof.
  split; [apply ratio_bounds; unfold expense_count; apply filter_length_le |].
  split; [apply ratio_nonneg |]. split; [apply ratio_nonneg |].
  intros H. pose proof (disjoint_counts cluster_df H) as Hsum.
  unfold essentials_ratio, entertainment_ratio.
  set (a := essentials_count cluster_df) in *.
  set (b := length (filter (isin entertainment) cluster_df)) in *.
  set (e := expense_count cluster_df) in *.
  unfold ratio. destruct (Nat.ltb_spec 0 e) as [Hpos | _]; [| lra].
  pose proof (of_nat_pos e Hpos) as He.
  pose proof (of_nat_le _ _ Hsum) as Hle. rewrite of_nat_plus in Hle.
  apply (Rmult_le_reg_r (of_nat e)); [assumption |].
  unfold Rdiv. rewrite Rmult_plus_distr_r, !Rmult_assoc, Rinv_l by lra. lra.
Qed.

(** X10 at a day with a grocery expense and a cinema ticket: one half
    each. *)
Lemma cluster_ratios_are_fractions_witness :
  essentials_ratio outing_cluster + entertainment_ratio outing_cluster <= 1.
Proof.
  apply (proj2 (proj2 (proj2 (cluster_ratios_are_fractions outing_cluster)))).
  intros t [<- | [<- | []]] _; reflexivity.
Defined.

(** X11: the clustering algorithm is never asked for more clusters than
    there are rows: two algorithms that agree on every such call give the
    same answer to every request. *)
Theorem kmeans_called_within_rows
    (fit1 fit2 : list Transaction -> Z -> result (list Z))
    (request : ClusteringRequest) :
  (forall df k, (k <= Z.of_nat (length df))%Z -> fit1 df k = fit2 df k) ->
  clustering_analysis fit1 request = clustering_analysis fit2 request.
Proof.
  intros Hagree. unfold clustering_analysis, clustering_body.
  destruct (Nat.ltb_spec (length (transactions request)) 3);
    [reflexivity |].
  rewrite Hagree; [reflexivity |].
  unfold clamp_n_clusters.
  destruct (Z.ltb_spec (Z.of_nat (length (transactions request)))
              (n_clusters request)); lia.
Qed.

End ClusterRatios.

Lemma kmeans_called_within_rows_witness :
  Clustering.clustering_analysis one_cluster rent_request
  = Clustering.clustering_analysis guarded_cluster rent_request.
Proof.
  apply kmeans_called_within_rows.
  intros df k Hk. unfold guarded_cluster.
  destruct (Z.leb_spec k (Z.of_nat (length df))); [reflexivity | lia].
Defined.

(** ** Failures of the numerical libraries and of the expense filter *)

Section LibraryFailures.

(** X12: an exception of the numerical library, raised on a request of
    sufficient size, is answered by a 500 whose detail is the text of that
    exception: there is no partial result. *)
Theorem library_errors_answer_500
    (fit_predict : list Transaction -> Z -> result (list Z))
    (iso_forest : list Transaction -> R -> result (list Z * list R))
    (polyfit_slope : list R -> list R -> result pyfloat)
    (c : Clustering.ClusteringRequest) (a : Anomaly.AnomalyRequest)
    (f : Forecast.ForecastingRequest) (e1 e2 e3 : Exception) :
  (3 <= length (Clustering.transactions c))%nat ->
  fit_predict (Clustering.transactions c)
    (Clustering.clamp_n_clusters (length (Clustering.transactions c))
       (Clustering.n_clusters c)) = Raise e1 ->
  (5 <= length (Anomaly.transactions a))%nat ->
  iso_forest (Anomaly.transactions a) (Anomaly.contamination a) = Raise e2 ->
  (10 <= length (filter is_expense (Forecast.transactions f)))%nat ->
  polyfit_slope
    (map (fun k => of_nat k) (seq 0 (length (history f))))
    (map snd (history f)) = Raise e3 ->
  Clustering.clustering_analysis fit_predict c
  = Raise (HTTPException 500 (str e1))
  /\ Anomaly.anomaly_detection iso_forest a
     = Raise (HTTPException 500 (str e2))
  /\ Forecast.expense_forecasting polyfit_slope f
     = Raise (HTTPException 500 (str e3)).
Proof.
  intros Hc H1 Ha H2 Hf H3.
  unfold Clustering.clustering_analysis, Clustering.clustering_body,
    Anomaly.anomaly_detection, Anomaly.anomaly_body,
    Forecast.expense_forecasting, Forecast.forecast_body.
  destruct (Nat.ltb_spec (length (Clustering.transactions c)) 3); [lia |].
  destruct (Nat.ltb_spec (length (Anomaly.transactions a)) 5); [lia |].
  assert (Hlen : (10 <= length (Forecast.transactions f))%nat).
  { pose proof (filter_length_le is_expense (Forecast.transactions f)). lia. }
  destruct (Nat.ltb_spec (length (Forecast.transactions f)) 10); [lia |].
  destruct (Nat.ltb_spec
              (length (filter is_expense (Forecast.transactions f))) 10);
    [lia |].
  unfold history in H3. rewrite H1, H2, H3. repeat split.
Qed.

Lemma library_errors_answer_500_witness :
  Clustering.clustering_analysis failing_kmeans rent_request
  = Raise (HTTPException 500 (str (LibraryError "n_clusters must be positive")))
  /\ Anomaly.anomaly_detection failing_forest five_request
     = Raise (HTTPException 500
                (str (LibraryError "contamination must be in (0, 0.5]")))
  /\ Forecast.expense_forecasting failing_fit (uniform_request 5)
     = Raise (HTTPException 500
                (str (LibraryError
                        "SVD did not converge in Linear Least Squares"))).
Proof.
  apply library_errors_answer_500; try reflexivity; cbn; lia.
Defined.

(** X13: a forecasting request with fewer than 10 transactions of type
    Expense, however many transactions it has, gets no forecast: the endpoint
    answers with status 500, and nothing the line fit would do changes
    that. *)
Theorem too_few_expenses_answer_500
    (polyfit_slope : list R -> list R -> result pyfloat)
    (f : Forecast.ForecastingRequest) :
  (length (filter is_expense (Forecast.transactions f)) < 10)%nat ->
  exists detail,
    Forecast.expense_forecasting polyfit_slope f
    = Raise (HTTPException 500 detail).
Proof.
  intros Hexp.
  unfold Forecast.expense_forecasting, Forecast.forecast_body.
  destruct (Nat.ltb_spec (length (Forecast.transactions f)) 10);
    [eexists; reflexivity |].
  destruct (Nat.ltb_spec
              (length (filter is_expense (Forecast.transactions f))) 10);
    [eexists; reflexivity | lia].
Qed.

(** X13 at ten salary payments and no expense. *)
Lemma too_few_expenses_answer_500_witness :
  exists detail,
    Forecast.expense_forecasting flat_fit
      (Forecast.mkRequest "u" income_rows 30)
    = Raise (HTTPException 500 detail).
Proof.
  apply too_few_expenses_answer_500. cbn. lia.
Defined.

End LibraryFailures.

(** ** Batch anomaly detection: what the records hold *)

Section AnomalyRecords.

Import Anomaly.

Lemma where_outlier_spec (labels : list Z) :
  forall start i,
    In i (where_outlier start labels)
    <-> (start <= i)%nat /\ nth_error labels (i - start) = Some (-1)%Z.
Proof.
  induction labels as [| l labels IH]; cbn; intros start i.
  - split; [intros [] | intros [_ H]]. now destruct (i - start)%nat.
  - assert (Hstep : In i (where_outlier (S start) labels)
                    <-> (start < i)%nat
                        /\ nth_error (l :: labels) (i - start) = Some (-1)%Z).
    { rewrite IH. split; intros [Hle Hnth]; (split; [lia |]).
      - replace (i - start)%nat with (S (i - S start)) by lia. exact Hnth.
      - replace (i - start)%nat with (S (i - S start)) in Hnth by lia.
        exact Hnth. }
    destruct (Z.eqb_spec l (-1)) as [-> | Hne]; cbn [In].
    + rewrite Hstep. split.
      * intros [<- | [Hlt Hnth]]; [| split; [lia | exact Hnth]].
        split; [lia |]. now rewrite Nat.sub_diag.
      * intros [Hle Hnth].
        destruct (Nat.eq_dec start i) as [-> | Hne]; [now left | right].
        split; [lia | exact Hnth].
    + rewrite Hstep. split; [intros [Hlt Hnth]; split; [lia | exact Hnth] |].
      intros [Hle Hnth].
      destruct (Nat.eq_dec start i) as [-> | Hne'].
      * rewrite Nat.sub_diag in Hnth. cbn in Hnth. congruence.
      * split; [lia | exact Hnth].
Qed.

Lemma take_at_nth {A : Type} (xs : list A) (indices : list nat) :
  forall ys,
    take_at xs indices = Ok ys ->
    Forall2 (fun i y => nth_error xs i = Some y) indices ys.
Proof.
  induction indices as [| i indices IH]; cbn; intros ys.
  - intros [= <-]. constructor.
  - destruct (nth_error xs i) as [x |] eqn:Hnth; [| discriminate].
    destruct (take_at xs indices) as [tl |]; [| discriminate].
    cbn. intros [= <-]. constructor; [exact Hnth | now apply IH].
Qed.

(** The records of [high_risk] before sorting, read against the rows and
    the scores they were built from. *)
Lemma high_risk_built (df : list Transaction) (samples : list R)
    (indices : list nat) :
  forall rows picked,
    Forall2 (fun i y => nth_error df i = Some y) indices rows ->
    Forall2 (fun i y => nth_error samples i = Some y) indices picked ->
    Forall (fun h =>
              exists row score,
                nth_error df (hr_index h) = Some row
                /\ nth_error samples (hr_index h) = Some score
                /\ hr_amount h = amount row
                /\ hr_category h = category row
                /\ hr_date h = date row
                /\ hr_anomaly_score h = - score
                /\ hr_reason h = _explain_anomaly row df)
           (map (fun '(idx, (row, score)) =>
                   mkHighRisk idx (amount row) (category row) (date row)
                     (- score) (_explain_anomaly row df))
                (combine indices (combine rows picked))).
Proof.
  induction indices as [| i indices IH]; intros rows picked Hr Hp;
    [constructor |].
  inversion Hr as [| ? row ? rows' Hrow Hr']; subst.
  inversion Hp as [| ? score ? picked' Hscore Hp']; subst.
  cbn. constructor; [| now apply IH].
  exists row, score. cbn. tauto.
Qed.

(** X14: in an accepted answer, [anomalies] lists exactly the rows the
    detector labelled -1, and every record of [high_risk_transactions]
    repeats the amount, category and date of the row at its index, carries
    the negated detector score of that row, and the explanation computed for
    that row. *)
Theorem anomaly_records_repeat_rows
    (iso_forest : list Transaction -> R -> result (list Z * list R))
    (request : AnomalyRequest) (response : AnomalyResponse) :
  anomaly_detection iso_forest request = Ok response ->
  exists labels samples,
    iso_forest (transactions request) (contamination request)
    = Ok (labels, samples)
    /\ (forall i, In i (anomalies response)
                  <-> nth_error labels i = Some (-1)%Z)
    /\ Forall (fun h =>
                 exists row score,
                   nth_error (transactions request) (hr_index h) = Some row
                   /\ nth_error samples (hr_index h) = Some score
                   /\ hr_amount h = amount row
                   /\ hr_category h = category row
                   /\ hr_date h = date row
                   /\ hr_anomaly_score h = - score
                   /\ hr_reason h = _explain_anomaly row (transactions request))
              (high_risk_transactions response).
Proof.
  intros Hok. apply try_except_ok in Hok. unfold anomaly_body in Hok.
  destruct (length (transactions request) <? 5)%nat; [discriminate |].
  destruct (iso_forest _ _) as [[labels samples] |]; [| discriminate].
  cbn in Hok.
  destruct (take_at samples _) as [picked |] eqn:Hpicked; [| discriminate].
  cbn in Hok.
  destruct (take_at (transactions request) _) as [rows |] eqn:Hrows;
    [| discriminate].
  cbn in Hok. injection Hok as <-.
  exists labels, samples. split; [reflexivity |].
  cbn [anomalies high_risk_transactions]. split.
  - intros i. rewrite where_outlier_spec. rewrite Nat.sub_0_r.
    split; [tauto | intros H; split; [lia | exact H]].
  - apply take_at_nth in Hpicked, Hrows.
    pose proof (high_risk_built _ _ _ _ _ Hrows Hpicked) as Hbuilt.
    rewrite Forall_forall in *. intros h Hh. apply Hbuilt.
    eapply Permutation_in; [apply sort_desc_perm | exact Hh].
Qed.

Lemma anomaly_records_repeat_rows_witness :
  exists labels samples,
    two_outliers (transactions five_request) (contamination five_request)
    = Ok (labels, samples)
    /\ (forall i, In i (anomalies two_outliers_response)
                  <-> nth_error labels i = Some (-1)%Z)
    /\ Forall (fun h =>
                 exists row score,
                   nth_error (transactions five_request) (hr_index h)
                   = Some row
                   /\ nth_error samples (hr_index h) = Some score
                   /\ hr_amount h = amount row
                   /\ hr_category h = category row
                   /\ hr_date h = date row
                   /\ hr_anomaly_score h = - score
                   /\ hr_reason h
                      = _explain_anomaly row (transactions five_request))
              (high_risk_transactions two_outliers_response).
Proof.
  apply (anomaly_records_repeat_rows two_outliers five_request).
  exact two_outliers_accepted.
Defined.

Lemma high_risk_indices (df : list Transaction) (indices : list nat) :
  forall (rows : list Transaction) (picked : list R),
    length rows = length indices ->
    length picked = length indices ->
    map hr_index
      (map (fun '(idx, (row, score)) =>
              mkHighRisk idx (amount row) (category row) (date row)
                (- score) (_explain_anomaly row df))
           (combine indices (combine rows picked)))
    = indices.
Proof.
  induction indices as [| i indices IH]; intros rows picked Hr Hp;
    [reflexivity |].
  destruct rows as [| row rows]; [discriminate |].
  destruct picked as [| s picked]; [discriminate |].
  cbn. f_equal. apply IH; cbn in *; lia.
Qed.

Lemma insert_desc_ranked (x : HighRisk) (l : list HighRisk) :
  StronglySorted ranked_before l ->
  Forall (fun y => (hr_index x < hr_index y)%nat) l ->
  StronglySorted ranked_before (insert_desc x l).
Proof.
  induction l as [| y l IH]; cbn; intros Hs Hidx; [repeat constructor |].
  inversion Hs as [| ? ? Hs' Hall]; subst.
  inversion Hidx as [| ? ? Hy Hidx']; subst.
  rewrite Forall_forall in Hall, Hidx'.
  destruct (Rleb _ _) eqn:E.
  - apply Rleb_le in E. constructor; [exact Hs |].
    constructor.
    + unfold ranked_before. destruct E as [E | E]; [left; lra | right].
      split; [now symmetry | exact Hy].
    + rewrite Forall_forall. intros z Hz.
      specialize (Hall z Hz). specialize (Hidx' z Hz).
      unfold ranked_before in *.
      destruct Hall as [Hlt | [Heq _]]; destruct E as [E | E];
        try (left; lra); right; split; [lra | exact Hidx'].
  - apply Rleb_gt in E. constructor.
    + apply IH; [exact Hs' |]. rewrite Forall_forall. exact Hidx'.
    + rewrite Forall_forall. intros z Hz.
      apply (Permutation_in _ (insert_desc_perm x l)) in Hz.
      destruct Hz as [<- | Hz]; [left; lra | now apply Hall].
Qed.

Lemma sort_desc_ranked (l : list HighRisk) :
  StronglySorted lt (map hr_index l) ->
  StronglySorted ranked_before (sort_desc l).
Proof.
  unfold sort_desc. induction l as [| x l IH]; cbn; intros Hs;
    [constructor |].
  inversion Hs as [| ? ? Hs' Hall]; subst.
  apply insert_desc_ranked; [now apply IH |].
  rewrite Forall_forall. intros y Hy.
  apply (Permutation_in _ (sort_desc_perm l)) in Hy.
  rewrite Forall_forall in Hall. apply Hall. now apply in_map.
Qed.

(** X15: the high-risk records are in a fully determined order: by
    descending anomaly score, and records with equal scores in ascending
    order of their row index (the sort is stable). *)
Theorem high_risk_order_is_stable
    (iso_forest : list Transaction -> R -> result (list Z * list R))
    (request : AnomalyRequest) (response : AnomalyResponse) :
  anomaly_detection iso_forest request = Ok response ->
  StronglySorted ranked_before (high_risk_transactions response).
Proof.
  intros Hok. apply try_except_ok in Hok. unfold anomaly_body in Hok.
  destruct (length (transactions request) <? 5)%nat; [discriminate |].
  destruct (iso_forest _ _) as [[labels samples] |]; [| discriminate].
  cbn in Hok.
  destruct (take_at samples _) as [picked |] eqn:Hpicked; [| discriminate].
  cbn in Hok.
  destruct (take_at (transactions request) _) as [rows |] eqn:Hrows;
    [| discriminate].
  cbn in Hok. injection Hok as <-. cbn [high_risk_transactions].
  apply sort_desc_ranked.
  apply take_at_spec in Hpicked, Hrows.
  destruct Hpicked as [Hlp _], Hrows as [Hlr _].
  rewrite (high_risk_indices _ _ rows picked Hlr Hlp).
  apply where_outlier_ascending.
Qed.

Lemma high_risk_order_is_stable_witness :
  StronglySorted ranked_before (high_risk_transactions two_outliers_response).
Proof.
  apply (high_risk_order_is_stable two_outliers five_request).
  exact two_outliers_accepted.
Defined.

End AnomalyRecords.

(** ** Forecasting: floors, confidence and the daily series *)

Section ForecastLevels.

Import Forecast.

Lemma std_cases (l : list R) :
  std l = NaN \/ exists s, std l = Fin s /\ 0 <= s.
Proof.
  destruct l as [| a [| b l]]; [now left | now left | right].
  eexists. split; [reflexivity | apply sqrt_pos].
Qed.

Lemma forecast_point_floors (last_date : Z)
    (current_ema trend_coef std_daily : pyfloat)
    (factors : list (Z * pyfloat)) (n_days : nat) (N i : Z) :
  (std_daily = NaN \/ exists s, std_daily = Fin s /\ 0 <= s) ->
  let p := forecast_point last_date current_ema trend_coef std_daily factors
             n_days N i in
  exists v lo, predicted_expense p = Fin v /\ 100 <= v
               /\ range_low p = Fin lo /\ 0 <= lo <= v.
Proof.
  intros Hstd. unfold forecast_point. cbv zeta.
  cbn [predicted_expense range_low].
  destruct (pymax_Fin 100
              (fmul (pymax (Fin 0)
                       (fadd current_ema (fmul trend_coef (Fin (IZR i)))))
                    (factor_get factors
                       (weekday ((last_date + i * NS_PER_DAY) / NS_PER_DAY)))))
    as (v & -> & Hv).
  exists v. set (c := min2 0.95 _).
  assert (Hc : c <= 0.95) by apply min2_le_left.
  destruct Hstd as [-> | (s & -> & Hs)].
  - exists 0. cbn. repeat split; try reflexivity; lra.
  - cbn [fmul fsub lift2].
    assert (Hci : 0 <= s * (1 - c) * 1.5) by nra.
    unfold pymax, fgt, cmp, Rgtb.
    destruct (Rltb 0 (v - s * (1 - c) * 1.5)) eqn:E.
    + apply Rltb_lt in E. eexists. repeat split; try reflexivity; lra.
    + exists 0. repeat split; try reflexivity; lra.
Qed.

(** X16: in every accepted forecast, whatever the history and the fitted
    trend, each point's [predicted_expense] is a number of at least 100 and
    its [range_low] is a number between 0 and the prediction. *)
Theorem forecast_floors
    (polyfit_slope : list R -> list R -> result pyfloat)
    (request : ForecastingRequest) (response : ForecastingResponse) :
  expense_forecasting polyfit_slope request = Ok response ->
  Forall (fun p =>
            exists v lo, predicted_expense p = Fin v /\ 100 <= v
                         /\ range_low p = Fin lo /\ 0 <= lo <= v)
         (forecast response).
Proof.
  intros Hok. apply forecast_accepted in Hok.
  destruct Hok as (_ & trend_coef & ->).
  rewrite Forall_map, Forall_forall. intros i _.
  apply forecast_point_floors, std_cases.
Qed.

Lemma forecast_floors_witness :
  Forall (fun p =>
            exists v lo, predicted_expense p = Fin v /\ 100 <= v
                         /\ range_low p = Fin lo /\ 0 <= lo <= v)
         (forecast (response_of
                      (expense_forecasting flat_fit (uniform_request 5)))).
Proof.
  apply (forecast_floors flat_fit (uniform_request 5)).
  exact (uniform_request_accepted 5).
Defined.

Lemma forecast_point_confidence (last_date : Z)
    (current_ema trend_coef std_daily : pyfloat)
    (factors : list (Z * pyfloat)) (n_days : nat) (N i : Z) :
  confidence (forecast_point last_date current_ema trend_coef std_daily
                factors n_days N i)
  = boosted_confidence (if (14 <=? n_days)%nat then 0.1 else 0) N i.
Proof.
  cbn [forecast_point confidence]. unfold boosted_confidence.
  now rewrite min2_Rmin, max2_Rmax.
Qed.

Lemma boosted_confidence_antitone (boost : R) (N i j : Z) :
  (0 < N)%Z -> (i <= j)%Z ->
  boosted_confidence boost N j <= boosted_confidence boost N i.
Proof.
  intros HN Hij. unfold boosted_confidence.
  apply IZR_lt in HN. apply IZR_le in Hij.
  pose proof (Rinv_0_lt_compat _ HN) as Hinv.
  assert (IZR i / IZR N <= IZR j / IZR N) by (unfold Rdiv; nra).
  apply Rle_min_compat_l, Rplus_le_compat_r, Rle_max_compat_l. lra.
Qed.

Lemma boosted_confidence_band (boost : R) (N i : Z) :
  0 <= boost <= 0.1 -> (1 <= i <= N)%Z ->
  0.7 + boost <= boosted_confidence boost N i <= 0.95.
Proof.
  intros Hb [Hi HN]. unfold boosted_confidence.
  assert (HN' : 0 < IZR N) by (apply IZR_lt; lia).
  assert (Hi' : 0 < IZR i) by (apply IZR_lt; lia).
  apply IZR_le in HN.
  pose proof (Rinv_0_lt_compat _ HN') as Hinv.
  assert (Hq : 0 < IZR i / IZR N <= 1).
  { unfold Rdiv. split; [nra |].
    apply (Rmult_le_reg_r (IZR N)); [assumption |].
    rewrite Rmult_assoc, Rinv_l by lra. lra. }
  revert Hq. generalize (IZR i / IZR N). intros q Hq.
  split; [| apply Rmin_l].
  apply Rmin_glb; [lra |].
  pose proof (Rmax_r 0.6 (1 - q * 0.3)). lra.
Qed.

(** X17: in every accepted forecast the confidences lie between 0.7 and
    0.95 (so the floor of 0.6 in the formula is never reached) and never
    increase along the horizon, with or without the seasonality boost. *)
Theorem confidence_band
    (polyfit_slope : list R -> list R -> result pyfloat)
    (request : ForecastingRequest) (response : ForecastingResponse) :
  expense_forecasting polyfit_slope request = Ok response ->
  Forall (fun p => 0.7 <= confidence p <= 0.95) (forecast response)
  /\ StronglySorted Rge (map confidence (forecast response)).
Proof.
  intros Hok. apply forecast_accepted in Hok.
  destruct Hok as (_ & trend_coef & ->).
  set (boost := if (14 <=? length (history request))%nat then 0.1 else 0).
  assert (Hb : 0 <= boost <= 0.1)
    by (unfold boost; destruct (14 <=? _)%nat; lra).
  split.
  - rewrite Forall_map, Forall_forall. intros i Hi.
    rewrite forecast_point_confidence. fold boost.
    unfold range_from_1 in Hi. apply in_map_iff in Hi.
    destruct Hi as (k & <- & Hk). apply in_seq in Hk.
    pose proof (boosted_confidence_band boost (forecast_days request)
                  (Z.of_nat (S k)) Hb ltac:(lia)) as Hband.
    lra.
  - rewrite map_map.
    erewrite map_ext by (intros; apply forecast_point_confidence).
    fold boost. unfold range_from_1. rewrite map_map.
    destruct (Z.ltb_spec 0 (forecast_days request)) as [Hpos | Hneg].
    + apply antitone_sorted. intros a b Hab.
      apply boosted_confidence_antitone; lia.
    + replace (Z.to_nat (forecast_days request)) with 0%nat by lia.
      constructor.
Qed.

Lemma confidence_band_witness :
  let request := uniform_request 5 in
  let response := response_of (expense_forecasting flat_fit request) in
  Forall (fun p => 0.7 <= confidence p <= 0.95) (forecast response)
  /\ StronglySorted Rge (map confidence (forecast response)).
Proof.
  apply (confidence_band flat_fit (uniform_request 5)).
  exact (uniform_request_accepted 5).
Defined.

End ForecastLevels.

(** ** Forecasting: the daily series and its smoothing *)

Section DailySeries.

Import Forecast.







Lemma ewm_from_bounds (alpha lo hi : R) (xs : list R) :
  0 <= alpha <= 1 ->
  Forall (fun x => lo <= x <= hi) xs ->
  forall prev, lo <= prev <= hi ->
               Forall (fun y => lo <= y <= hi) (ewm_from alpha prev xs).
Proof.
  intros Ha. induction 1 as [| x xs Hx _ IH]; intros prev Hp; cbn;
    [constructor |].
  assert (lo <= (1 - alpha) * prev + alpha * x <= hi) by nra.
  constructor; [assumption | now apply IH].
Qed.

Lemma ewm_mean_bounds (span : nat) (lo hi : R) (xs : list R) :
  (1 <= span)%nat ->
  Forall (fun x => lo <= x <= hi) xs ->
  Forall (fun y => lo <= y <= hi) (ewm_mean span xs)
  /\ length (ewm_mean span xs) = length xs.
Proof.
  intros Hspan Hxs. unfold ewm_mean.
  destruct xs as [| x0 xs]; [split; [constructor | reflexivity] |].
  inversion Hxs as [| ? ? H0 Hrest]; subst.
  assert (Hs : 1 <= of_nat span) by (unfold of_nat; apply IZR_le; lia).
  assert (Ha : 0 <= 2 / (of_nat span + 1) <= 1).
  { assert (0 < of_nat span + 1) by lra.
    pose proof (Rinv_0_lt_compat _ H) as Hinv. unfold Rdiv. split; [nra |].
    apply (Rmult_le_reg_r (of_nat span + 1)); [assumption |].
    rewrite Rmult_assoc, Rinv_l by lra. lra. }
  split.
  - constructor; [assumption |]. now apply ewm_from_bounds.
  - cbn. f_equal. clear.
    generalize (2 / (of_nat span + 1)) x0. intros alpha prev. revert prev.
    induction xs as [| x xs IH]; intros prev; cbn; [reflexivity |].
    now rewrite IH.
Qed.

(** The smoothed series ends with a value, and this value is the level. *)
Lemma current_ema_last (daily : list (Z * R)) :
  daily <> [] ->
  exists e, current_ema_of daily = Fin e
            /\ In e (ewm_mean (Nat.min 7 (length daily)) (map snd daily)).
Proof.
  intros Hne. unfold current_ema_of. cbv zeta.
  destruct (rev (ewm_mean (Nat.min 7 (length daily)) (map snd daily)))
    as [| e l] eqn:E.
  - apply (f_equal (@length R)) in E. rewrite length_rev in E.
    unfold ewm_mean in E. destruct daily as [| r daily]; [congruence |].
    cbn in E. discriminate.
  - exists e. split; [reflexivity |]. apply in_rev. rewrite E. now left.
Qed.

(** X19: the smoothed level the forecast starts from lies between the
    smallest and the largest daily total: if every row of a daily series
    that is not empty lies between [lo] and [hi], so does [current_ema]. *)
Theorem current_ema_within_range (daily : list (Z * R)) (lo hi : R) :
  daily <> [] ->
  Forall (fun r => lo <= snd r <= hi) daily ->
  exists e, current_ema_of daily = Fin e /\ lo <= e <= hi.
Proof.
  intros Hne Hall.
  destruct (current_ema_last daily Hne) as (e & He & Hin).
  exists e. split; [exact He |].
  assert (Hspan : (1 <= Nat.min 7 (length daily))%nat)
    by (destruct daily; [congruence | cbn; lia]).
  assert (Hxs : Forall (fun x => lo <= x <= hi) (map snd daily))
    by now rewrite Forall_map.
  destruct (ewm_mean_bounds _ lo hi (map snd daily) Hspan Hxs) as [Hb _].
  rewrite Forall_forall in Hb. now apply Hb.
Qed.

Lemma current_ema_within_range_witness :
  exists e, current_ema_of [(1%Z, 300); (2%Z, 500); (4%Z, 400)] = Fin e
            /\ 300 <= e <= 500.
Proof.
  apply current_ema_within_range; [discriminate |].
  repeat constructor; cbn; lra.
Defined.

End DailySeries.

(** ** Forecasting: a flat history *)

Section FlatHistory.

Import Forecast.










End FlatHistory.

(** ** Clustering features: the category encoding *)

Section FeatureTable.

Import Features.

Lemma mem_In (c : string) (l : list string) :
  Clustering.mem c l = true <-> In c l.
Proof.
  unfold Clustering.mem. rewrite existsb_exists. split.
  - intros (x & Hin & Heq). apply String.eqb_eq in Heq. now subst.
  - intros Hin. exists c. split; [exact Hin | apply String.eqb_refl].
Qed.

Lemma unique_spec (cats : list string) :
  forall acc,
    NoDup acc ->
    let keys :=
      fold_left (fun acc c => if Clustering.mem c acc then acc
                              else (acc ++ [c])%list) cats acc in
    NoDup keys /\ (forall x, In x keys <-> In x acc \/ In x cats)
    /\ exists rest, keys = (acc ++ rest)%list.
Proof.
  induction cats as [| c cats IH]; cbn; intros acc Hnd.
  - split; [exact Hnd |]. split; [tauto |]. exists []. now rewrite app_nil_r.
  - destruct (Clustering.mem c acc) eqn:Hmem.
    + apply mem_In in Hmem. destruct (IH acc Hnd) as (H1 & H2 & H3).
      split; [exact H1 |]. split; [| exact H3].
      intros x. rewrite H2. intuition (subst; auto).
    + assert (Hnotin : ~ In c acc).
      { intros Hin. apply mem_In in Hin. congruence. }
      assert (Hnd' : NoDup (acc ++ [c])).
      { apply NoDup_app; [exact Hnd | repeat constructor; intros [] |].
        intros x Hx [<- | []]. contradiction. }
      destruct (IH (acc ++ [c])%list Hnd') as (H1 & H2 & (rest & H3)).
      split; [exact H1 |]. split.
      * intros x. rewrite H2, in_app_iff. cbn. intuition.
      * exists (c :: rest). rewrite H3, <- app_assoc. reflexivity.
Qed.

Lemma position_from_spec (c : string) (keys : list string) :
  forall start,
    match position_from start c keys with
    | Some i => (start <= i < start + length keys)%nat
                /\ nth_error keys (i - start) = Some c
    | None => ~ In c keys
    end.
Proof.
  induction keys as [| k keys IH]; cbn; intros start; [tauto |].
  destruct (String.eqb_spec k c) as [-> | Hne].
  - split; [lia |]. now rewrite Nat.sub_diag.
  - specialize (IH (S start)).
    destruct (position_from (S start) c keys) as [i |].
    + destruct IH as [Hi Hnth]. split; [lia |].
      replace (i - start)%nat with (S (i - S start)) by lia. exact Hnth.
    + intros [H | H]; [congruence | contradiction].
Qed.

Lemma category_id_of_spec (keys : list string) (c : string) :
  In c keys ->
  (category_id_of keys c < length keys)%nat
  /\ nth_error keys (category_id_of keys c) = Some c.
Proof.
  intros Hin. unfold category_id_of.
  pose proof (position_from_spec c keys 0) as H.
  destruct (position_from 0 c keys) as [i |]; [| contradiction].
  destruct H as [Hi Hnth]. rewrite Nat.sub_0_r in Hnth. split; [lia | exact Hnth].
Qed.

(** X21: on a frame with rows, the feature table has one row per
    transaction, in order; [category_id] is an encoding of the categories:
    two rows get the same id exactly when their categories are equal, and
    every id is below [num_categories], the number of distinct categories.
    On a frame without rows the function raises. *)
Theorem category_ids_encode_categories (df : list Transaction) :
  _engineer_features_for_clustering [] = Raise (LibraryError "division by zero")
  /\ (df <> [] ->
      exists rows,
        _engineer_features_for_clustering df = Ok rows
        /\ Forall2 (fun t r => col_amount r = amount t) df rows
        /\ (forall t1 r1 t2 r2,
               In (t1, r1) (combine df rows) -> In (t2, r2) (combine df rows) ->
               (col_category_id r1 = col_category_id r2
                <-> category t1 = category t2))
        /\ Forall (fun r => (col_category_id r < col_num_categories r)%nat
                            /\ col_num_categories r
                               = length (unique (map category df)))
                  rows).
Proof.
  split; [reflexivity |]. intros Hne.
  unfold _engineer_features_for_clustering.
  destruct df as [| t0 df0]; [congruence |].
  set (df := t0 :: df0) in *.
  eexists. split; [reflexivity |].
  destruct (unique_spec (map category df) [] (NoDup_nil _))
    as (Hnd & Hkeys & _). cbv zeta in Hnd, Hkeys.
  fold (unique (map category df)) in Hnd, Hkeys.
  assert (Hin : forall t, In t df -> In (category t) (unique (map category df))).
  { intros t Ht. apply Hkeys. right. now apply in_map. }
  assert (Hlen : length (Clustering.value_counts (map category df))
                 = length (unique (map category df))).
  { destruct (value_counts_spec (map category df)) as (Hnd' & Hkeys' & _).
    cbv zeta in *. rewrite <- (length_map fst).
    apply Permutation_length, NoDup_Permutation; [exact Hnd' | exact Hnd |].
    intros x. rewrite Hkeys', Hkeys. cbn. tauto. }
  split; [| split].
  - generalize (unique (map category df)) (fillna0 (mean (amounts df)))
      (fillna0 (std (amounts df)))
      (length (Clustering.value_counts (map category df)))
      (of_nat (length (filter is_expense df)) / of_nat (length df)).
    intros keys a b n e. clear.
    induction df as [| t df IH]; cbn; constructor; auto.
  - intros t1 r1 t2 r2 H1 H2.
    assert (Hc : forall t r,
               In (t, r) (combine df
                            (map (fun t =>
                                    mkRow (fillna0 (mean (amounts df)))
                                      (fillna0 (std (amounts df)))
                                      (length (Clustering.value_counts
                                                 (map category df)))
                                      (of_nat (length (filter is_expense df))
                                       / of_nat (length df))
                                      (amount t)
                                      (if is_expense t then 1%Z else 0%Z)
                                      (category_id_of
                                         (unique (map category df))
                                         (category t))) df)) ->
               In t df
               /\ col_category_id r
                  = category_id_of (unique (map category df)) (category t)).
    { generalize (unique (map category df)) (fillna0 (mean (amounts df)))
        (fillna0 (std (amounts df)))
        (length (Clustering.value_counts (map category df)))
        (of_nat (length (filter is_expense df)) / of_nat (length df)).
      intros keys a b n e. clear.
      induction df as [| t' df IH]; cbn; [tauto |].
      intros t r [Heq | Hin].
      - injection Heq as <- <-. cbn. tauto.
      - destruct (IH t r Hin). tauto. }
    destruct (Hc _ _ H1) as [Ht1 ->]. destruct (Hc _ _ H2) as [Ht2 ->].
    destruct (category_id_of_spec _ _ (Hin _ Ht1)) as [_ Hn1].
    destruct (category_id_of_spec _ _ (Hin _ Ht2)) as [_ Hn2].
    split; [intros E; rewrite E in Hn1; congruence | intros ->; reflexivity].
  - rewrite Forall_map, Forall_forall. intros t Ht.
    cbn [col_category_id col_num_categories].
    rewrite Hlen. split; [| reflexivity].
    apply category_id_of_spec, Hin, Ht.
Qed.

End FeatureTable.

Lemma category_ids_encode_categories_witness :
  exists rows,
    Features._engineer_features_for_clustering rent_rows = Ok rows
    /\ Forall2 (fun t r => Features.col_amount r = amount t) rent_rows rows
    /\ (forall t1 r1 t2 r2,
           In (t1, r1) (combine rent_rows rows) ->
           In (t2, r2) (combine rent_rows rows) ->
           (Features.col_category_id r1 = Features.col_category_id r2
            <-> category t1 = category t2))
    /\ Forall (fun r =>
                 (Features.col_category_id r < Features.col_num_categories r)%nat
                 /\ Features.col_num_categories r
                    = length (Features.unique (map category rent_rows)))
              rows.
Proof.
  apply (proj2 (category_ids_encode_categories rent_rows)). discriminate.
Defined.

(** ** The keyword categoriser *)

Section CategorizerFacts.

Import Categorizer.

Lemma category_names_NoDup : NoDup ("Other" :: category_names).
Proof.
  unfold category_names. cbn.
  repeat (constructor;
          [cbn; intros H;
           repeat (destruct H as [H | H]; [discriminate H |]); exact H |]).
  constructor.
Qed.

Lemma keyword_scores_keys (d m : string) :
  map fst (keyword_scores d m) = category_names.
Proof.
  unfold keyword_scores, category_names. rewrite map_map.
  apply map_ext. now intros [c kws].
Qed.

Lemma put_keys (key : string) (v : nat) (scores : list (string * nat)) :
  In key (map fst scores) -> map fst (put key v scores) = map fst scores.
Proof.
  induction scores as [| [k v'] scores IH]; cbn; [tauto |].
  destruct (String.eqb_spec k key) as [-> | Hne]; [reflexivity |].
  intros [H | H]; [congruence |]. cbn. f_equal. now apply IH.
Qed.

Lemma amount_rules_keys (ty : string) (a : R) (scores : list (string * nat)) :
  map fst scores = category_names ->
  map fst (amount_rules ty a scores) = category_names.
Proof.
  intros Hk. unfold amount_rules, raise_to.
  destruct (String.eqb ty "Income").
  - destruct (Rgtb a 5000); [| exact Hk].
    rewrite put_keys; [exact Hk |]. rewrite Hk. cbn. tauto.
  - destruct (Rltb a 500); [| exact Hk].
    rewrite put_keys; rewrite put_keys; try exact Hk;
      rewrite Hk; cbn; tauto.
Qed.

Lemma sorted_desc_spec (scores : list (string * nat)) :
  Permutation (sorted_desc scores) scores
  /\ StronglySorted (fun a b => (snd b <= snd a)%nat) (sorted_desc scores).
Proof.
  unfold sorted_desc. induction scores as [| x l [IHp IHs]]; cbn.
  - split; constructor.
  - split; [| now apply insert_count_sorted].
    rewrite insert_count_perm. now constructor.
Qed.

Lemma get0_entry (scores : list (string * nat)) (c : string) (k : nat) :
  NoDup (map fst scores) -> In (c, k) scores -> get0 scores c = k.
Proof.
  induction scores as [| [c' k'] scores IH]; cbn; [intros _ [] |].
  intros Hnd [Heq | Hin].
  - injection Heq as -> ->. now rewrite String.eqb_refl.
  - inversion Hnd as [| ? ? Hnotin Hnd']; subst.
    destruct (String.eqb_spec c' c) as [-> | Hne]; [| now apply IH].
    exfalso. apply Hnotin. now apply (in_map fst) in Hin.
Qed.

Lemma confidence_of_band (k : nat) : 0.1 <= confidence_of k <= 0.99.
Proof.
  unfold confidence_of. rewrite min2_Rmin.
  assert (1 <= of_nat (k + 1)) by (unfold of_nat; apply IZR_le; lia).
  split; [apply Rmin_glb; lra | apply Rmin_l].
Qed.

Lemma confidence_of_antitone (j k : nat) :
  (j <= k)%nat -> confidence_of j <= confidence_of k.
Proof.
  intros H. unfold confidence_of. rewrite !min2_Rmin.
  apply Rle_min_compat_l.
  assert (of_nat (j + 1) <= of_nat (k + 1))
    by (unfold of_nat; apply IZR_le; lia).
  lra.
Qed.

(** The sorted table of a request and the answer built from it. *)
Lemma categorize_shape (lower : string -> string)
    (request : CategorizerRequest) :
  exists e0 e1 e2 e3 rest,
    sorted_desc (final_scores lower request) = e0 :: e1 :: e2 :: e3 :: rest
    /\ categorize_transaction lower request
       = Ok (mkResponse
               (if (snd e0 =? 0)%nat then "Other" else fst e0)
               (if (snd e0 =? 0)%nat then 0.3
                else Forecast.min2 0.99
                       (Forecast.max2 0.5 (of_nat (snd e0 + 1) / 10)))
               [(fst e1, confidence_of (snd e1));
                (fst e2, confidence_of (snd e2));
                (fst e3, confidence_of (snd e3))]
               (TypicalFor (amount request)
                  (if (snd e0 =? 0)%nat then "Other" else fst e0))).
Proof.
  unfold categorize_transaction, categorize_body. fold (final_scores lower request).
  destruct (sorted_desc_spec (final_scores lower request)) as [Hperm _].
  assert (Hlen : length (sorted_desc (final_scores lower request)) = 12%nat).
  { rewrite (Permutation_length Hperm), <- (length_map fst).
    unfold final_scores.
    rewrite amount_rules_keys by apply keyword_scores_keys. reflexivity. }
  destruct (sorted_desc (final_scores lower request))
    as [| [c0 k0] [| [c1 k1] [| [c2 k2] [| [c3 k3] rest]]]];
    try discriminate.
  exists (c0, k0), (c1, k1), (c2, k2), (c3, k3), rest.
  split; [reflexivity |]. cbn. now destruct (k0 =? 0)%nat.
Qed.

Lemma final_scores_keys (lower : string -> string)
    (request : CategorizerRequest) :
  map fst (final_scores lower request) = category_names.
Proof.
  unfold final_scores. apply amount_rules_keys, keyword_scores_keys.
Qed.

(** X22: the categoriser always answers, with exactly three alternatives;
    the predicted category and the alternatives are four different names,
    the alternatives are categories of the keyword table with confidences
    between 0.1 and 0.99, and the prediction is either "Other" with
    confidence 0.3 or a category of the table with a confidence between 0.5
    and 0.99. *)
Theorem categorizer_answer_shape (lower : string -> string)
    (request : CategorizerRequest) :
  exists response,
    categorize_transaction lower request = Ok response
    /\ length (alternative_categories response) = 3%nat
    /\ NoDup (predicted_category response
              :: map fst (alternative_categories response))
    /\ incl (map fst (alternative_categories response)) category_names
    /\ Forall (fun a => 0.1 <= snd a <= 0.99) (alternative_categories response)
    /\ ((predicted_category response = "Other"
         /\ confidence response = 0.3)
        \/ (In (predicted_category response) category_names
            /\ 0.5 <= confidence response <= 0.99)).
Proof.
  destruct (categorize_shape lower request)
    as ([c0 k0] & [c1 k1] & [c2 k2] & [c3 k3] & rest & Hsorted & Hok).
  eexists. split; [exact Hok |].
  cbn [alternative_categories predicted_category confidence fst snd map length].
  destruct (sorted_desc_spec (final_scores lower request)) as [Hperm _].
  rewrite Hsorted in Hperm.
  assert (Hkeys : Permutation (c0 :: c1 :: c2 :: c3 :: map fst rest)
                              category_names).
  { rewrite <- (final_scores_keys lower request).
    apply (Permutation_map fst) in Hperm. exact Hperm. }
  pose proof category_names_NoDup as Hnd.
  assert (Hnd4 : NoDup ("Other" :: c0 :: c1 :: c2 :: c3 :: map fst rest)).
  { eapply Permutation_NoDup; [| exact Hnd].
    constructor. now symmetry. }
  assert (Hin : forall c, In c [c0; c1; c2; c3] -> In c category_names).
  { intros c Hc. eapply Permutation_in; [exact Hkeys |].
    cbn in *. tauto. }
  split; [reflexivity |]. split; [| split; [| split]].
  - inversion Hnd4 as [| ? ? Hother Hrest]; subst.
    inversion Hrest as [| ? ? H0 Hrest1]; subst.
    inversion Hrest1 as [| ? ? H1 Hrest2]; subst.
    inversion Hrest2 as [| ? ? H2 Hrest3]; subst.
    cbn in *.
    destruct (k0 =? 0)%nat;
      repeat (constructor; [cbn; intuition |]); constructor.
  - intros c Hc. apply Hin. cbn in *. tauto.
  - repeat (constructor; [apply confidence_of_band |]). constructor.
  - destruct (k0 =? 0)%nat; [left; split; reflexivity | right].
    split; [apply Hin; now left |].
    rewrite min2_Rmin, max2_Rmax.
    split; [apply Rmin_glb; [lra | apply Rmax_l] | apply Rmin_l].
Qed.

(** X23: the prediction is "Other" exactly when every score of the table
    is 0; otherwise the predicted category has a positive score that no
    category exceeds, and its confidence is
    [min(0.99, max(0.5, (score + 1) / 10))].  The confidences of the
    alternatives never increase along the list. *)
Theorem categorizer_picks_top_score (lower : string -> string)
    (request : CategorizerRequest) :
  exists response,
    categorize_transaction lower request = Ok response
    /\ (predicted_category response = "Other"
        <-> Forall (fun e => snd e = 0%nat) (final_scores lower request))
    /\ (predicted_category response <> "Other" ->
        let k := get0 (final_scores lower request)
                   (predicted_category response) in
        (0 < k)%nat
        /\ Forall (fun e => (snd e <= k)%nat) (final_scores lower request)
        /\ confidence response
           = Rmin 0.99 (Rmax 0.5 (of_nat (k + 1) / 10)))
    /\ StronglySorted Rge (map snd (alternative_categories response)).
Proof.
  destruct (categorize_shape lower request)
    as ([c0 k0] & [c1 k1] & [c2 k2] & [c3 k3] & rest & Hsorted & Hok).
  eexists. split; [exact Hok |].
  cbn [alternative_categories predicted_category confidence fst snd map].
  destruct (sorted_desc_spec (final_scores lower request)) as [Hperm Hs].
  rewrite Hsorted in Hperm, Hs.
  pose proof category_names_NoDup as Hnd.
  assert (Hnd' : NoDup (map fst (final_scores lower request))).
  { rewrite final_scores_keys. now inversion Hnd. }
  assert (Hother : ~ In "Other" (map fst (final_scores lower request))).
  { rewrite final_scores_keys. now inversion Hnd. }
  assert (Hc0 : In (c0, k0) (final_scores lower request)).
  { eapply Permutation_in; [exact Hperm | now left]. }
  assert (Hmax : Forall (fun e => (snd e <= k0)%nat)
                   (final_scores lower request)).
  { inversion Hs as [| ? ? _ Hall]; subst.
    rewrite Forall_forall in *. intros e He.
    apply (Permutation_in _ (Permutation_sym Hperm)) in He.
    destruct He as [<- | He]; [cbn; lia | now apply Hall]. }
  split; [| split].
  - destruct (Nat.eqb_spec k0 0) as [-> | Hk].
    + split; [intros _ | reflexivity].
      eapply Forall_impl; [| exact Hmax]. cbn. intros; lia.
    + split.
      * intros ->. exfalso. apply Hother. now apply (in_map fst) in Hc0.
      * intros Hall. rewrite Forall_forall in Hall.
        specialize (Hall _ Hc0). cbn in Hall. contradiction.
  - destruct (Nat.eqb_spec k0 0) as [-> | Hk]; [congruence |].
    intros _. cbv zeta. rewrite (get0_entry _ c0 k0 Hnd' Hc0).
    split; [lia |]. split; [exact Hmax |].
    now rewrite min2_Rmin, max2_Rmax.
  - inversion Hs as [| ? ? Hs1 Hall0]; subst.
    inversion Hs1 as [| ? ? Hs2 Hall1]; subst.
    inversion Hs2 as [| ? ? Hs3 Hall2]; subst.
    inversion Hall1 as [| ? ? H12 Hall1']; subst.
    inversion Hall1' as [| ? ? H13 _]; subst.
    inversion Hall2 as [| ? ? H23 _]; subst. cbn in *.
    assert (H21 := confidence_of_antitone _ _ H12).
    assert (H31 := confidence_of_antitone _ _ H13).
    assert (H32 := confidence_of_antitone _ _ H23).
    apply SSorted_cons; [apply SSorted_cons; [apply SSorted_cons |] |].
    + apply SSorted_nil.
    + apply Forall_nil.
    + apply Forall_cons; [now apply Rle_ge | apply Forall_nil].
    + apply Forall_cons; [now apply Rle_ge |].
      apply Forall_cons; [now apply Rle_ge | apply Forall_nil].
Qed.

Lemma filter_none {A : Type} (f : A -> bool) (l : list A) :
  forallb (fun x => negb (f x)) l = true -> filter f l = [].
Proof.
  induction l as [| x l IH]; cbn; [reflexivity |].
  destruct (f x); cbn; [discriminate | exact IH].
Qed.

Lemma keyword_scores_none (d m : string) :
  no_keyword d m = true ->
  keyword_scores d m = map (fun c => (c, 0%nat)) category_names.
Proof.
  unfold no_keyword, keyword_scores, category_names. intros H.
  rewrite forallb_forall in H. rewrite map_map.
  apply map_ext_in. intros [c kws] Hin. specialize (H _ Hin). cbn in H.
  cbn. f_equal. now rewrite (filter_none _ _ H).
Qed.

Lemma confidence_of_0 : confidence_of 0 = 0.1.
Proof. unfold confidence_of. eval_floats. lra. Qed.

Lemma confidence_of_2 : confidence_of 2 = 0.3.
Proof. unfold confidence_of. eval_floats. lra. Qed.

(** X24: when no keyword of the table occurs in the lower-cased description
    or merchant name, the amount alone decides.  An income above 5000 is
    "Salary" with confidence 0.6; an expense (any type other than "Income")
    below 500 is "Food & Dining" with confidence 0.5 and "Groceries" at 0.3
    as first alternative; every other request is "Other" with confidence
    0.3.  The remaining alternatives are the first categories of the table,
    at 0.1. *)
Theorem no_keyword_amount_decides (lower : string -> string)
    (request : CategorizerRequest) :
  no_keyword (lower (description request)) (lower (merchantName request))
  = true ->
  categorize_transaction lower request
  = Ok (if String.eqb (type request) "Income" then
          if Rgtb (amount request) 5000 then salary_response (amount request)
          else other_response (amount request)
        else
          if Rltb (amount request) 500 then food_response (amount request)
          else other_response (amount request)).
Proof.
  intros Hnone. unfold categorize_transaction, categorize_body.
  rewrite (keyword_scores_none _ _ Hnone). unfold amount_rules.
  destruct (String.eqb (type request) "Income");
    [destruct (Rgtb (amount request) 5000)
    | destruct (Rltb (amount request) 500)];
    cbn [category_names category_keywords map fst raise_to get0 put
         String.eqb Ascii.eqb Bool.eqb Nat.max sorted_desc fold_right
         Clustering.insert_count Nat.leb Nat.eqb Nat.add firstn skipn snd
         try_except];
    rewrite ?confidence_of_0, ?confidence_of_2;
    unfold salary_response, other_response, food_response;
    try reflexivity; do 2 f_equal;
    rewrite min2_Rmin, max2_Rmax; unfold Rmin, Rmax, of_nat; cbn;
    repeat destruct Rle_dec; lra.
Qed.

Lemma no_keyword_amount_decides_witness :
  no_keyword (already_lower (description unmatched_request))
    (already_lower (merchantName unmatched_request)) = true
  /\ categorize_transaction already_lower unmatched_request
     = Ok (if String.eqb (type unmatched_request) "Income" then
             if Rgtb (amount unmatched_request) 5000 then
               salary_response (amount unmatched_request)
             else other_response (amount unmatched_request)
           else
             if Rltb (amount unmatched_request) 500 then
               food_response (amount unmatched_request)
             else other_response (amount unmatched_request)).
Proof.
  split; [reflexivity |].
  apply (no_keyword_amount_decides already_lower unmatched_request).
  reflexivity.
Defined.

End CategorizerFacts.

(** ** The budget optimiser *)

Section BudgetFacts.

Import Budget.

Variable logger_warn : result unit.

Lemma insert_goal_perm (g : SavingsGoal) (l : list SavingsGoal) :
  Permutation (insert_goal g l) (g :: l).
Proof.
  induction l as [| h l IH]; cbn; [reflexivity |].
  destruct (priority h <=? priority g)%Z; [reflexivity |].
  rewrite IH. apply perm_swap.
Qed.

Lemma sorted_goals_perm (goals : list SavingsGoal) :
  Permutation (sorted_goals_of goals) goals.
Proof.
  unfold sorted_goals_of. induction goals as [| g l IH]; cbn; [constructor |].
  rewrite insert_goal_perm. now constructor.
Qed.

Lemma sum_priorities_perm (l l' : list SavingsGoal) :
  Permutation l l' -> sum_priorities l = sum_priorities l'.
Proof. induction 1; cbn; lia. Qed.

Lemma dict_set_fresh (key : string) (v : R) (d : list (string * R)) :
  ~ In key (map fst d) -> dict_set key v d = (d ++ [(key, v)])%list.
Proof.
  induction d as [| [k v'] d IH]; cbn; [reflexivity |].
  intros Hnotin. destruct (String.eqb_spec k key) as [-> | Hne]; [tauto |].
  f_equal. apply IH. tauto.
Qed.

Lemma dict_set_Forall (Q : string * R -> Prop) (key : string) (v : R)
    (d : list (string * R)) :
  Forall Q d -> (forall k, Q (k, v)) -> Forall Q (dict_set key v d).
Proof.
  intros Hd Hv. induction Hd as [| [k v'] d Hx Hd IH]; cbn.
  - constructor; [apply Hv | constructor].
  - destruct (String.eqb k key); constructor; auto.
Qed.

Lemma dict_set_keys (key : string) (v : R) (d : list (string * R)) (k : string) :
  In k (map fst (dict_set key v d)) <-> k = key \/ In k (map fst d).
Proof.
  induction d as [| [k' v'] d IH]; cbn; [intuition |].
  destruct (String.eqb_spec k' key) as [-> | Hne]; cbn; [intuition |].
  rewrite IH. intuition.
Qed.

(** The loop with distinct, fresh goal names appends one entry per goal. *)
Lemma allocate_distinct (P : Z) (A : R) (goals : list SavingsGoal) :
  forall da dp,
    P <> 0%Z ->
    NoDup (map fst da ++ map name goals) ->
    NoDup (map fst dp ++ map name goals) ->
    allocate P A goals da dp
    = Ok ((da ++ map (fun g => (name g, allocation_of P A g)) goals)%list,
          (dp ++ map (fun g => (name g,
                                probability_of (allocation_of P A g) g))
                   goals)%list).
Proof.
  induction goals as [| g goals IH]; intros da dp HP Hda Hdp; cbn.
  - now rewrite !app_nil_r.
  - destruct (Z.eqb_spec P 0) as [? | _]; [contradiction |].
    assert (Hfa : ~ In (name g) (map fst da)).
    { intros Hin. apply NoDup_remove_2 in Hda. apply Hda.
      apply in_or_app. now left. }
    assert (Hfp : ~ In (name g) (map fst dp)).
    { intros Hin. apply NoDup_remove_2 in Hdp. apply Hdp.
      apply in_or_app. now left. }
    rewrite (dict_set_fresh _ _ da Hfa), (dict_set_fresh _ _ dp Hfp).
    rewrite IH; [now rewrite <- !app_assoc | exact HP | |].
    + rewrite map_app, <- app_assoc. cbn.
      eapply Permutation_NoDup; [| exact Hda].
      apply Permutation_app_head. reflexivity.
    + rewrite map_app, <- app_assoc. cbn.
      eapply Permutation_NoDup; [| exact Hdp].
      apply Permutation_app_head. reflexivity.
Qed.

(** The loop in general: it ends, and the probabilities it leaves cover the
    goals and are capped. *)
Lemma allocate_general (P : Z) (A : R) (goals : list SavingsGoal) :
  forall da dp,
    P <> 0%Z ->
    Forall (fun e => snd e <= 0.99) dp ->
    exists da' dp',
      allocate P A goals da dp = Ok (da', dp')
      /\ Forall (fun e => snd e <= 0.99) dp'
      /\ (forall k, In k (map fst dp') <->
                    In k (map fst dp) \/ In k (map name goals)).
Proof.
  induction goals as [| g goals IH]; intros da dp HP Hdp; cbn.
  - exists da, dp. split; [reflexivity |]. split; [exact Hdp |]. tauto.
  - destruct (Z.eqb_spec P 0) as [? | _]; [contradiction |].
    destruct (IH (dict_set (name g) (allocation_of P A g) da)
                 (dict_set (name g)
                    (probability_of (allocation_of P A g) g) dp) HP)
      as (da' & dp' & Hok & Hcap & Hkeys).
    { apply dict_set_Forall; [exact Hdp |]. intros k. cbn.
      unfold probability_of. rewrite min2_Rmin. apply Rmin_l. }
    exists da', dp'. split; [exact Hok |]. split; [exact Hcap |].
    intros k. rewrite Hkeys, dict_set_keys. intuition.
Qed.

Lemma expense_plan_amounts (income : R) (expenses : list (string * R)) :
  map allocated_amount (expense_plan income expenses) = map snd expenses.
Proof.
  unfold expense_plan. rewrite map_map. apply map_ext. now intros [c a].
Qed.

Lemma goal_plan_amounts (income : R) (allocations : list (string * R)) :
  map allocated_amount (goal_plan income allocations) = map snd allocations.
Proof.
  unfold goal_plan. rewrite map_map. apply map_ext. now intros [c a].
Qed.

(** X25: a request whose monthly income is zero or negative is answered
    with status 500, not 400: the 400 raised by the check is caught by the
    endpoint's own handler, and the 500 carries its text. *)
Theorem nonpositive_income_answers_500 (request : BudgetOptimizerRequest) :
  monthly_income request <= 0 ->
  optimize_budget logger_warn request
  = Raise (HTTPException 500
             (str (HTTPException 400 "Monthly income must be positive"))).
Proof.
  intros H. unfold optimize_budget, optimize_body.
  now rewrite Rleb_true by exact H.
Qed.

(** X26: with a positive income that covers the expenses, goals whose
    priorities add up to 0 make the endpoint answer 500 "division by
    zero". *)
Theorem zero_total_priority_answers_500 (request : BudgetOptimizerRequest) :
  0 < monthly_income request ->
  sum (map snd (expense_categories request)) <= monthly_income request ->
  savings_goals request <> [] ->
  sum_priorities (savings_goals request) = 0%Z ->
  optimize_budget logger_warn request
  = Raise (HTTPException 500 "division by zero").
Proof.
  intros Hpos Hcover Hgoals Hzero. unfold optimize_budget, optimize_body.
  rewrite Rleb_false by exact Hpos. rewrite Rltb_false by lra.
  pose proof (sorted_goals_perm (savings_goals request)) as Hperm.
  rewrite (sum_priorities_perm _ _ Hperm), Hzero.
  destruct (sorted_goals_of (savings_goals request)) as [| g rest].
  - apply Permutation_nil in Hperm. contradiction.
  - reflexivity.
Qed.

Lemma insert_goal_sorted (g : SavingsGoal) (l : list SavingsGoal) :
  StronglySorted (fun a b => (priority b <= priority a)%Z) l ->
  StronglySorted (fun a b => (priority b <= priority a)%Z) (insert_goal g l).
Proof.
  induction 1 as [| h l Hs IH Hall]; cbn; [repeat constructor |].
  destruct (Z.leb_spec (priority h) (priority g)) as [Hle | Hgt].
  - apply SSorted_cons; [now apply SSorted_cons |].
    apply Forall_cons; [exact Hle |].
    eapply Forall_impl; [| exact Hall]. cbn. intros; lia.
  - apply SSorted_cons; [exact IH |].
    apply (Permutation_Forall (Permutation_sym (insert_goal_perm g l))).
    apply Forall_cons; [lia | exact Hall].
Qed.

Lemma sorted_goals_sorted (goals : list SavingsGoal) :
  StronglySorted (fun a b => (priority b <= priority a)%Z)
    (sorted_goals_of goals).
Proof.
  unfold sorted_goals_of. induction goals as [| g goals IH]; cbn.
  - constructor.
  - now apply insert_goal_sorted.
Qed.

(** X27: with a positive income that covers the expenses, distinct goal
    names and priorities not adding up to 0, the plan lists the expense
    categories with their amounts, followed by one "Goal: name" entry per
    goal in descending order of priority, each with the share
    [priority / total priority] of the surplus (income minus expenses); the
    probabilities are reported for the goals in the same order, and the
    savings potential is the surplus. *)
Theorem goals_served_by_priority (request : BudgetOptimizerRequest) :
  0 < monthly_income request ->
  sum (map snd (expense_categories request)) <= monthly_income request ->
  NoDup (map name (savings_goals request)) ->
  sum_priorities (savings_goals request) <> 0%Z ->
  let surplus :=
    monthly_income request - sum (map snd (expense_categories request)) in
  let share (g : SavingsGoal) :=
    IZR (priority g) / IZR (sum_priorities (savings_goals request))
    * surplus in
  exists response served,
    optimize_budget logger_warn request = Ok response
    /\ Permutation served (savings_goals request)
    /\ StronglySorted (fun a b => (priority b <= priority a)%Z) served
    /\ map category (allocation_plan response)
       = (map fst (expense_categories request)
          ++ map (fun g => "Goal: " ++ name g)%string served)%list
    /\ map allocated_amount (allocation_plan response)
       = (map snd (expense_categories request) ++ map share served)%list
    /\ map fst (goal_achievement_probability response) = map name served
    /\ total_savings_potential response = surplus.
Proof.
  intros Hpos Hcover Hnd HP surplus share.
  unfold optimize_budget, optimize_body.
  rewrite Rleb_false by exact Hpos. rewrite Rltb_false by lra.
  pose proof (sorted_goals_perm (savings_goals request)) as Hperm.
  rewrite (sum_priorities_perm _ _ Hperm).
  rewrite allocate_distinct; [| exact HP | |];
    try (cbn [map fst app]; eapply Permutation_NoDup; [| exact Hnd];
         symmetry; apply Permutation_map; exact Hperm).
  cbn [bind try_except app].
  eexists. exists (sorted_goals_of (savings_goals request)).
  split; [reflexivity |].
  cbn [allocation_plan total_savings_potential goal_achievement_probability].
  split; [exact Hperm |]. split; [apply sorted_goals_sorted |].
  split; [| split; [| split; [| reflexivity]]].
  - rewrite map_app. f_equal.
    + unfold expense_plan. rewrite map_map. apply map_ext. now intros [c a].
    + unfold goal_plan. rewrite !map_map. reflexivity.
  - rewrite map_app, expense_plan_amounts, goal_plan_amounts, map_map.
    reflexivity.
  - rewrite map_map. reflexivity.
Qed.

(** X28: when goals were sent and the answer reports no goal probability,
    the request was overspending and the goals were left out: the plan
    holds the expense categories with their amounts only, the savings
    potential is 0, and the amount reported as allocated is the sum of the
    expenses, above the income. *)
Theorem no_probabilities_means_overspending
    (request : BudgetOptimizerRequest) (response : BudgetOptimizerResponse) :
  optimize_budget logger_warn request = Ok response ->
  savings_goals request <> [] ->
  goal_achievement_probability response = [] ->
  map category (allocation_plan response)
  = map fst (expense_categories request)
  /\ map allocated_amount (allocation_plan response)
     = map snd (expense_categories request)
  /\ total_savings_potential response = 0
  /\ total_allocated response = sum (map snd (expense_categories request))
  /\ total_income response < total_allocated response.
Proof.
  intros Hok Hgoals Hnone. apply try_except_ok in Hok.
  unfold optimize_body in Hok.
  destruct (Rleb (monthly_income request) 0); [discriminate |].
  destruct (Rltb _ 0) eqn:Hover.
  - apply Rltb_lt in Hover.
    destruct logger_warn as [[] |]; [| discriminate].
    cbn [bind] in Hok. injection Hok as <-.
    cbn [allocation_plan total_savings_potential total_allocated
         total_income].
    split; [| split; [apply expense_plan_amounts |
                      split; [reflexivity | split; [reflexivity | lra]]]].
    unfold expense_plan. rewrite map_map. apply map_ext. now intros [c a].
  - exfalso.
    pose proof (sorted_goals_perm (savings_goals request)) as Hperm.
    destruct (Z.eq_dec
                (sum_priorities (sorted_goals_of (savings_goals request))) 0)
      as [Hzero | HP].
    + rewrite Hzero in Hok.
      destruct (sorted_goals_of (savings_goals request)) as [| g rest].
      * apply Permutation_nil in Hperm. contradiction.
      * discriminate.
    + destruct (allocate_general _
                  (monthly_income request
                   - sum (map snd (expense_categories request)))
                  (sorted_goals_of (savings_goals request)) [] [] HP
                  (Forall_nil _))
        as (da' & dp' & Halloc & _ & Hkeys).
      rewrite Halloc in Hok. cbn [bind] in Hok. injection Hok as <-.
      cbn [goal_achievement_probability] in Hnone. subst dp'.
      destruct (sorted_goals_of (savings_goals request)) as [| g rest].
      * apply Permutation_nil in Hperm. contradiction.
      * apply (proj2 (Hkeys (name g))). right. now left.
Qed.

(** X29: whenever the priorities of the goals do not add up to 0 and a
    positive income covers the expenses, the endpoint answers, reports a
    probability for exactly the goal names, and no probability exceeds
    0.99. *)
Theorem goal_probabilities_capped (request : BudgetOptimizerRequest) :
  0 < monthly_income request ->
  sum (map snd (expense_categories request)) <= monthly_income request ->
  sum_priorities (savings_goals request) <> 0%Z ->
  exists response,
    optimize_budget logger_warn request = Ok response
    /\ Forall (fun e => snd e <= 0.99) (goal_achievement_probability response)
    /\ (forall k, In k (map fst (goal_achievement_probability response))
                  <-> In k (map name (savings_goals request))).
Proof.
  intros Hpos Hcover HP. unfold optimize_budget, optimize_body.
  rewrite Rleb_false by exact Hpos. rewrite Rltb_false by lra.
  pose proof (sorted_goals_perm (savings_goals request)) as Hperm.
  rewrite (sum_priorities_perm _ _ Hperm).
  destruct (allocate_general (sum_priorities (savings_goals request))
              (monthly_income request
               - sum (map snd (expense_categories request)))
              (sorted_goals_of (savings_goals request)) [] [] HP
              (Forall_nil _))
    as (da' & dp' & Hok & Hcap & Hkeys).
  rewrite Hok. cbn [bind try_except]. eexists. split; [reflexivity |].
  cbn [goal_achievement_probability]. split; [exact Hcap |].
  intros k. rewrite Hkeys. cbn [map In]. split.
  - intros [[] | Hin].
    eapply Permutation_in; [apply Permutation_map; exact Hperm | exact Hin].
  - intros Hin. right.
    eapply Permutation_in;
      [apply Permutation_map; symmetry; exact Hperm | exact Hin].
Qed.

End BudgetFacts.

(** X27 at an income of 1000 with expenses of 800 and two goals: the trip
    (priority 3) is served before the car (priority 1). *)
Lemma goals_served_by_priority_witness :
  let surplus :=
    Budget.monthly_income two_goal_request
    - sum (map snd (Budget.expense_categories two_goal_request)) in
  let share (g : Budget.SavingsGoal) :=
    IZR (Budget.priority g)
    / IZR (Budget.sum_priorities (Budget.savings_goals two_goal_request))
    * surplus in
  exists response served,
    Budget.optimize_budget warn_returns two_goal_request = Ok response
    /\ Permutation served (Budget.savings_goals two_goal_request)
    /\ StronglySorted
         (fun a b => (Budget.priority b <= Budget.priority a)%Z) served
    /\ map Budget.category (Budget.allocation_plan response)
       = (map fst (Budget.expense_categories two_goal_request)
          ++ map (fun g => "Goal: " ++ Budget.name g)%string served)%list
    /\ map Budget.allocated_amount (Budget.allocation_plan response)
       = (map snd (Budget.expense_categories two_goal_request)
          ++ map share served)%list
    /\ map fst (Budget.goal_achievement_probability response)
       = map Budget.name served
    /\ Budget.total_savings_potential response = surplus.
Proof.
  apply (goals_served_by_priority warn_returns two_goal_request); cbn.
  - lra.
  - lra.
  - repeat (constructor; [cbn; intuition discriminate |]). constructor.
  - discriminate.
Defined.

Lemma nonpositive_income_answers_500_witness :
  Budget.optimize_budget warn_returns no_income_request
  = Raise (HTTPException 500
             (str (HTTPException 400 "Monthly income must be positive"))).
Proof.
  apply (nonpositive_income_answers_500 warn_returns no_income_request).
  cbn. lra.
Defined.

Lemma zero_total_priority_answers_500_witness :
  Budget.optimize_budget warn_returns idle_goal_request
  = Raise (HTTPException 500 "division by zero").
Proof.
  apply (zero_total_priority_answers_500 warn_returns idle_goal_request);
    cbn; try lra; try discriminate; reflexivity.
Defined.

(** X28 at an income of 700 with expenses of 800 and two goals. *)
Lemma no_probabilities_means_overspending_witness :
  exists response,
    Budget.optimize_budget warn_returns overspent_request = Ok response
    /\ map Budget.category (Budget.allocation_plan response)
       = map fst (Budget.expense_categories overspent_request)
    /\ map Budget.allocated_amount (Budget.allocation_plan response)
       = map snd (Budget.expense_categories overspent_request)
    /\ Budget.total_savings_potential response = 0
    /\ Budget.total_allocated response
       = sum (map snd (Budget.expense_categories overspent_request))
    /\ Budget.total_income response < Budget.total_allocated response.
Proof.
  assert (Hok : Budget.optimize_budget warn_returns overspent_request
                = Ok (Budget.mkResponse "u1"
                        (Budget.expense_plan 700 sample_expenses)
                        700 (sum (map snd sample_expenses)) 0 [])).
  { unfold Budget.optimize_budget, Budget.optimize_body.
    rewrite Rleb_false by (cbn; lra). rewrite Rltb_true by (cbn; lra).
    unfold warn_returns. cbn [bind try_except]. reflexivity. }
  eexists. split; [exact Hok |].
  apply (no_probabilities_means_overspending warn_returns overspent_request
           _ Hok).
  - discriminate.
  - reflexivity.
Defined.

Lemma goal_probabilities_capped_witness :
  exists response,
    Budget.optimize_budget warn_returns two_goal_request = Ok response
    /\ Forall (fun e => snd e <= 0.99)
         (Budget.goal_achievement_probability response)
    /\ (forall k,
           In k (map fst (Budget.goal_achievement_probability response))
           <-> In k (map Budget.name (Budget.savings_goals two_goal_request))).
Proof.
  apply (goal_probabilities_capped warn_returns two_goal_request);
    [cbn; lra | cbn; lra | discriminate].
Defined.
